(** * twitchirc: transport queues, message model and command dispatch

    A shallow embedding of the Python sources
      - [irclib/connection.py]          (class [Connection])
      - [twitchirc/messages.py]         (the message classes, [auto_message])
      - [twitchirc/command.py]          (class [Command])
      - [twitchirc/bot.py]              (class [Bot])
      - [twitchirc/permission_names.py] (the reserved permission strings)
      - [irclib/stock_commands.py]      (the stock permission handler and
                                         the command [join])
    followed by the properties of the specification that concern them and
    by further properties of the same code.

    Conventions of the embedding.
      - A Python [str] is a [string]; [bytes(s, 'utf-8')] is the identity
        (a [string] is read as the UTF-8 encoded text, on which the
        prefix, split and replace operations used by the sources agree with
        their character-level versions).
      - A Python [dict] is a [gmap]; a missing key raises [KeyError].
      - Timestamps ([time.time()] floats, in seconds) are integers of an
        arbitrary fixed resolution: the sources only add and compare them.
      - Methods are state transformers that may raise: the state reached
        when an exception escapes is kept, as it is in Python.
      - User callables (command functions, bus handlers) are opaque: a call
        is recorded in the [calls] log of the bot and returns normally. *)

From Stdlib Require Import ZArith String Ascii List Bool Lia.
From Stdlib Require Import DecimalString.
From stdpp Require Import gmap strings list fin_maps.
Import ListNotations.

Local Open Scope string_scope.
Local Open Scope Z_scope.

(* ===================================================================== *)
(** ** Python values used by the sources *)
(* ===================================================================== *)

Module Py.

(** Exceptions that the modelled code can raise. *)
Inductive Exn : Type :=
| KeyError (key : string)
| IndexError
| TypeError
| ValueError
| AttributeError
| RuntimeError (msg : string)
| Exception (msg : string)
| SystemExit.

(** Outcome of a call: a value, or an exception escaping it. *)
Inductive Outcome (A : Type) : Type :=
| Ok (a : A)
| Raise (e : Exn).
Arguments Ok {A} a.
Arguments Raise {A} e.

(** A method on a receiver of type [S]. *)
Definition M (S A : Type) : Type := S -> Outcome A * S.

Definition ret {S A} (a : A) : M S A := fun s => (Ok a, s).
Definition raise {S A} (e : Exn) : M S A := fun s => (Raise e, s).
Definition bind {S A B} (m : M S A) (f : A -> M S B) : M S B :=
  fun s => match m s with
           | (Ok a, s') => f a s'
           | (Raise e, s') => (Raise e, s')
           end.
Definition get {S} : M S S := fun s => (Ok s, s).
Definition gets {S A} (f : S -> A) : M S A := fun s => (Ok (f s), s).
Definition modify {S} (f : S -> S) : M S unit := fun s => (Ok tt, f s).

(** A method of a base class running on a derived object. *)
Definition lift {S T A} (proj : T -> S) (upd : S -> T -> T) (m : M S A) : M T A :=
  fun t => let '(o, s') := m (proj t) in (o, upd s' t).

(** [for x in l: body(x)] *)
Fixpoint for_each {S A} (l : list A) (body : A -> M S unit) : M S unit :=
  match l with
  | [] => ret tt
  | x :: l' => bind (body x) (fun _ => for_each l' body)
  end.

(** A [for] loop that threads local variables [acc] through its body. *)
Fixpoint for_fold {S A B} (l : list A) (body : B -> A -> M S B) (acc : B) : M S B :=
  match l with
  | [] => ret acc
  | x :: l' => bind (body acc x) (for_fold l' body)
  end.

(** *** [str] *)

(** [s.startswith(p)] *)
Definition startswith (s p : string) : bool := String.prefix p s.

(** [sub in s] *)
Fixpoint contains (sub s : string) : bool :=
  String.prefix sub s ||
  match s with
  | EmptyString => false
  | String _ s' => contains sub s'
  end.

(** [s[1:]], for a text that is empty or starts with an ASCII character
    (one byte): the sources take it after [@], [:] and the like. *)
Definition tail (s : string) : string :=
  match s with
  | EmptyString => EmptyString
  | String _ s' => s'
  end.

Definition exhausted (count : option nat) : bool :=
  match count with Some O => true | _ => false end.

Definition spend (count : option nat) : option nat :=
  match count with Some n => Some (Nat.pred n) | None => None end.

(** [s.replace(old, new, count)] for a non-empty [old], scanning left to
    right without overlap; [skip] characters of a matched occurrence are
    still to be dropped.  [count = None] replaces every occurrence.  (An
    empty [old], which the sources never pass, leaves [s] unchanged
    here.) *)
Fixpoint replace_from (old new : string) (count : option nat) (skip : nat)
         (s : string) {struct s} : string :=
  match s with
  | EmptyString => EmptyString
  | String c s' =>
      match skip with
      | S k => replace_from old new count k s'
      | O =>
          if exhausted count then s
          else if String.prefix old s
               then new ++ replace_from old new (spend count)
                                        (Nat.pred (String.length old)) s'
               else String c (replace_from old new count O s')
      end
  end.

Definition replace (old new : string) (count : option nat) (s : string) : string :=
  match old with
  | EmptyString => s
  | _ => replace_from old new count O s
  end.

(** [s.split(sep, maxsplit)] for a one-character separator;
    [maxsplit = None] is Python's default of [-1]. *)
Fixpoint split (sep : ascii) (maxsplit : option nat) (s : string) : list string :=
  match s with
  | EmptyString => [EmptyString]
  | String c s' =>
      if exhausted maxsplit then [s]
      else if Ascii.eqb c sep
           then EmptyString :: split sep (spend maxsplit) s'
           else match split sep maxsplit s' with
                | h :: t => String c h :: t
                | [] => [String c EmptyString]
                end
  end.

(** [l[i]] *)
Definition index {S A} (l : list A) (i : nat) : M S A :=
  match nth_error l i with
  | Some x => ret x
  | None => raise IndexError
  end.

(** ['{}'.format(x)] for an optional string: [None] prints as [None]. *)
Definition fmt (x : option string) : string :=
  match x with Some s => s | None => "None" end.

Definition SQUOTE : ascii := "039".
Definition DQUOTE : ascii := "034".
Definition BACKSLASH : ascii := "092".

(** [s.isascii()] *)
Definition isascii (s : string) : bool :=
  forallb (fun c => (nat_of_ascii c <? 128)%nat) (list_ascii_of_string s).

Definition hex_digit (n : nat) : ascii :=
  nth n (list_ascii_of_string "0123456789abcdef") "0"%char.

(** One character of [repr(s)], for the enclosing [quote]: the backslash
    and the enclosing quote are escaped, tab, newline and carriage return
    are written with their letter, the other control characters of ASCII
    as [\xNN] in lower-case hexadecimal.  The bytes of a character
    outside ASCII are kept, as [repr] keeps such a character when it is
    printable; the properties below are about ASCII texts. *)
Definition repr_char (quote c : ascii) : string :=
  let n := nat_of_ascii c in
  if Ascii.eqb c BACKSLASH then String BACKSLASH (String BACKSLASH "")
  else if Ascii.eqb c quote then String BACKSLASH (String quote "")
  else if Ascii.eqb c "009" then String BACKSLASH "t"
  else if Ascii.eqb c "010" then String BACKSLASH "n"
  else if Ascii.eqb c "013" then String BACKSLASH "r"
  else if (n <? 32)%nat || (n =? 127)%nat
       then String BACKSLASH
              (String "x" (String (hex_digit (n / 16)) (String (hex_digit (n mod 16)) "")))
       else String c "".

Fixpoint repr_body (quote : ascii) (s : string) : string :=
  match s with
  | EmptyString => EmptyString
  | String c s' => repr_char quote c ++ repr_body quote s'
  end.

(** [repr(s)] of a [str]: between single quotes, or between double quotes
    when the text has a single quote and no double quote. *)
Definition repr (s : string) : string :=
  let quote :=
    if contains (String SQUOTE "") s && negb (contains (String DQUOTE "") s)
    then DQUOTE else SQUOTE in
  String quote (repr_body quote s ++ String quote "").

(** [l[:k]] and [l[k:]] for a Python integer [k]: a negative [k] counts
    from the end of the list. *)
Definition slice_to {A} (l : list A) (k : Z) : list A :=
  if (0 <=? k)%Z then firstn (Z.to_nat k) l
  else firstn (length l - Z.to_nat (- k)) l.

Definition slice_from {A} (l : list A) (k : Z) : list A :=
  if (0 <=? k)%Z then skipn (Z.to_nat k) l
  else skipn (length l - Z.to_nat (- k)) l.

(** [x in l] and [l.remove(x)] for the equality test [eqb] ([==]):
    [remove] drops the first element equal to [x] and raises
    [ValueError] when there is none. *)
Definition list_in {A} (eqb : A -> A -> bool) (x : A) (l : list A) : bool :=
  existsb (eqb x) l.

Fixpoint list_remove {A} (eqb : A -> A -> bool) (x : A) (l : list A)
  : option (list A) :=
  match l with
  | [] => None
  | y :: l' =>
      if eqb x y then Some l'
      else match list_remove eqb x l' with
           | Some r => Some (y :: r)
           | None => None
           end
  end.

(** [sep.join(l)] *)
Fixpoint join (sep : string) (l : list string) : string :=
  match l with
  | [] => ""
  | x :: l' => match l' with
               | [] => x
               | _ :: _ => x ++ sep ++ join sep l'
               end
  end.

(** [str(n)] for a natural number. *)
Definition str_of_nat (n : nat) : string := NilEmpty.string_of_uint (Nat.to_uint n).

(** [s.rjust(width, fill)] *)
Definition rjust (width : nat) (fill : ascii) (s : string) : string :=
  string_of_list_ascii (repeat fill (width - String.length s)) ++ s.


Definition CR : string := String "013" EmptyString.
Definition CRLF : string := String "013" (String "010" EmptyString).
Definition LF : string := String "010" EmptyString.

End Py.

Declare Scope py_scope.
Delimit Scope py_scope with py.
Notation "'let*' x ':=' c1 'in' c2" := (Py.bind c1 (fun x => c2))
  (at level 10, x name, c1 at level 100, c2 at level 200) : py_scope.
Notation "c1 ;;; c2" := (Py.bind c1 (fun _ => c2))
  (at level 100, c2 at level 200, right associativity) : py_scope.
Local Open Scope py_scope.

(* ===================================================================== *)
(** ** What the sources take from outside *)
(* ===================================================================== *)

(** The wire-format patterns are constants of the package's [__init__]
    module; [messages.py] only names them. *)
Inductive Pattern : Type :=
| PRIVMSG_PATTERN_TWITCH
| PING_MESSAGSE_PATTERN
| NOTICE_MESSAGE_PATTERN
| GLOBAL_NOTICE_MESSAGE_PATTERN
| JOIN_MESSAGE_PATTERN
| PART_MESSAGE_PATTERN
| WHISPER_MESSAGE_PATTERN.

(** A [re.Match]: the subject string and the captured groups [m[1]],
    [m[2]], ... *)
Record Match : Type := {
  m_string : string;
  m_groups : list string
}.

(** [re.match] on the pattern constants: the patterns themselves are not
    part of the modelled files. *)
Class Regex : Type := {
  re_match : Pattern -> string -> option Match
}.

(** [m[k]] for a group number [k >= 1]. *)
Definition group {S} (m : Match) (k : nat) : Py.M S string :=
  Py.index (m_groups m) (Nat.pred k).

(* ===================================================================== *)
(** ** messages.py *)
(* ===================================================================== *)

(** A tag value: a string, or the list obtained by splitting it on commas. *)
Inductive FlagValue : Type :=
| FlagStr (s : string)
| FlagList (l : list string).

(** [process_twitch_flags]: the tag prefix [@key=value;key=value...] as a
    dict. *)
Definition process_twitch_flags {S} (flags : string)
  : Py.M S (gmap string FlagValue) :=
  let flags := Py.split ";" None (Py.tail flags) in
  Py.for_fold flags
    (fun output i =>
       let i := Py.split "=" (Some 1%nat) i in
       let* val := Py.index i 1 in
       let val := if Py.contains "," val
                  then FlagList (Py.split "," None val)
                  else FlagStr val in
       let* key := Py.index i 0 in
       Py.ret (<[key := val]> output))
    ∅.

(** The base class [Message]; an instance of it is a raw, unrecognised
    line. *)
Module Message.
Record t : Type := {
  _type : string;
  args : string;
  outgoing : bool
}.

Definition __init__ (args : string) : t :=
  {| _type := "raw"; args := args; outgoing := false |}.

Definition set_outgoing (b : bool) (self : t) : t :=
  {| _type := _type self; args := args self; outgoing := b |}.

Definition set_type (ty : string) (self : t) : t :=
  {| _type := ty; args := args self; outgoing := outgoing self |}.

(** [Message.__eq__] on two instances of [Message] or of its
    subclasses. *)
Definition __eq__ (self other : t) : bool :=
  String.eqb (_type other) (_type self) && String.eqb (args other) (args self).

(** [Message.__bytes__]: it returns the [str] [self.args] when the message
    is outgoing, which [bytes(obj)] refuses with a [TypeError]. *)
Definition __bytes__ (self : t) : Py.Outcome string :=
  if outgoing self then Py.Raise Py.TypeError else Py.Ok "".

Definition from_match (m : Match) : t := __init__ (m_string m).
Definition from_text (text : string) : t := __init__ text.
End Message.

Module WhisperMessage.
Record t : Type := {
  base : Message.t;
  text : string;
  user_to : string;
  user_from : string;
  flags : gmap string FlagValue
}.

Definition __init__ (flags : gmap string FlagValue)
           (user_from user_to text : string) (outgoing : bool) : t :=
  {| base := Message.set_outgoing outgoing
               (Message.__init__
                  ((if outgoing then "Outgoing" else "") ++ " WHISPER from "
                     ++ user_from ++ " to " ++ user_to ++ ": " ++ text));
     text := text; user_to := user_to; user_from := user_from;
     flags := flags |}.

Definition __bytes__ (self : t) : Py.Outcome string :=
  if Message.outgoing (base self)
  then Py.Ok ("PRIVMSG #jtv :/w " ++ user_to self ++ " " ++ text self ++ Py.CRLF)
  else Py.Ok "".

Definition from_match {S} (m : Match) : Py.M S t :=
  let* m1 := group m 1 in
  let* flags := process_twitch_flags m1 in
  let* m2 := group m 2 in
  let* m3 := group m 3 in
  let* m4 := group m 4 in
  Py.ret (__init__ flags m2 m3 m4 false).

Definition reply (self : t) (text : string) : t :=
  __init__ ∅ "OUTGOING" (user_from self) text true.
End WhisperMessage.

Module ChannelMessage.
Record t : Type := {
  base : Message.t;
  flags : gmap string FlagValue;
  text : string;
  user : string;
  channel : string
}.

Definition __init__ (text user channel : string) : t :=
  {| base := Message.set_type "PRIVMSG" (Message.__init__ text);
     flags := ∅;
     text := Py.replace Py.CRLF "" None text;
     user := user;
     channel := channel |}.

Definition set_flags (f : gmap string FlagValue) (self : t) : t :=
  {| base := base self; flags := f; text := text self;
     user := user self; channel := channel self |}.

Definition set_text (s : string) (self : t) : t :=
  {| base := base self; flags := flags self; text := s;
     user := user self; channel := channel self |}.

Definition set_outgoing (b : bool) (self : t) : t :=
  {| base := Message.set_outgoing b (base self); flags := flags self;
     text := text self; user := user self; channel := channel self |}.

Definition from_match {S} (m : Match) : Py.M S t :=
  let* m4 := group m 4 in
  let* m2 := group m 2 in
  let* m3 := group m 3 in
  let new := __init__ m4 m2 m3 in
  let* m1 := group m 1 in
  let* flags := process_twitch_flags m1 in
  Py.ret (set_flags flags new).

(** [ChannelMessage.from_text]: the tagged pattern first, then the
    fallback parser of [:user!... PRIVMSG #chan :msg]. *)
Definition from_text `{Regex} {S} (text : string) : Py.M S t :=
  match re_match PRIVMSG_PATTERN_TWITCH text with
  | Some m => from_match m
  | None =>
      let text := Py.replace Py.CRLF "" None text in
      let t := Py.split " " (Some 3%nat) text in
      let* t1 := Py.index t 1 in
      if negb (String.eqb t1 "PRIVMSG")
      then Py.raise (Py.Exception ("Invalid ChannelMessage(PRIVMSG), " ++ Py.repr text))
      else
        let* t0 := Py.index t 0 in
        let* u := Py.index (Py.split "!" (Some 1%nat) t0) 0 in
        let user := Py.tail u in
        let* t2 := Py.index t 2 in
        let channel := Py.tail t2 in
        let* t3 := Py.index t 3 in
        let text := Py.tail t3 in
        Py.ret (__init__ text user channel)
  end.

Definition __bytes__ (self : t) : Py.Outcome string :=
  if Message.outgoing (base self)
  then Py.Ok ("PRIVMSG #" ++ channel self ++ " :" ++ text self ++ Py.CRLF)
  else Py.Ok "".

Definition reply (self : t) (text : string) : t :=
  set_outgoing true (__init__ text "OUTGOING" (channel self)).

Definition reply_directly (self : t) (text : string) : WhisperMessage.t :=
  WhisperMessage.__init__ ∅ "OUTGOING" (user self) text true.
End ChannelMessage.

Module PingMessage.
Record t : Type := {
  base : Message.t;
  host : option string
}.

Definition __str__ (host : option string) : string := "PING :" ++ Py.fmt host.

(** [self.host] is assigned before [super().__init__(str(self))]. *)
Definition __init__ (host : option string) : t :=
  {| base := Message.__init__ (__str__ host); host := host |}.

Definition set_host (h : option string) (self : t) : t :=
  {| base := base self; host := h |}.

Definition from_match {S} (m : Match) : Py.M S t :=
  let new := __init__ None in
  let* m1 := group m 1 in
  Py.ret (set_host (Some m1) new).

(** [PING :{host}] *)
Definition from_text {S} (text : string) : Py.M S t :=
  let new := __init__ None in
  let* rest := Py.index (Py.split " " (Some 1%nat) text) 1 in
  Py.ret (set_host (Some (Py.replace Py.CRLF "" None (Py.tail rest))) new).
End PingMessage.

Module PongMessage.
Record t : Type := {
  base : Message.t;
  host : string
}.

Definition __init__ (host : string) : t :=
  {| base := Message.__init__ host; host := host |}.

(** [PongMessage.__bytes__] does not look at [outgoing]. *)
Definition __bytes__ (self : t) : Py.Outcome string :=
  Py.Ok ("PONG :" ++ host self ++ Py.CRLF).

Definition reply {S A} (self : t) : Py.M S A :=
  Py.raise (Py.RuntimeError "Cannot reply to a PongMessage.").
End PongMessage.

(** [NoticeMessage], and its subclass [GlobalNoticeMessage], which adds no
    attribute. *)
Module NoticeMessage.
Record t : Type := {
  base : Message.t;
  text : string;
  message_id : option FlagValue;
  channel : option string;
  host : option string
}.

Definition __init__ (text : string) (message_id : option FlagValue)
           (channel host : option string) : t :=
  {| base := Message.__init__ text; text := text; message_id := message_id;
     channel := channel; host := host |}.

Definition from_match {S} (m : Match) : Py.M S t :=
  let new := __init__ "" None None None in
  let* m1 := group m 1 in
  let* flags := process_twitch_flags m1 in
  match flags !! "msg-id" with
  | None => Py.raise (Py.KeyError "msg-id")
  | Some id =>
      let* m2 := group m 2 in
      let* m3 := group m 3 in
      let* m4 := group m 4 in
      Py.ret {| base := base new; text := m4; message_id := Some id;
                channel := Some m3; host := Some m2 |}
  end.
End NoticeMessage.

Module GlobalNoticeMessage.
Definition __init__ (text : string) (host : option string) : NoticeMessage.t :=
  NoticeMessage.__init__ text None (Some "*") host.

Definition from_match {S} (m : Match) : Py.M S NoticeMessage.t :=
  let new := __init__ "" None in
  let* m1 := group m 1 in
  let* m2 := group m 2 in
  Py.ret {| NoticeMessage.base := NoticeMessage.base new;
            NoticeMessage.text := m2;
            NoticeMessage.message_id := NoticeMessage.message_id new;
            NoticeMessage.channel := NoticeMessage.channel new;
            NoticeMessage.host := Some m1 |}.
End GlobalNoticeMessage.

Module JoinMessage.
Record t : Type := {
  base : Message.t;
  user : string;
  channel : string
}.

Definition __init__ (user channel : string) (outgoing : bool) : t :=
  {| base := Message.set_outgoing outgoing
               (Message.__init__ (user ++ " JOIN " ++ channel));
     user := user; channel := channel |}.

Definition __bytes__ (self : t) : Py.Outcome string :=
  if Message.outgoing (base self)
  then Py.Ok ("JOIN " ++ channel self ++ Py.CRLF)
  else Py.Ok "".

Definition from_match {S} (m : Match) : Py.M S t :=
  let* m1 := group m 1 in
  let* m2 := group m 2 in
  Py.ret (__init__ m1 m2 false).
End JoinMessage.

Module PartMessage.
Record t : Type := {
  base : Message.t;
  user : string;
  channel : string
}.

Definition __init__ (user channel : string) : t :=
  {| base := Message.__init__ (user ++ " PART " ++ channel);
     user := user; channel := channel |}.

Definition from_match {S} (m : Match) : Py.M S t :=
  let* m1 := group m 1 in
  let* m2 := group m 2 in
  Py.ret (__init__ m1 m2).
End PartMessage.

Module UsernoticeMessage.
Record t : Type := {
  base : Message.t;
  flags : string;
  channel : string
}.

Definition __init__ (flags channel : string) : t :=
  {| base := Message.__init__ (flags ++ " " ++ channel);
     flags := flags; channel := channel |}.

Definition from_match {S} (m : Match) : Py.M S t :=
  let* m1 := group m 1 in
  let* m2 := group m 2 in
  Py.ret (__init__ m1 m2).
End UsernoticeMessage.

(** An instance of one of the message classes: the closed set of protocol
    events. *)
Inductive AnyMessage : Type :=
| Raw (m : Message.t)
| Channel (m : ChannelMessage.t)
| Whisper (m : WhisperMessage.t)
| Ping (m : PingMessage.t)
| Pong (m : PongMessage.t)
| Notice (m : NoticeMessage.t)
| GlobalNotice (m : NoticeMessage.t)
| Join (m : JoinMessage.t)
| Part (m : PartMessage.t)
| Usernotice (m : UsernoticeMessage.t).

(** The attributes every instance inherits from [Message]. *)
Definition base_of (m : AnyMessage) : Message.t :=
  match m with
  | Raw m => m
  | Channel m => ChannelMessage.base m
  | Whisper m => WhisperMessage.base m
  | Ping m => PingMessage.base m
  | Pong m => PongMessage.base m
  | Notice m | GlobalNotice m => NoticeMessage.base m
  | Join m => JoinMessage.base m
  | Part m => PartMessage.base m
  | Usernotice m => UsernoticeMessage.base m
  end.

(** [bytes(m)]: the [__bytes__] each class defines or inherits. *)
Definition message_bytes (m : AnyMessage) : Py.Outcome string :=
  match m with
  | Channel m => ChannelMessage.__bytes__ m
  | Whisper m => WhisperMessage.__bytes__ m
  | Pong m => PongMessage.__bytes__ m
  | Join m => JoinMessage.__bytes__ m
  | Raw _ | Ping _ | Notice _ | GlobalNotice _ | Part _ | Usernotice _ =>
      Message.__bytes__ (base_of m)
  end.

(** [a == b] on messages. *)
Definition message_eq (a b : AnyMessage) : bool :=
  Message.__eq__ (base_of a) (base_of b).

(** [MESSAGE_PATTERN_DICT], in the order of its definition, each pattern
    with the [from_match] of its class. *)
Definition MESSAGE_PATTERN_DICT {S}
  : list (Pattern * (Match -> Py.M S AnyMessage)) :=
  [ (PRIVMSG_PATTERN_TWITCH,
      fun m => let* x := ChannelMessage.from_match m in Py.ret (Channel x));
    (PING_MESSAGSE_PATTERN,
      fun m => let* x := PingMessage.from_match m in Py.ret (Ping x));
    (NOTICE_MESSAGE_PATTERN,
      fun m => let* x := NoticeMessage.from_match m in Py.ret (Notice x));
    (GLOBAL_NOTICE_MESSAGE_PATTERN,
      fun m => let* x := GlobalNoticeMessage.from_match m in Py.ret (GlobalNotice x));
    (JOIN_MESSAGE_PATTERN,
      fun m => let* x := JoinMessage.from_match m in Py.ret (Join x));
    (PART_MESSAGE_PATTERN,
      fun m => let* x := PartMessage.from_match m in Py.ret (Part x));
    (WHISPER_MESSAGE_PATTERN,
      fun m => let* x := WhisperMessage.from_match m in Py.ret (Whisper x)) ].

Fixpoint first_match `{Regex} {S}
         (table : list (Pattern * (Match -> Py.M S AnyMessage)))
         (message : string) : Py.M S AnyMessage :=
  match table with
  | [] => Py.ret (Raw (Message.__init__ message))
  | (k, v) :: table' =>
      match re_match k message with
      | Some m => v m
      | None => first_match table' message
      end
  end.

(** [auto_message]: the first pattern that matches decides the class; a
    line that matches none is a raw [Message]. *)
Definition auto_message `{Regex} {S} (message : string) : Py.M S AnyMessage :=
  first_match MESSAGE_PATTERN_DICT message.

(* ===================================================================== *)
(** ** connection.py *)
(* ===================================================================== *)

(** A text stream, by the characters it has left.  A character is a
    [str] of length one: the [string] of its UTF-8 bytes, one byte for an
    ASCII character and up to four for another. *)
Definition TextStream : Type := list string.

(** [buffer.read(1)] on a text stream: the next character, or the empty
    string at the end of the stream. *)
Definition read_1 : Py.M TextStream string :=
  fun buffer =>
    match buffer with
    | [] => (Py.Ok EmptyString, [])
    | c :: rest => (Py.Ok c, rest)
    end.

(** The loop of [readuntil].  The counter [num] goes up by one at the top
    of each iteration and the iteration in which it reaches [max_size]
    leaves the loop before it reads: [left] is the number of iterations
    that may still read, [max_size - 1 - num]. *)
Fixpoint readuntil_loop (left : nat) (char : string) (m : string)
  : Py.M TextStream string :=
  match left with
  | O => Py.ret m
  | S left' =>
      let* c := read_1 in
      if String.eqb c char then Py.ret m
      else readuntil_loop left' char (m ++ c)
  end.

(** [readuntil(buffer, char, max_size)], a method of the stream. *)
Definition readuntil (char : string) (max_size : Z) : Py.M TextStream string :=
  readuntil_loop (Z.to_nat (max_size - 1)) char "".

(** What [send] accepts: a [str] or a message object. *)
Inductive Sendable : Type :=
| Str (s : string)
| Msg (m : AnyMessage).

(** [to_bytes(obj, 'utf-8')] *)
Definition to_bytes {S} (obj : Sendable) : Py.M S string :=
  match obj with
  | Str s => Py.ret s
  | Msg m => match message_bytes m with
             | Py.Ok b => Py.ret b
             | Py.Raise e => Py.raise e
             end
  end.

(** The default of the parameter [now] of [flush_single_queue] is the
    expression [time.time()]; Python evaluates it when the [def] statement
    runs and keeps the value in the function object. *)
Class DefaultNow : Type := {
  definition_time : Z
}.

Inductive Socket : Type :=
| TcpSocket (address : string) (port : Z).

Module Connection.

(** The attributes of a [Connection], and the two parts of the outside
    world its methods touch: [wire], the payloads given to
    [socket.send], oldest first, and [clock], the value [time.time()]
    returns. *)
Record t : Type := {
  message_cooldown : Z;
  address : string;
  port : Z;
  socket : option Socket;
  queue : gmap string (list string);
  receive_queue : list AnyMessage;
  receive_buffer : string;
  message_wait : gmap string Z;
  hold_send : bool;
  channels_connected : list string;
  channels_to_remove : list string;
  wire : list string;
  clock : Z
}.

Definition set_socket (x : option Socket) (c : t) : t :=
  {| message_cooldown := message_cooldown c; address := address c;
     port := port c; socket := x; queue := queue c;
     receive_queue := receive_queue c; receive_buffer := receive_buffer c;
     message_wait := message_wait c; hold_send := hold_send c;
     channels_connected := channels_connected c;
     channels_to_remove := channels_to_remove c;
     wire := wire c; clock := clock c |}.

Definition set_queue (x : gmap string (list string)) (c : t) : t :=
  {| message_cooldown := message_cooldown c; address := address c;
     port := port c; socket := socket c; queue := x;
     receive_queue := receive_queue c; receive_buffer := receive_buffer c;
     message_wait := message_wait c; hold_send := hold_send c;
     channels_connected := channels_connected c;
     channels_to_remove := channels_to_remove c;
     wire := wire c; clock := clock c |}.

Definition set_receive_queue (x : list AnyMessage) (c : t) : t :=
  {| message_cooldown := message_cooldown c; address := address c;
     port := port c; socket := socket c; queue := queue c;
     receive_queue := x; receive_buffer := receive_buffer c;
     message_wait := message_wait c; hold_send := hold_send c;
     channels_connected := channels_connected c;
     channels_to_remove := channels_to_remove c;
     wire := wire c; clock := clock c |}.

Definition set_receive_buffer (x : string) (c : t) : t :=
  {| message_cooldown := message_cooldown c; address := address c;
     port := port c; socket := socket c; queue := queue c;
     receive_queue := receive_queue c; receive_buffer := x;
     message_wait := message_wait c; hold_send := hold_send c;
     channels_connected := channels_connected c;
     channels_to_remove := channels_to_remove c;
     wire := wire c; clock := clock c |}.

Definition set_message_wait (x : gmap string Z) (c : t) : t :=
  {| message_cooldown := message_cooldown c; address := address c;
     port := port c; socket := socket c; queue := queue c;
     receive_queue := receive_queue c; receive_buffer := receive_buffer c;
     message_wait := x; hold_send := hold_send c;
     channels_connected := channels_connected c;
     channels_to_remove := channels_to_remove c;
     wire := wire c; clock := clock c |}.

Definition set_hold_send (x : bool) (c : t) : t :=
  {| message_cooldown := message_cooldown c; address := address c;
     port := port c; socket := socket c; queue := queue c;
     receive_queue := receive_queue c; receive_buffer := receive_buffer c;
     message_wait := message_wait c; hold_send := x;
     channels_connected := channels_connected c;
     channels_to_remove := channels_to_remove c;
     wire := wire c; clock := clock c |}.

Definition set_channels_connected (x : list string) (c : t) : t :=
  {| message_cooldown := message_cooldown c; address := address c;
     port := port c; socket := socket c; queue := queue c;
     receive_queue := receive_queue c; receive_buffer := receive_buffer c;
     message_wait := message_wait c; hold_send := hold_send c;
     channels_connected := x;
     channels_to_remove := channels_to_remove c;
     wire := wire c; clock := clock c |}.

Definition set_channels_to_remove (x : list string) (c : t) : t :=
  {| message_cooldown := message_cooldown c; address := address c;
     port := port c; socket := socket c; queue := queue c;
     receive_queue := receive_queue c; receive_buffer := receive_buffer c;
     message_wait := message_wait c; hold_send := hold_send c;
     channels_connected := channels_connected c;
     channels_to_remove := x;
     wire := wire c; clock := clock c |}.

Definition set_wire (x : list string) (c : t) : t :=
  {| message_cooldown := message_cooldown c; address := address c;
     port := port c; socket := socket c; queue := queue c;
     receive_queue := receive_queue c; receive_buffer := receive_buffer c;
     message_wait := message_wait c; hold_send := hold_send c;
     channels_connected := channels_connected c;
     channels_to_remove := channels_to_remove c;
     wire := x; clock := clock c |}.

Definition set_clock (x : Z) (c : t) : t :=
  {| message_cooldown := message_cooldown c; address := address c;
     port := port c; socket := socket c; queue := queue c;
     receive_queue := receive_queue c; receive_buffer := receive_buffer c;
     message_wait := message_wait c; hold_send := hold_send c;
     channels_connected := channels_connected c;
     channels_to_remove := channels_to_remove c;
     wire := wire c; clock := x |}.

(** [time.time()] *)
Definition time_time : Py.M t Z := Py.gets clock.

(** [self.queue[name]] and [self.message_wait[name]] *)
Definition queue_at (name : string) : Py.M t (list string) :=
  let* q := Py.gets queue in
  match q !! name with
  | Some l => Py.ret l
  | None => Py.raise (Py.KeyError name)
  end.

Definition message_wait_at (name : string) : Py.M t Z :=
  let* w := Py.gets message_wait in
  match w !! name with
  | Some x => Py.ret x
  | None => Py.raise (Py.KeyError name)
  end.

(** [Connection(address, port, message_cooldown)], created when the
    clock shows [now]. *)
Definition __init__ (address : string) (port : Z) (message_cooldown : Z)
           (now : Z) : t :=
  {| message_cooldown := message_cooldown;
     address := address;
     port := port;
     socket := None;
     queue := {[ "misc" := [] ]};
     receive_queue := [];
     receive_buffer := "";
     message_wait := {[ "misc" := now ]};
     hold_send := false;
     channels_connected := [];
     channels_to_remove := [];
     wire := [];
     clock := now |}.

(** [_send]: without a socket the payload is dropped. *)
Definition _send (message : string) : Py.M t unit :=
  let* s := Py.gets socket in
  match s with
  | None => Py.ret tt
  | Some _ => Py.modify (fun c => set_wire (wire c ++ [message]) c)
  end.

(** [flush_single_queue(queue, no_cooldown, max_messages, now)];
    [now = None] is a call that leaves the parameter out. *)
Definition flush_single_queue `{DefaultNow} (queue : string) (no_cooldown : bool)
           (max_messages : Z) (now : option Z) : Py.M t Z :=
  let now := match now with Some n => n | None => definition_time end in
  let* hold := Py.gets hold_send in
  if hold then Py.ret 0 else
  let* wait := message_wait_at queue in
  if (wait >? now) && negb no_cooldown then Py.ret 0 else
  let* q := queue_at queue in
  let* sent :=
    Py.for_fold (Py.slice_to q max_messages)
      (fun sent message =>
         _send message ;;;
         let* cooldown := Py.gets message_cooldown in
         Py.modify (fun c => set_message_wait
                               (<[queue := now + cooldown]> (message_wait c)) c) ;;;
         Py.ret (sent + 1))
      0 in
  let* q := queue_at queue in
  Py.modify (fun c => set_queue (<[queue := Py.slice_from q max_messages]> (Connection.queue c)) c) ;;;
  Py.ret sent.

(** [force_send]: the payload goes to the front of the [misc] queue, and
    that queue is flushed without regard to its cooldown, with the
    defaults [max_messages=1] and [now]. *)
Definition force_send `{DefaultNow} (message : string) : Py.M t unit :=
  let* misc := queue_at "misc" in
  let* b := to_bytes (Str message) in
  Py.modify (fun c => set_queue (<["misc" := b :: misc]> (queue c)) c) ;;;
  flush_single_queue "misc" true 1 None ;;;
  Py.ret tt.

Definition join `{DefaultNow} (channel : string) : Py.M t unit :=
  force_send ("join #" ++ channel ++ Py.CRLF) ;;;
  Py.modify (fun c => set_queue (<[channel := []]> (queue c)) c) ;;;
  let* now := time_time in
  Py.modify (fun c => set_message_wait (<[channel := now]> (message_wait c)) c) ;;;
  Py.modify (fun c => set_channels_connected (channels_connected c ++ [channel]) c).

Definition part `{DefaultNow} (channel : string) : Py.M t unit :=
  force_send ("part #" ++ channel ++ Py.CRLF) ;;;
  Py.modify (fun c => set_channels_to_remove (channels_to_remove c ++ [channel]) c).

(** [disconnect]: [self.socket.send] on a missing socket is an
    [AttributeError]; the socket's [send] is called directly, not
    [_send]. *)
Definition disconnect : Py.M t unit :=
  let* s := Py.gets socket in
  match s with
  | None => Py.raise Py.AttributeError
  | Some _ =>
      Py.modify (fun c => set_wire (wire c ++ ["quit" ++ Py.CRLF]) c) ;;;
      Py.modify (set_socket None)
  end.

Definition twitch_mode `{DefaultNow} : Py.M t unit :=
  force_send ("CAP REQ :twitch.tv/commands twitch.tv/membership twitch.tv/tags"
                ++ Py.CRLF).

Definition _connect : Py.M t unit :=
  Py.modify (fun c => set_socket (Some (TcpSocket (address c) (port c))) c).

Definition _login `{DefaultNow} (username : string) (password : option string)
  : Py.M t unit :=
  match password with
  | Some p => force_send ("PASS " ++ p ++ Py.CRLF)
  | None => Py.ret tt
  end ;;;
  force_send ("NICK " ++ username ++ Py.CRLF).

Definition connect `{DefaultNow} (username : string) (password : option string)
  : Py.M t unit :=
  _connect ;;;
  _login username password.

(** [send(message, queue)] *)
Definition send (message : Sendable) (queue : string) : Py.M t unit :=
  let route : option string :=
    match message with
    | Msg (Channel m) =>
        if String.eqb (ChannelMessage.user m) "rcfile" then None
        else Some (ChannelMessage.channel m)
    | _ => Some queue
    end in
  match route with
  | None => Py.ret tt
  | Some queue =>
      let* s := Py.gets socket in
      let* hold := Py.gets hold_send in
      if bool_decide (s <> None) || hold then
        let* q := Py.gets Connection.queue in
        match q !! queue with
        | None =>
            Py.modify (fun c => set_queue (<[queue := []]> (Connection.queue c)) c) ;;;
            let* now := time_time in
            Py.modify (fun c => set_message_wait (<[queue := now]> (message_wait c)) c)
        | Some _ => Py.ret tt
        end ;;;
        let* l := queue_at queue in
        let* b := to_bytes message in
        Py.modify (fun c => set_queue (<[queue := (l ++ [b])%list]> (Connection.queue c)) c)
      else Py.ret tt
  end.

(** [flush_queue(max_messages)]: every queue name of the dict, in the
    order in which the map enumerates its keys. *)
Definition flush_queue `{DefaultNow} (max_messages : Z) : Py.M t Z :=
  let* hold := Py.gets hold_send in
  if hold then Py.ret 0 else
  let* now := time_time in
  let* q := Py.gets queue in
  Py.for_fold (map_to_list q).*1
    (fun sent queue_name =>
       let* n := flush_single_queue queue_name false max_messages (Some now) in
       Py.ret (sent + n))
    0.

(** [receive()]; [data] is what [socket.recv(4096)] returns, decoded.
    An empty read disconnects and leaves the process. *)
Definition receive (data : string) : Py.M t unit :=
  let* s := Py.gets socket in
  match s with
  | None => Py.raise Py.AttributeError
  | Some _ =>
      let message := Py.replace Py.CRLF Py.LF None data in
      (if String.eqb message ""
       then disconnect ;;; Py.raise Py.SystemExit
       else Py.ret tt) ;;;
      Py.modify (fun c => set_receive_buffer (receive_buffer c ++ message) c)
  end.

(** [_remove_parted_channels]: the loop runs over a copy of
    [channels_to_remove]. *)
Definition _remove_parted_channels : Py.M t unit :=
  let* pending := Py.gets channels_to_remove in
  Py.for_each pending
    (fun i =>
       let* q := queue_at i in
       match q with
       | _ :: _ => Py.ret tt
       | [] =>
           let* l := Py.gets channels_to_remove in
           match Py.list_remove String.eqb i l with
           | None => Py.raise Py.ValueError
           | Some l' => Py.modify (set_channels_to_remove l')
           end ;;;
           message_wait_at i ;;;
           Py.modify (fun c => set_message_wait (delete i (message_wait c)) c) ;;;
           queue_at i ;;;
           Py.modify (fun c => set_queue (delete i (queue c)) c)
       end).

(** [isinstance(m, ChannelMessage)] *)
Definition is_channel_message (m : AnyMessage) : bool :=
  match m with Channel _ => true | _ => false end.

(** The [for i in range(max_messages)] loop of [process_messages], with
    its two local lists; [n] iterations are left. *)
Fixpoint process_loop `{Regex} (n : nat) (mode : Z)
         (messages_to_return messages_to_add_to_recv_queue : list AnyMessage)
  : Py.M t (list AnyMessage * list AnyMessage) :=
  match n with
  | O => Py.ret (messages_to_return, messages_to_add_to_recv_queue)
  | S n' =>
      let* buffer := Py.gets receive_buffer in
      if negb (Py.contains Py.LF buffer)
      then Py.ret (messages_to_return, messages_to_add_to_recv_queue)
      else
        let* message := Py.index (Py.split "010" (Some 1%nat) buffer) 0 in
        Py.modify (set_receive_buffer
                     (Py.replace (message ++ Py.LF) "" (Some 1%nat) buffer)) ;;;
        if String.eqb message ""
        then process_loop n' mode messages_to_return messages_to_add_to_recv_queue
        else
          let* m := auto_message message in
          let returned :=
            if is_channel_message m
            then (mode =? -1)%Z || (mode =? 0)%Z
            else (mode =? -1)%Z || (mode =? 1)%Z in
          if returned
          then process_loop n' mode (messages_to_return ++ [m])%list
                            messages_to_add_to_recv_queue
          else process_loop n' mode messages_to_return
                            (messages_to_add_to_recv_queue ++ [m])%list
  end.

(** [process_messages(max_messages, mode)] *)
Definition process_messages `{Regex} (max_messages : Z) (mode : Z)
  : Py.M t (list AnyMessage) :=
  _remove_parted_channels ;;;
  let* r := process_loop (Z.to_nat max_messages) mode [] [] in
  Py.modify (fun c => set_receive_queue (receive_queue c ++ snd r)%list c) ;;;
  Py.ret (fst r).

End Connection.

(* ===================================================================== *)
(** ** permission_names.py *)
(* ===================================================================== *)

(** [LOCAL_BYPASS_PERMISSION_TEMPLATE.format(channel)] *)
Definition LOCAL_BYPASS_PERMISSION_TEMPLATE (channel : string) : string :=
  "twitchirc.bypass.permission.local." ++ channel.
Definition GLOBAL_BYPASS_PERMISSION : string := "twitchirc.bypass.permission".

Definition PERMISSION_COMMAND_PERM : string := "twitchirc.perm".
Definition PERMISSION_COMMAND_PERM_ADD : string := "twitchirc.perm.add".
Definition PERMISSION_COMMAND_PERM_REMOVE : string := "twitchirc.perm.remove".
Definition PERMISSION_COMMAND_PERM_LIST : string := "twitchirc.perm.list".
Definition PERMISSION_COMMAND_QUIT : string := "twitchirc.quit".
Definition PERMISSION_COMMAND_PART : string := "twitchirc.part".
Definition PERMISSION_COMMAND_PART_OTHER : string := "twitchirc.part.other".
Definition PERMISSION_COMMAND_JOIN : string := "twitchirc.join".

(* ===================================================================== *)
(** ** command.py *)
(* ===================================================================== *)

(** A user callable (a command function or a bus handler), known by name
    only. *)
Definition Callable : Type := string.

Module Command.
(** The attributes of a [Command], [parent] apart (it is the bot the
    command is registered with).  A matcher function receives the
    message and the command it belongs to; the second argument is fixed
    for each command, so the model keeps the function of the message. *)
Record t : Type := {
  matcher_function : option (ChannelMessage.t -> bool);
  enable_local_bypass : bool;
  ef_command : string;
  chat_command : string;
  function : Callable;
  permissions_required : list string;
  forced_prefix : option string
}.

Definition __init__ (chat_command : string) (function : Callable)
           (forced_prefix : option string) (enable_local_bypass : bool)
           (matcher_function : option (ChannelMessage.t -> bool)) : t :=
  {| matcher_function := matcher_function;
     enable_local_bypass := enable_local_bypass;
     ef_command := match forced_prefix with
                   | Some fp => fp ++ chat_command ++ " "
                   | None => chat_command ++ " "
                   end;
     chat_command := chat_command;
     function := function;
     permissions_required := [];
     forced_prefix := forced_prefix |}.

Definition set_permissions_required (l : list string) (self : t) : t :=
  {| matcher_function := matcher_function self;
     enable_local_bypass := enable_local_bypass self;
     ef_command := ef_command self;
     chat_command := chat_command self;
     function := function self;
     permissions_required := l;
     forced_prefix := forced_prefix self |}.
End Command.

(* ===================================================================== *)
(** ** bot.py *)
(* ===================================================================== *)

(** The positional arguments a handler of the bus receives after the event
    name. *)
Inductive HandlerArgs : Type :=
| NoArgs
| MessageArg (message : AnyMessage)
| PermissionErrorArgs (message : ChannelMessage.t) (command : option Command.t)
                      (missing_permissions : list string).

(** A call of a user callable. *)
Inductive Call : Type :=
| HandlerCall (h : Callable) (event : string) (args : HandlerArgs)
| FunctionCall (f : Callable) (message : ChannelMessage.t).

(** The permission store [PermissionList] is a dict from user name to the
    list of that user's permissions; its method [get_permission_state],
    which resolves the permissions in force for a message, is not part of
    the modelled files. *)
Class PermissionList : Type := {
  get_permission_state : gmap string (list string) -> ChannelMessage.t -> list string
}.

Module Bot.

(** A [Bot] is a [Connection] with the attributes below ([scheduler] and
    [storage] are left out), and [calls], the log of the user callables
    the bot has called, oldest first. *)
Record t : Type := {
  conn : Connection.t;
  _in_rc_mode : bool;
  username : string;
  _password : option string;
  commands : list Command.t;
  handlers : gmap string (list Callable);
  prefix : string;
  on_unknown_command : string;
  permissions : gmap string (list string);
  calls : list Call
}.

Definition set_conn (x : Connection.t) (b : t) : t :=
  {| conn := x; _in_rc_mode := _in_rc_mode b; username := username b;
     _password := _password b; commands := commands b;
     handlers := handlers b; prefix := prefix b;
     on_unknown_command := on_unknown_command b;
     permissions := permissions b; calls := calls b |}.

Definition set_calls (x : list Call) (b : t) : t :=
  {| conn := conn b; _in_rc_mode := _in_rc_mode b; username := username b;
     _password := _password b; commands := commands b;
     handlers := handlers b; prefix := prefix b;
     on_unknown_command := on_unknown_command b;
     permissions := permissions b; calls := x |}.

Definition set_commands (x : list Command.t) (b : t) : t :=
  {| conn := conn b; _in_rc_mode := _in_rc_mode b; username := username b;
     _password := _password b; commands := x;
     handlers := handlers b; prefix := prefix b;
     on_unknown_command := on_unknown_command b;
     permissions := permissions b; calls := calls b |}.

Definition set_handlers (x : gmap string (list Callable)) (b : t) : t :=
  {| conn := conn b; _in_rc_mode := _in_rc_mode b; username := username b;
     _password := _password b; commands := commands b;
     handlers := x; prefix := prefix b;
     on_unknown_command := on_unknown_command b;
     permissions := permissions b; calls := calls b |}.


Definition set_on_unknown_command (x : string) (b : t) : t :=
  {| conn := conn b; _in_rc_mode := _in_rc_mode b; username := username b;
     _password := _password b; commands := commands b;
     handlers := handlers b; prefix := prefix b;
     on_unknown_command := x;
     permissions := permissions b; calls := calls b |}.

Definition set_permissions (x : gmap string (list string)) (b : t) : t :=
  {| conn := conn b; _in_rc_mode := _in_rc_mode b; username := username b;
     _password := _password b; commands := commands b;
     handlers := handlers b; prefix := prefix b;
     on_unknown_command := on_unknown_command b;
     permissions := x; calls := calls b |}.

(** A method inherited from [Connection]. *)
Definition super {A} (m : Py.M Connection.t A) : Py.M t A :=
  Py.lift conn set_conn m.

Definition record (c : Call) : Py.M t unit :=
  Py.modify (fun b => set_calls (calls b ++ [c])%list b).

Definition initial_handlers : gmap string (list Callable) :=
  list_to_map
    [ ("pre_disconnect", []); ("post_disconnect", []); ("pre_save", []);
      ("post_save", []); ("start", []); ("recv_join_msg", []);
      ("recv_part_msg", []); ("recv_ping_msg", []); ("permission_error", []);
      ("any_msg", []); ("chat_msg", []) ].

(** [Bot(address, username, password, port, no_connect=True)], created
    when the clock shows [now]. *)
Definition __init__ (address username : string) (password : option string)
           (port : Z) (now : Z) : t :=
  {| conn := Connection.__init__ address port 3 now;
     _in_rc_mode := false;
     username := username;
     _password := password;
     commands := [];
     handlers := initial_handlers;
     prefix := "!";
     on_unknown_command := "ignore";
     permissions := ∅;
     calls := [] |}.

(** [add_command(command, forced_prefix, enable_local_bypass,
    required_permissions)(func)] *)
Definition add_command (command : string) (forced_prefix : option string)
           (enable_local_bypass : bool) (required_permissions : list string)
           (func : Callable) : Py.M t Command.t :=
  let cmd := Command.__init__ command func forced_prefix enable_local_bypass None in
  let cmd := Command.set_permissions_required
               (Command.permissions_required cmd ++ required_permissions)%list cmd in
  Py.modify (fun b => set_commands (commands b ++ [cmd])%list b) ;;;
  Py.ret cmd.

(** [call_handlers(event, *args)] *)
Definition call_handlers (event : string) (args : HandlerArgs) : Py.M t unit :=
  let* hs := Py.gets handlers in
  match hs !! event with
  | None => Py.raise (Py.KeyError event)
  | Some l => Py.for_each l (fun h => record (HandlerCall h event args))
  end.

(** [p in perms] *)
Definition has (perms : list string) (p : string) : bool :=
  Py.list_in String.eqb p perms.

(** The permissions of [required] that [perms] lacks: the loop
    [for p in ...: if p not in perms: missing_permissions.append(p)]. *)
Definition lacking (perms required : list string) : list string :=
  List.filter (fun p => negb (has perms p)) required.

(** [check_permissions(message, permissions, enable_local_bypass)] *)
Definition check_permissions `{PermissionList} (message : ChannelMessage.t)
           (permissions : list string) (enable_local_bypass : bool)
  : Py.M t (list string) :=
  let* store := Py.gets Bot.permissions in
  let finish (missing_permissions : list string) : Py.M t (list string) :=
    match missing_permissions with
    | [] => Py.ret tt
    | _ :: _ => call_handlers "permission_error"
                  (PermissionErrorArgs message None missing_permissions)
    end ;;;
    Py.ret missing_permissions in
  match store !! ChannelMessage.user message with
  | None => finish permissions
  | Some _ =>
      let perms := get_permission_state store message in
      if has perms GLOBAL_BYPASS_PERMISSION
         || (enable_local_bypass
             && has perms (LOCAL_BYPASS_PERMISSION_TEMPLATE
                             (ChannelMessage.channel message)))
      then Py.ret []
      else finish (lacking perms permissions)
  end.

(** [check_permissions_from_command(message, command)] *)
Definition check_permissions_from_command `{PermissionList}
           (message : ChannelMessage.t) (command : Command.t)
  : Py.M t (list string) :=
  let* store := Py.gets Bot.permissions in
  let finish (missing_permissions : list string) : Py.M t (list string) :=
    match missing_permissions with
    | [] => Py.ret tt
    | _ :: _ => call_handlers "permission_error"
                  (PermissionErrorArgs message (Some command) missing_permissions)
    end ;;;
    Py.ret missing_permissions in
  match store !! ChannelMessage.user message with
  | None => finish (Command.permissions_required command)
  | Some _ =>
      let perms := get_permission_state store message in
      if has perms GLOBAL_BYPASS_PERMISSION
         || (Command.enable_local_bypass command
             && has perms (LOCAL_BYPASS_PERMISSION_TEMPLATE
                             (ChannelMessage.channel message)))
      then Py.ret []
      else finish (lacking perms (Command.permissions_required command))
  end.

(** [Command.__call__(message)], with the bot as the command's
    [parent]. *)
Definition Command__call__ `{PermissionList} (self : Command.t)
           (message : ChannelMessage.t) : Py.M t unit :=
  let run := record (FunctionCall (Command.function self) message) in
  match Command.permissions_required self with
  | [] => run
  | _ :: _ =>
      let* o := check_permissions_from_command message self in
      match o with
      | _ :: _ => Py.ret tt
      | [] => run
      end
  end.

(** [Bot.send]: in replay mode the message only goes to the log. *)
Definition send (message : Sendable) (queue : string) : Py.M t unit :=
  let* rc := Py.gets _in_rc_mode in
  if rc then Py.ret tt else super (Connection.send message queue).

Definition _do_unknown_command (message : ChannelMessage.t) : Py.M t unit :=
  let* policy := Py.gets on_unknown_command in
  if String.eqb policy "warn" then Py.ret tt
  else if String.eqb policy "chat_message" then
    let* word := Py.index (Py.split " " (Some 1%nat) (ChannelMessage.text message)) 0 in
    let msg := ChannelMessage.reply message ("Unknown command " ++ Py.repr word) in
    send (Msg (Channel msg)) (ChannelMessage.channel msg)
  else if String.eqb policy "ignore" then Py.ret tt
  else Py.raise (Py.Exception
         "Invalid handler in `on_unknown_command`. Valid options: warn, chat_message, ignore.").

Definition _call_forced_prefix_commands `{PermissionList}
           (message : ChannelMessage.t) : Py.M t unit :=
  let* cmds := Py.gets commands in
  Py.for_each cmds
    (fun handler =>
       match Command.forced_prefix handler with
       | None => Py.ret tt
       | Some _ =>
           if Py.startswith (ChannelMessage.text message) (Command.ef_command handler)
           then Command__call__ handler message
           else Py.ret tt
       end).

(** [message.text += ' '] when the text has no space. *)
Definition with_trailing_space (message : ChannelMessage.t) : ChannelMessage.t :=
  if negb (Py.contains " " (ChannelMessage.text message))
  then ChannelMessage.set_text (ChannelMessage.text message ++ " ") message
  else message.

(** [_call_command_handlers(message)].  The method changes
    [message.text] in place; the model returns the message as the
    method leaves it. *)
Definition _call_command_handlers `{PermissionList} (message : ChannelMessage.t)
  : Py.M t ChannelMessage.t :=
  let* prefix := Py.gets Bot.prefix in
  if Py.startswith (ChannelMessage.text message) prefix then
    let message := with_trailing_space message in
    let* cmds := Py.gets commands in
    let* was_handled :=
      Py.for_fold cmds
        (fun was_handled handler =>
           let* was_handled :=
             match Command.matcher_function handler with
             | Some matcher =>
                 if matcher message
                 then Command__call__ handler message ;;; Py.ret true
                 else Py.ret was_handled
             | None => Py.ret was_handled
             end in
           let* prefix := Py.gets Bot.prefix in
           if Py.startswith (ChannelMessage.text message)
                            (prefix ++ Command.ef_command handler)
           then Command__call__ handler message ;;; Py.ret true
           else Py.ret was_handled)
        false in
    (if negb was_handled then _do_unknown_command message else Py.ret tt) ;;;
    Py.ret message
  else
    _call_forced_prefix_commands message ;;;
    Py.ret message.

(** [Bot.disconnect] *)
Definition disconnect : Py.M t unit :=
  call_handlers "pre_disconnect" NoArgs ;;;
  super Connection.disconnect ;;;
  call_handlers "post_disconnect" NoArgs.

(** The inherited [receive], whose [self.disconnect()] is
    [Bot.disconnect]. *)
Definition receive (data : string) : Py.M t unit :=
  let* s := Py.gets (fun b => Connection.socket (conn b)) in
  match s with
  | None => Py.raise Py.AttributeError
  | Some _ =>
      let message := Py.replace Py.CRLF Py.LF None data in
      (if String.eqb message ""
       then disconnect ;;; Py.raise Py.SystemExit
       else Py.ret tt) ;;;
      super (Py.modify (fun c => Connection.set_receive_buffer
                                   (Connection.receive_buffer c ++ message) c))
  end.

(** [if i in self.receive_queue: self.receive_queue.remove(i)] *)
Definition discard (i : AnyMessage) : Py.M t unit :=
  super (Py.modify (fun c =>
    match Py.list_remove message_eq i (Connection.receive_queue c) with
    | Some l => Connection.set_receive_queue l c
    | None => c
    end)).

(** The body of the loop of [_run_once] for one received message. *)
Definition handle_received `{DefaultNow} `{PermissionList} (i : AnyMessage)
  : Py.M t unit :=
  call_handlers "any_msg" (MessageArg i) ;;;
  match i with
  | Ping p =>
      super (Connection.force_send
               ("PONG " ++ Py.fmt (PingMessage.host p) ++ Py.CRLF)) ;;;
      discard i
  | Channel m =>
      call_handlers "chat_msg" (MessageArg i) ;;;
      let* m' := _call_command_handlers m in
      discard (Channel m')
  | _ => discard i
  end.

(** [_run_once()]: one tick of the main loop.  [readable] is the answer
    of [select] on the socket and [data] what [recv] then returns. *)
Definition _run_once `{DefaultNow} `{Regex} `{PermissionList}
           (readable : bool) (data : string) : Py.M t bool :=
  let* s := Py.gets (fun b => Connection.socket (conn b)) in
  match s with
  | None => Py.ret false
  | Some _ =>
      if negb readable then Py.ret true else
      receive data ;;;
      super (Connection.process_messages 100 2) ;;;
      let* pending := Py.gets (fun b => Connection.receive_queue (conn b)) in
      Py.for_each pending handle_received ;;;
      let* joined := Py.gets (fun b => Connection.channels_connected (conn b)) in
      match joined with
      | [] => Py.ret false
      | _ :: _ =>
          super (Connection.flush_queue 100) ;;;
          Py.ret true
      end
  end.




(** [stop()].  The attribute [storage] is assigned by the constructor
    only, [None] by default; the method [save] of a storage object is not
    part of the modelled files and can be any method on the bot. *)
Definition stop (storage : option (Py.M t unit)) : Py.M t unit :=
  let* s := Py.gets (fun b => Connection.socket (conn b)) in
  match s with
  | None => Py.ret tt
  | Some _ =>
      call_handlers "pre_save" NoArgs ;;;
      match storage with
      | None => Py.raise Py.AttributeError
      | Some save => save
      end ;;;
      call_handlers "post_save" NoArgs ;;;
      disconnect
  end.

End Bot.

(* ===================================================================== *)
(** ** stock_commands.py *)
(* ===================================================================== *)

(** [str.lower()]: the case mapping of Python's strings is outside the
    sources. *)
Class CaseMapping : Type := {
  lower : string -> string
}.

(** The functions that the generators of [stock_commands.py] register
    with the bot they are given. *)
Module StockCommands.

(** [permission_error_handler(event, msg, command, missing_permissions)],
    the handler [get_no_permission_generator(bot)] puts on the
    [permission_error] event; [bot.send] is called without a queue. *)
Definition permission_error_handler (event : string) (msg : ChannelMessage.t)
           (command : option Command.t) (missing_permissions : list string)
  : Py.M Bot.t unit :=
  match command with
  | None => Py.ret tt
  | Some command =>
      Bot.send
        (Msg (Channel
           (ChannelMessage.reply msg
              ("@" ++ ChannelMessage.user msg ++ " You are missing permissions ("
                 ++ Py.join ", " missing_permissions ++ ") to use command "
                 ++ Command.chat_command command ++ "."))))
        "misc"
  end.

(** [command_join(msg)], the function of the command [join] that
    [get_join_command(bot)] registers. *)
Definition command_join `{DefaultNow} `{CaseMapping} (msg : ChannelMessage.t)
  : Py.M Bot.t unit :=
  let* word := Py.index (Py.split " " None (ChannelMessage.text msg)) 1 in
  let chan := lower word in
  if Py.list_in String.eqb chan ["all"] then
    Bot.send (Msg (Channel (ChannelMessage.reply msg ("Cannot join #" ++ chan ++ "."))))
             "misc"
  else
    let* connected := Py.gets (fun b => Connection.channels_connected (Bot.conn b)) in
    if Py.list_in String.eqb chan connected then
      Bot.send (Msg (Channel (ChannelMessage.reply msg
                                ("This bot is already in channel #" ++ chan ++ "."))))
               "misc"
    else
      Bot.send (Msg (Channel (ChannelMessage.reply msg
                                ("Joining channel #" ++ chan ++ "."))))
               "misc" ;;;
      Bot.super (Connection.join chan).

End StockCommands.

(* ===================================================================== *)
(** ** Vocabulary of the properties *)
(* ===================================================================== *)

(** [isinstance(m, PongMessage)] *)
Definition is_pong (m : AnyMessage) : bool :=
  match m with Pong _ => true | _ => false end.

(** The tagged PRIVMSG pattern only matches lines that start with the tag
    prefix [@]: [ChannelMessage.from_match] hands the first group to
    [process_twitch_flags], which expects it to be [@key=value;...]. *)
Definition tagged_only (R : Regex) : Prop :=
  forall line, re_match PRIVMSG_PATTERN_TWITCH line <> None ->
               Py.startswith line "@" = true.

(** A client line as the server relays it to the channel: with the
    sender as prefix. *)
Definition relayed (user payload : string) : string :=
  ":" ++ user ++ "!" ++ user ++ "@" ++ user ++ ".tmi.twitch.tv " ++ payload.

(** The round trip of a ChannelMessage through its own wire bytes, for the
    message parsed from [line]. *)
Definition bytes_roundtrip_at (R : Regex) (line : string) : Prop :=
  forall m1,
    ChannelMessage.from_text line tt = (Py.Ok m1, tt) ->
    exists payload m2,
      ChannelMessage.__bytes__ (ChannelMessage.set_outgoing true m1) = Py.Ok payload /\
      ChannelMessage.from_text payload tt = (Py.Ok m2, tt) /\
      Message.__eq__ (ChannelMessage.base m1) (ChannelMessage.base m2) = true.

(** What [_send] leaves on the wire for a batch of payloads. *)
Definition transmitted (c : Connection.t) (batch : list string) : list string :=
  match Connection.socket c with
  | Some _ => (Connection.wire c ++ batch)%list
  | None => Connection.wire c
  end.

(** The cooldown map after a batch went out of queue [name] at [now]. *)
Definition cooled (c : Connection.t) (name : string) (now : Z)
           (batch : list string) : gmap string Z :=
  match batch with
  | [] => Connection.message_wait c
  | _ :: _ => <[name := now + Connection.message_cooldown c]> (Connection.message_wait c)
  end.

(** The state [flush_single_queue] leaves when it is not held back. *)
Definition flushed (c : Connection.t) (name : string) (now : Z)
           (max_messages : Z) (q : list string) : Connection.t :=
  Connection.set_queue
    (<[name := Py.slice_from q max_messages]> (Connection.queue c))
    (Connection.set_message_wait (cooled c name now (Py.slice_to q max_messages))
       (Connection.set_wire (transmitted c (Py.slice_to q max_messages)) c)).

(** The queue map and the cooldown map have the same keys. *)
Definition keys_agree (c : Connection.t) : Prop :=
  dom (Connection.queue c) = dom (Connection.message_wait c).

(** A step that keeps the two key sets equal and removes no queue. *)
Definition grows (c c' : Connection.t) : Prop :=
  keys_agree c ->
  keys_agree c' /\ dom (Connection.queue c) ⊆ dom (Connection.queue c').

(** A step that keeps the two key sets equal and only removes the queues
    that were empty and marked for departure. *)
Definition prunes (c c' : Connection.t) : Prop :=
  keys_agree c ->
  keys_agree c' /\
  forall k, k ∈ dom (Connection.queue c) -> k ∉ dom (Connection.queue c') ->
            In k (Connection.channels_to_remove c) /\
            Connection.queue c !! k = Some [].

(** Every run of the method from [c] is an [R]-step. *)
Definition runs {S A} (R : S -> S -> Prop) (m : Py.M S A) (c : S) : Prop :=
  forall o c', m c = (o, c') -> R c c'.

(** The state [c] is [c0] after some queues that were empty and marked for
    departure have been removed, from both maps. *)
Definition pruned (c0 c : Connection.t) : Prop :=
  (keys_agree c0 -> keys_agree c) /\
  (forall k, Connection.queue c !! k = Connection.queue c0 !! k \/
             (Connection.queue c !! k = None /\
              In k (Connection.channels_to_remove c0) /\
              Connection.queue c0 !! k = Some [])) /\
  (forall k, In k (Connection.channels_to_remove c) ->
             In k (Connection.channels_to_remove c0)).

(** Methods that leave the state alone. *)
Definition stateless {S A} (m : Py.M S A) : Prop :=
  forall c o c', m c = (o, c') -> c' = c.

(** A step that leaves both maps and the departure list as they are. *)
Definition frame (c c' : Connection.t) : Prop :=
  Connection.queue c' = Connection.queue c /\
  Connection.message_wait c' = Connection.message_wait c /\
  Connection.channels_to_remove c' = Connection.channels_to_remove c.

(** The calls a client of a [Connection] can make, and the two ways the
    outside changes it: the attribute [hold_send] is assigned, time
    passes. *)
Inductive Operation : Type :=
| CallConnect (username : string) (password : option string)
| CallTwitchMode
| CallJoin (channel : string)
| CallPart (channel : string)
| CallSend (message : Sendable) (queue : string)
| CallForceSend (message : string)
| CallFlushSingleQueue (queue : string) (no_cooldown : bool) (max_messages : Z)
                       (now : option Z)
| CallFlushQueue (max_messages : Z)
| CallReceive (data : string)
| CallProcessMessages (max_messages : Z) (mode : Z)
| CallDisconnect
| AssignHoldSend (value : bool)
| TimePasses (later : Z).

Definition perform `{DefaultNow} `{Regex} (op : Operation) : Py.M Connection.t unit :=
  match op with
  | CallConnect username password => Connection.connect username password
  | CallTwitchMode => Connection.twitch_mode
  | CallJoin channel => Connection.join channel
  | CallPart channel => Connection.part channel
  | CallSend message queue => Connection.send message queue
  | CallForceSend message => Connection.force_send message
  | CallFlushSingleQueue queue no_cooldown max_messages now =>
      Connection.flush_single_queue queue no_cooldown max_messages now ;;; Py.ret tt
  | CallFlushQueue max_messages => Connection.flush_queue max_messages ;;; Py.ret tt
  | CallReceive data => Connection.receive data
  | CallProcessMessages max_messages mode =>
      Connection.process_messages max_messages mode ;;; Py.ret tt
  | CallDisconnect => Connection.disconnect
  | AssignHoldSend value => Py.modify (Connection.set_hold_send value)
  | TimePasses later =>
      Py.modify (fun c => Connection.set_clock (Z.max (Connection.clock c) later) c)
  end.

(** The states a connection goes through, whether its methods return or
    raise. *)
Inductive reachable `{DefaultNow} `{Regex} : Connection.t -> Prop :=
| reachable_init address port message_cooldown now :
    reachable (Connection.__init__ address port message_cooldown now)
| reachable_step c op o c' :
    reachable c -> perform op c = (o, c') -> reachable c'.

Definition is_process_messages (op : Operation) : bool :=
  match op with CallProcessMessages _ _ => true | _ => false end.

(** An environment to run examples in: the module was loaded at time 0,
    and no line carries tags. *)
Definition loaded_at_zero : DefaultNow := {| definition_time := 0 |}.
Definition no_tagged_lines : Regex := {| re_match := fun _ _ => None |}.

(** A fresh connection, created at time 0. *)
Definition fresh : Connection.t := Connection.__init__ "irc.chat.twitch.tv" 6667 3 0.

(** Join a channel, queue a line for it, leave the channel twice, let the
    queue drain, then process incoming messages. *)
Definition part_twice : Py.M Connection.t (list AnyMessage) :=
  @Connection.connect loaded_at_zero "bot" None ;;;
  @Connection.join loaded_at_zero "foo" ;;;
  Connection.send (Str ("PRIVMSG #foo :bye" ++ Py.CRLF)) "foo" ;;;
  @Connection.part loaded_at_zero "foo" ;;;
  @Connection.part loaded_at_zero "foo" ;;;
  @Connection.flush_queue loaded_at_zero 100 ;;;
  @Connection.process_messages no_tagged_lines 100 2.

(** The same with a single [part]. *)
Definition part_once : Py.M Connection.t (list AnyMessage) :=
  @Connection.connect loaded_at_zero "bot" None ;;;
  @Connection.join loaded_at_zero "foo" ;;;
  Connection.send (Str ("PRIVMSG #foo :bye" ++ Py.CRLF)) "foo" ;;;
  @Connection.part loaded_at_zero "foo" ;;;
  @Connection.process_messages no_tagged_lines 100 2 ;;;
  @Connection.flush_queue loaded_at_zero 100 ;;;
  @Connection.process_messages no_tagged_lines 100 2.

(** The list [check_permissions_from_command] computes for a message and
    a command, given the permission store. *)
Definition missing_for `{PermissionList} (store : gmap string (list string))
           (message : ChannelMessage.t) (command : Command.t) : list string :=
  match store !! ChannelMessage.user message with
  | None => Command.permissions_required command
  | Some _ =>
      let perms := get_permission_state store message in
      if Bot.has perms GLOBAL_BYPASS_PERMISSION
         || (Command.enable_local_bypass command
             && Bot.has perms (LOCAL_BYPASS_PERMISSION_TEMPLATE
                                 (ChannelMessage.channel message)))
      then []
      else Bot.lacking perms (Command.permissions_required command)
  end.

(** The calls of the [permission_error] handlers [hs] for a failed check. *)
Definition permission_error_calls (hs : list Callable) (message : ChannelMessage.t)
           (command : option Command.t) (missing : list string) : list Call :=
  map (fun h => HandlerCall h "permission_error"
                  (PermissionErrorArgs message command missing)) hs.

(** The user callables one call of a command on a message calls: its
    function, or the [permission_error] handlers. *)
Definition invocation `{PermissionList} (store : gmap string (list string))
           (hs : list Callable) (self : Command.t) (message : ChannelMessage.t)
  : list Call :=
  match Command.permissions_required self with
  | [] => [FunctionCall (Command.function self) message]
  | _ :: _ =>
      match missing_for store message self with
      | [] => [FunctionCall (Command.function self) message]
      | missing => permission_error_calls hs message (Some self) missing
      end
  end.

(** The user holds a permission that makes the command's requirements
    moot or met. *)
Definition granted `{PermissionList} (store : gmap string (list string))
           (message : ChannelMessage.t) (command : Command.t) : Prop :=
  let perms := get_permission_state store message in
  (forall p, In p (Command.permissions_required command) -> In p perms) \/
  In GLOBAL_BYPASS_PERMISSION perms \/
  (Command.enable_local_bypass command = true /\
   In (LOCAL_BYPASS_PERMISSION_TEMPLATE (ChannelMessage.channel message)) perms).


(** The calls the prefix branch of [_call_command_handlers] makes for one
    command: one for its matcher, one for its prefixed name. *)
Definition tried_with_prefix `{PermissionList} (store : gmap string (list string))
           (hs : list Callable) (prefix : string) (message : ChannelMessage.t)
           (handler : Command.t) : list Call :=
  (match Command.matcher_function handler with
   | Some matcher => if matcher message then invocation store hs handler message else []
   | None => []
   end ++
   if Py.startswith (ChannelMessage.text message) (prefix ++ Command.ef_command handler)
   then invocation store hs handler message
   else [])%list.

Definition prefix_pass `{PermissionList} (store : gmap string (list string))
           (hs : list Callable) (prefix : string) (commands : list Command.t)
           (message : ChannelMessage.t) : list Call :=
  flat_map (tried_with_prefix store hs prefix message) commands.

(** The command matched the message in the prefix branch. *)
Definition handles (prefix : string) (message : ChannelMessage.t)
           (handler : Command.t) : bool :=
  match Command.matcher_function handler with
  | Some matcher => matcher message
  | None => false
  end
  || Py.startswith (ChannelMessage.text message) (prefix ++ Command.ef_command handler).

(** A permission store whose [get_permission_state] is the list stored
    for the user of the message. *)
Definition stored_permissions : PermissionList :=
  {| get_permission_state := fun store message =>
       default [] (store !! ChannelMessage.user message) |}.

(** A bot created at time 0, not connected, with one handler on the
    [permission_error] event. *)
Definition plain_bot : Bot.t :=
  let b := Bot.__init__ "irc.chat.twitch.tv" "bot" None 6667 0 in
  Bot.set_handlers (<["permission_error" := ["no_permission"]]> (Bot.handlers b)) b.

(** [plain_bot] with the command [quit], which requires [twitchirc.quit]. *)
Definition quit_command : Command.t :=
  Command.set_permissions_required [PERMISSION_COMMAND_QUIT]
    (Command.__init__ "quit" "command_quit" None false None).

Definition quit_bot : Bot.t := Bot.set_commands [quit_command] plain_bot.



(** [plain_bot] with a command [hi] that also has a matcher. *)
Definition hi_command : Command.t :=
  Command.__init__ "hi" "command_hi" None true
    (Some (fun message => Py.startswith (ChannelMessage.text message) "!hi")).

Definition hi_bot : Bot.t := Bot.set_commands [hi_command] plain_bot.

(** A pattern table in which the Ping pattern matches the line
    [PING :tmi.twitch.tv] and captures [host] from it, and nothing else
    matches. *)
Definition ping_captures (host : string) : Regex :=
  {| re_match := fun pattern line =>
       match pattern with
       | PING_MESSAGSE_PATTERN =>
           if String.eqb line "PING :tmi.twitch.tv"
           then Some {| m_string := line; m_groups := [host] |}
           else None
       | _ => None
       end |}.

(** [plain_bot], connected and in channel [foo]. *)
Definition running_bot : Bot.t :=
  snd ((Bot.super (@Connection.connect loaded_at_zero "bot" None) ;;;
        Bot.super (@Connection.join loaded_at_zero "foo")) plain_bot).

(** A step that leaves the socket and [hold_send] as they are and only
    adds to the wire. *)
Definition steady (c c' : Connection.t) : Prop :=
  Connection.socket c' = Connection.socket c /\
  Connection.hold_send c' = Connection.hold_send c /\
  exists sent, Connection.wire c' = (Connection.wire c ++ sent)%list.

Definition bot_steady (b b' : Bot.t) : Prop := steady (Bot.conn b) (Bot.conn b').

(** *** Vocabulary of the further properties *)

(** The value [process_twitch_flags] stores for the text [val] of a tag. *)
Definition tag_value (val : string) : FlagValue :=
  if Py.contains "," val then FlagList (Py.split "," None val) else FlagStr val.

(** A tag prefix as the server writes it: [@key=value;key=value...]. *)
Definition tags_line (tags : list (string * string)) : string :=
  "@" ++ Py.join ";" (map (fun kv => fst kv ++ "=" ++ snd kv) tags).

(** The dict of a list of tags: a later tag replaces an earlier one of the
    same key. *)
Definition tags_dict (tags : list (string * string)) : gmap string FlagValue :=
  fold_left (fun output kv => <[fst kv := tag_value (snd kv)]> output) tags ∅.

(** The pattern of [MESSAGE_PATTERN_DICT] listed with the class of the
    message, if there is one. *)
Definition pattern_of (m : AnyMessage) : option Pattern :=
  match m with
  | Channel _ => Some PRIVMSG_PATTERN_TWITCH
  | Ping _ => Some PING_MESSAGSE_PATTERN
  | Notice _ => Some NOTICE_MESSAGE_PATTERN
  | GlobalNotice _ => Some GLOBAL_NOTICE_MESSAGE_PATTERN
  | Join _ => Some JOIN_MESSAGE_PATTERN
  | Part _ => Some PART_MESSAGE_PATTERN
  | Whisper _ => Some WHISPER_MESSAGE_PATTERN
  | Raw _ | Pong _ | Usernotice _ => None
  end.

(** The patterns that [MESSAGE_PATTERN_DICT] lists before a pattern. *)
Definition listed_before (p : Pattern) : list Pattern :=
  match p with
  | PRIVMSG_PATTERN_TWITCH => []
  | PING_MESSAGSE_PATTERN => [PRIVMSG_PATTERN_TWITCH]
  | NOTICE_MESSAGE_PATTERN => [PRIVMSG_PATTERN_TWITCH; PING_MESSAGSE_PATTERN]
  | GLOBAL_NOTICE_MESSAGE_PATTERN =>
      [PRIVMSG_PATTERN_TWITCH; PING_MESSAGSE_PATTERN; NOTICE_MESSAGE_PATTERN]
  | JOIN_MESSAGE_PATTERN =>
      [PRIVMSG_PATTERN_TWITCH; PING_MESSAGSE_PATTERN; NOTICE_MESSAGE_PATTERN;
       GLOBAL_NOTICE_MESSAGE_PATTERN]
  | PART_MESSAGE_PATTERN =>
      [PRIVMSG_PATTERN_TWITCH; PING_MESSAGSE_PATTERN; NOTICE_MESSAGE_PATTERN;
       GLOBAL_NOTICE_MESSAGE_PATTERN; JOIN_MESSAGE_PATTERN]
  | WHISPER_MESSAGE_PATTERN =>
      [PRIVMSG_PATTERN_TWITCH; PING_MESSAGSE_PATTERN; NOTICE_MESSAGE_PATTERN;
       GLOBAL_NOTICE_MESSAGE_PATTERN; JOIN_MESSAGE_PATTERN; PART_MESSAGE_PATTERN]
  end.

(** A [PingMessage] that one of the two parsers of the class returned. *)
Definition parsed_ping (p : PingMessage.t) : Prop :=
  (exists m, PingMessage.from_match m tt = (Py.Ok p, tt)) \/
  (exists text, PingMessage.from_text text tt = (Py.Ok p, tt)).

(** The queue [send] puts a message on: that of its channel for a
    ChannelMessage, whatever [queue] is; none for a ChannelMessage of the
    user [rcfile]. *)
Definition routed (message : Sendable) (queue : string) : option string :=
  match message with
  | Msg (Channel m) =>
      if String.eqb (ChannelMessage.user m) "rcfile" then None
      else Some (ChannelMessage.channel m)
  | _ => Some queue
  end.

(** The connection with the queue [name] created, empty and with the
    current time as its earliest-send timestamp, if it was missing. *)
Definition with_queue (c : Connection.t) (name : string) : Connection.t :=
  match Connection.queue c !! name with
  | Some _ => c
  | None =>
      Connection.set_message_wait (<[name := Connection.clock c]> (Connection.message_wait c))
        (Connection.set_queue (<[name := []]> (Connection.queue c)) c)
  end.

(** The connection with the payload [b] at the back of the queue
    [name]. *)
Definition enqueued (c : Connection.t) (name : string) (b : string) : Connection.t :=
  let c := with_queue c name in
  Connection.set_queue
    (<[name := (default [] (Connection.queue c !! name) ++ [b])%list]> (Connection.queue c)) c.

(** The classes that inherit [Message.__bytes__]. *)
Definition inherits_bytes (m : AnyMessage) : bool :=
  match m with
  | Raw _ | Ping _ | Notice _ | GlobalNotice _ | Part _ | Usernotice _ => true
  | Channel _ | Whisper _ | Pong _ | Join _ => false
  end.

(** The lines [_login] sends, in order. *)
Definition login_lines (username : string) (password : option string) : list string :=
  (match password with
   | Some p => [("PASS " ++ p ++ Py.CRLF)%string]
   | None => []
   end ++ [("NICK " ++ username ++ Py.CRLF)%string])%list.

(** The earliest-send timestamp of the queue [k] is not after [now]. *)
Definition due (c : Connection.t) (now : Z) (k : string) : bool :=
  match Connection.message_wait c !! k with
  | Some wait => negb (wait >? now)
  | None => false
  end.

(** What a flush at [now] takes from the queue [k]. *)
Definition batch (c : Connection.t) (now : Z) (max_messages : Z) (k : string)
  : list string :=
  if due c now k
  then Py.slice_to (default [] (Connection.queue c !! k)) max_messages
  else [].

(** The state after the queues [ks] of [c] were flushed at [now]. *)
Definition flushed_queues (c c' : Connection.t) (now : Z) (max_messages : Z)
           (ks : list string) : Prop :=
  Connection.wire c' = transmitted c (concat (map (batch c now max_messages) ks)) /\
  (forall k,
      Connection.queue c' !! k
      = (if bool_decide (k ∈ ks) && due c now k
         then (fun l => Py.slice_from l max_messages) <$> Connection.queue c !! k
         else Connection.queue c !! k) /\
      Connection.message_wait c' !! k
      = (if bool_decide (k ∈ ks)
         then match batch c now max_messages k with
              | [] => Connection.message_wait c !! k
              | _ :: _ => Some (now + Connection.message_cooldown c)
              end
         else Connection.message_wait c !! k)) /\
  Connection.socket c' = Connection.socket c /\
  Connection.hold_send c' = Connection.hold_send c /\
  Connection.message_cooldown c' = Connection.message_cooldown c.

(** A step that leaves an attribute as it is. *)
Definition same {S A} (f : S -> A) (c c' : S) : Prop := f c' = f c.

(** The outcome of [auto_message] on a line. *)
Definition parse `{Regex} (line : string) : Py.Outcome AnyMessage :=
  fst (@auto_message _ unit line tt).

(** The receive buffer that holds the complete lines [lines] and then the
    partial line [rest]. *)
Definition buffered (lines : list string) (rest : string) : string :=
  fold_right (fun line buffer => line ++ Py.LF ++ buffer) rest lines.

(** The messages of the lines, empty lines apart; [None] if one of the
    lines makes [auto_message] raise. *)
Fixpoint parsed_lines `{Regex} (lines : list string) : option (list AnyMessage) :=
  match lines with
  | [] => Some []
  | line :: lines' =>
      if String.eqb line "" then parsed_lines lines'
      else match parse line with
           | Py.Ok m => cons m <$> parsed_lines lines'
           | Py.Raise _ => None
           end
  end.

(** Whether [process_messages] returns a message in the mode [mode]: the
    other messages go to [receive_queue]. *)
Definition returned (mode : Z) (m : AnyMessage) : bool :=
  if Connection.is_channel_message m
  then (mode =? -1)%Z || (mode =? 0)%Z
  else (mode =? -1)%Z || (mode =? 1)%Z.

(** The method gives the same outcome in every state and leaves the state
    alone: [m0] is the method on a receiver without attributes. *)
Definition agrees {S A} (m : Py.M S A) (m0 : Py.M unit A) : Prop :=
  forall s, m s = (fst (m0 tt), s).

(** A pattern table in which the Notice pattern matches one line, whose
    tags have no [msg-id], and nothing else matches. *)
Definition notice_without_id : Regex :=
  {| re_match := fun pattern line =>
       match pattern with
       | NOTICE_MESSAGE_PATTERN =>
           if String.eqb line "@x=y :tmi.twitch.tv NOTICE #foo :hi"
           then Some {| m_string := line;
                        m_groups := ["@x=y"; "tmi.twitch.tv"; "foo"; "hi"] |}
           else None
       | _ => None
       end |}.

(** The body of the loop of [_remove_parted_channels]. *)
Definition remove_if_drained (i : string) : Py.M Connection.t unit :=
  let* q := Connection.queue_at i in
  match q with
  | _ :: _ => Py.ret tt
  | [] =>
      let* l := Py.gets Connection.channels_to_remove in
      match Py.list_remove String.eqb i l with
      | None => Py.raise Py.ValueError
      | Some l' => Py.modify (Connection.set_channels_to_remove l')
      end ;;;
      Connection.message_wait_at i ;;;
      Py.modify (fun c => Connection.set_message_wait
                            (delete i (Connection.message_wait c)) c) ;;;
      Connection.queue_at i ;;;
      Py.modify (fun c => Connection.set_queue (delete i (Connection.queue c)) c)
  end.

(** The list [check_permissions] computes for a message, a list of
    required permissions and the setting of the local bypass. *)
Definition missing_of `{PermissionList} (store : gmap string (list string))
           (message : ChannelMessage.t) (permissions : list string)
           (enable_local_bypass : bool) : list string :=
  match store !! ChannelMessage.user message with
  | None => permissions
  | Some _ =>
      let perms := get_permission_state store message in
      if Bot.has perms GLOBAL_BYPASS_PERMISSION
         || (enable_local_bypass
             && Bot.has perms (LOCAL_BYPASS_PERMISSION_TEMPLATE
                                 (ChannelMessage.channel message)))
      then []
      else Bot.lacking perms permissions
  end.

(** A character that [repr] prints as it is between single quotes: a
    printable ASCII character other than the quote and the backslash. *)
Definition printable (c : ascii) : bool :=
  let n := nat_of_ascii c in
  (32 <=? n)%nat && (n <=? 126)%nat && negb (n =? 39)%nat && negb (n =? 92)%nat.

Definition plain (s : string) : bool := forallb printable (list_ascii_of_string s).


(** The calls of the handlers [hs] of an event without arguments. *)
Definition notified (event : string) (hs : list Callable) : list Call :=
  map (fun h => HandlerCall h event NoArgs) hs.

(** The channels the bot is listed in. *)
Definition joined (b : Bot.t) : list string := Connection.channels_connected (Bot.conn b).

(** The line of a reply to [msg] with a text that has no CRLF. *)
Definition reply_line (msg : ChannelMessage.t) (text : string) : string :=
  "PRIVMSG #" ++ ChannelMessage.channel msg ++ " :" ++ text ++ Py.CRLF.

(** Lower case of the letters A to Z, the other characters as they
    are. *)
Definition ascii_lower : CaseMapping :=
  {| lower := fun s =>
       string_of_list_ascii
         (map (fun c => let n := nat_of_ascii c in
                        if (65 <=? n)%nat && (n <=? 90)%nat
                        then ascii_of_nat (n + 32) else c)
              (list_ascii_of_string s)) |}.

(** The text of a list of characters. *)
Definition text_of (w : list string) : string := fold_right String.append "" w.

(** The character U+00E9, two bytes in UTF-8. *)
Definition e_acute : string := String "195" (String "169" "").

(** [running_bot] with the policy [chat_message] for unknown commands. *)
Definition chatty_bot : Bot.t := Bot.set_on_unknown_command "chat_message" running_bot.

(** A connected connection with three payloads waiting for the channel
    [foo], which is due, and one for the queue [bar], which has just sent
    a payload and waits. *)
Definition busy : Connection.t :=
  snd ((@Connection.connect loaded_at_zero "bot" None ;;;
        @Connection.join loaded_at_zero "foo" ;;;
        Connection.send (Str "a") "foo" ;;;
        Connection.send (Str "b") "foo" ;;;
        Connection.send (Str "c") "foo" ;;;
        Connection.send (Str "x") "bar" ;;;
        Connection.send (Str "y") "bar" ;;;
        @Connection.flush_single_queue loaded_at_zero "bar" false 1 (Some 0)) fresh).

(** [running_bot] with a handler on each of the two disconnect events. *)
Definition watched_bot : Bot.t :=
  Bot.set_handlers
    (<["pre_disconnect" := ["say_bye"]]>
       (<["post_disconnect" := ["clean_up"]]> (Bot.handlers running_bot))) running_bot.

(** [plain_bot], connected and in no channel. *)
Definition connected_bot : Bot.t :=
  snd (Bot.super (@Connection.connect loaded_at_zero "bot" None) plain_bot).

(* END OF VOCABULARY *)

(* ===================================================================== *)
(** ** Facts about the Python primitives *)
(* ===================================================================== *)

Lemma bind_ret {S A B} (a : A) (f : A -> Py.M S B) (s : S) :
  Py.bind (Py.ret a) f s = f a s.
Proof. reflexivity. Qed.

Lemma app_cons (c : ascii) (a b : string) : String c a ++ b = String c (a ++ b).
Proof. reflexivity. Qed.

Lemma app_nil_l (b : string) : "" ++ b = b.
Proof. reflexivity. Qed.

Lemma append_assoc (a b c : string) : (a ++ b) ++ c = a ++ (b ++ c).
Proof.
  induction a as [|x a IH]; [reflexivity|].
  rewrite !app_cons, IH. reflexivity.
Qed.

Lemma prefix_cons (c d : ascii) (p s : string) :
  String.prefix (String c p) (String d s) = Ascii.eqb c d && String.prefix p s.
Proof.
  simpl. destruct (ascii_dec c d) as [->|Hne].
  - now rewrite Ascii.eqb_refl.
  - apply Ascii.eqb_neq in Hne. now rewrite Hne.
Qed.

Lemma prefix_nil (s : string) : String.prefix "" s = true.
Proof. now destruct s. Qed.

Lemma contains_char_cons (c d : ascii) (s : string) :
  Py.contains (String c "") (String d s)
  = Ascii.eqb c d || Py.contains (String c "") s.
Proof.
  cbn [Py.contains]. rewrite prefix_cons, prefix_nil, andb_true_r. reflexivity.
Qed.

Lemma contains_char_app (c : ascii) (a b : string) :
  Py.contains (String c "") (a ++ b)
  = Py.contains (String c "") a || Py.contains (String c "") b.
Proof.
  induction a as [|d a IH].
  - reflexivity.
  - rewrite app_cons, !contains_char_cons, IH, orb_assoc. reflexivity.
Qed.

(** [split] always returns at least one piece. *)
Lemma split_nonempty sep k s : Py.split sep k s <> [].
Proof.
  revert k. induction s as [|c s IH]; intros k; simpl; [discriminate|].
  destruct (Py.exhausted k); [discriminate|].
  destruct (Ascii.eqb c sep); [discriminate|].
  specialize (IH k). destruct (Py.split sep k s); [contradiction|discriminate].
Qed.

(** A word without the separator, followed by the separator, is the first
    piece. *)
Lemma split_word sep k w s :
  Py.contains (String sep "") w = false ->
  Py.split sep (Some (S k)) (w ++ String sep s)
  = w :: Py.split sep (Some k) s.
Proof.
  induction w as [|c w IH]; intros Hw.
  - rewrite app_nil_l. cbn [Py.split Py.exhausted Py.spend Nat.pred].
    now rewrite Ascii.eqb_refl.
  - rewrite contains_char_cons in Hw. apply orb_false_elim in Hw as [Hc Hw].
    rewrite app_cons. cbn [Py.split Py.exhausted].
    rewrite Ascii.eqb_sym, Hc, (IH Hw). reflexivity.
Qed.

Lemma split_exhausted sep s : Py.split sep (Some O) s = [s].
Proof. now destruct s. Qed.

Lemma split_head_cons sep k c s :
  Ascii.eqb c sep = false ->
  exists h t, Py.split sep (Some (S k)) (String c s) = String c h :: t.
Proof.
  intros Hc. cbn [Py.split Py.exhausted]. rewrite Hc.
  destruct (Py.split sep (Some (S k)) s) as [|h t] eqn:E.
  - now apply split_nonempty in E.
  - eauto.
Qed.

(** Removing CRLF from a string. *)
Lemma replace_crlf_cons c s :
  Ascii.eqb c "013" = false ->
  Py.replace Py.CRLF "" None (String c s) = String c (Py.replace Py.CRLF "" None s).
Proof.
  intros Hc. unfold Py.replace, Py.CRLF.
  cbn [Py.replace_from Py.exhausted].
  rewrite prefix_cons, Ascii.eqb_sym, Hc. reflexivity.
Qed.

Lemma replace_crlf_app a s :
  Py.contains Py.CR a = false ->
  Py.replace Py.CRLF "" None (a ++ s) = a ++ Py.replace Py.CRLF "" None s.
Proof.
  unfold Py.CR. induction a as [|c a IH]; intros Ha; [reflexivity|].
  rewrite contains_char_cons in Ha. apply orb_false_elim in Ha as [Hc Ha].
  rewrite app_cons, replace_crlf_cons by now rewrite Ascii.eqb_sym.
  rewrite (IH Ha). reflexivity.
Qed.

Lemma replace_crlf_end x :
  Py.contains Py.CRLF x = false ->
  Py.replace Py.CRLF "" None (x ++ Py.CRLF) = x.
Proof.
  unfold Py.replace, Py.CRLF.
  induction x as [|c x IH]; intros Hx; [reflexivity|].
  cbn [Py.contains] in Hx. apply orb_false_elim in Hx as [Hp Hx].
  rewrite app_cons. cbn [Py.replace_from Py.exhausted].
  assert (Hp' : String.prefix (String "013" (String "010" ""))
                  (String c (x ++ String "013" (String "010" ""))) = false).
  { rewrite prefix_cons in Hp |- *.
    destruct (Ascii.eqb "013" c); [|reflexivity]. simpl in Hp |- *.
    destruct x as [|d x]; [reflexivity|].
    rewrite app_cons, prefix_cons, prefix_nil.
    rewrite prefix_cons, prefix_nil in Hp. exact Hp. }
  rewrite Hp'. f_equal. apply IH, Hx.
Qed.

Lemma replace_crlf_id x :
  Py.contains Py.CRLF x = false -> Py.replace Py.CRLF "" None x = x.
Proof.
  unfold Py.replace, Py.CRLF.
  induction x as [|c x IH]; intros Hx; [reflexivity|].
  cbn [Py.contains] in Hx. apply orb_false_elim in Hx as [Hp Hx].
  cbn [Py.replace_from Py.exhausted]. rewrite Hp. f_equal. apply IH, Hx.
Qed.

(** The primitives on the inputs of the Python documentation and of the
    sources' comments. *)
Example split_relayed_line :
  Py.split " " (Some 3%nat) ":bob!bob@bob.tmi.twitch.tv PRIVMSG #foo :hello big world"
  = [":bob!bob@bob.tmi.twitch.tv"; "PRIVMSG"; "#foo"; ":hello big world"].
Proof. reflexivity. Qed.

Example split_keeps_empty_pieces : Py.split "," None "a,,b," = ["a"; ""; "b"; ""].
Proof. reflexivity. Qed.

Example split_of_empty_string : Py.split " " (Some 1%nat) "" = [""].
Proof. reflexivity. Qed.

Example replace_does_not_overlap : Py.replace "aa" "X" None "aaaaa" = "XXa".
Proof. reflexivity. Qed.

Example replace_first_only : Py.replace "aa" "X" (Some 1%nat) "baaaa" = "bXaa".
Proof. reflexivity. Qed.

Example slices_with_negative_bound :
  Py.slice_to ["a"; "b"; "c"] (-1) = ["a"; "b"] /\
  Py.slice_from ["a"; "b"; "c"] (-1) = ["c"].
Proof. split; reflexivity. Qed.

(* ===================================================================== *)
(** ** Serialization of messages *)
(* ===================================================================== *)

(** C4 (as amended).  An instance of any class other than [PongMessage]
    whose [outgoing] flag is false serializes to the empty payload. *)
Theorem non_outgoing_message_serializes_empty (m : AnyMessage) :
  Message.outgoing (base_of m) = false ->
  is_pong m = false ->
  message_bytes m = Py.Ok "".
Proof.
  intros Hout Hpong.
  destruct m as [m|m|m|m|m|m|m|m|m|m]; try discriminate Hpong;
    cbn [message_bytes base_of] in *;
    unfold Message.__bytes__, ChannelMessage.__bytes__,
      WhisperMessage.__bytes__, JoinMessage.__bytes__;
    rewrite Hout; reflexivity.
Qed.

Lemma non_outgoing_message_serializes_empty_witness :
  message_bytes (Channel (ChannelMessage.__init__ "hello" "bob" "foo")) = Py.Ok "".
Proof.
  apply (non_outgoing_message_serializes_empty
           (Channel (ChannelMessage.__init__ "hello" "bob" "foo")));
    reflexivity.
Defined.

(** C4 fails as stated: a [PongMessage] is created with [outgoing] false
    and serializes to its PONG line all the same. *)
Lemma pong_serializes_when_not_outgoing :
  ~ (forall m : AnyMessage,
        Message.outgoing (base_of m) = false -> message_bytes m = Py.Ok "").
Proof.
  intros H.
  specialize (H (Pong (PongMessage.__init__ "tmi.twitch.tv")) eq_refl).
  discriminate H.
Qed.

(** A [PongMessage] serializes to [PONG :host] whatever its flag. *)
Lemma pong_bytes (p : PongMessage.t) :
  message_bytes (Pong p) = Py.Ok ("PONG :" ++ PongMessage.host p ++ Py.CRLF).
Proof. reflexivity. Qed.

(** The wire bytes of an outgoing ChannelMessage are not a line that
    [ChannelMessage.from_text] accepts. *)
Lemma payload_rejected `{R : Regex} {S} (channel text : string) (s : S) :
  tagged_only R ->
  exists msg,
    ChannelMessage.from_text ("PRIVMSG #" ++ channel ++ " :" ++ text ++ Py.CRLF) s
    = (Py.Raise (Py.Exception msg), s).
Proof.
  intros HR. unfold ChannelMessage.from_text.
  destruct (re_match PRIVMSG_PATTERN_TWITCH _) as [m|] eqn:E.
  { assert (H : re_match PRIVMSG_PATTERN_TWITCH
                  ("PRIVMSG #" ++ channel ++ " :" ++ text ++ Py.CRLF) <> None)
      by (rewrite E; discriminate).
    apply HR in H. discriminate H. }
  rewrite (replace_crlf_app "PRIVMSG #") by reflexivity.
  set (r := Py.replace Py.CRLF "" None _).
  change ("PRIVMSG #" ++ r) with ("PRIVMSG" ++ String " " (String "#" r)).
  rewrite split_word by reflexivity.
  destruct (split_head_cons " " 1 "#" r eq_refl) as (h & t & ->).
  cbn [Py.index nth_error]. rewrite bind_ret.
  replace (String.eqb (String "#" h) "PRIVMSG") with false by reflexivity.
  cbn [negb]. eexists. reflexivity.
Qed.

Lemma relayed_shape (u c x : string) :
  relayed u ("PRIVMSG #" ++ c ++ " :" ++ x)
  = (":" ++ u ++ "!" ++ u ++ "@" ++ u ++ ".tmi.twitch.tv")
      ++ String " " ("PRIVMSG" ++ String " " (("#" ++ c) ++ String " " (":" ++ x))).
Proof.
  unfold relayed. rewrite !append_assoc. reflexivity.
Qed.

(** The same bytes behind the sender prefix are parsed by the fallback
    parser of [from_text]. *)
Lemma relayed_parsed `{R : Regex} {S} (user channel text : string) (s : S) :
  tagged_only R ->
  Py.contains " " user = false ->
  Py.contains "!" user = false ->
  Py.contains Py.CR user = false ->
  Py.contains " " channel = false ->
  Py.contains Py.CR channel = false ->
  Py.contains Py.CRLF text = false ->
  ChannelMessage.from_text
    (relayed user ("PRIVMSG #" ++ channel ++ " :" ++ text ++ Py.CRLF)) s
  = (Py.Ok (ChannelMessage.__init__ text user channel), s).
Proof.
  intros HR Hu1 Hu2 Hu3 Hc1 Hc2 Hx. unfold ChannelMessage.from_text.
  destruct (re_match PRIVMSG_PATTERN_TWITCH _) as [m|] eqn:E.
  { assert (H : re_match PRIVMSG_PATTERN_TWITCH
                  (relayed user ("PRIVMSG #" ++ channel ++ " :" ++ text ++ Py.CRLF))
                <> None) by (rewrite E; discriminate).
    apply HR in H. discriminate H. }
  assert (Hclean :
    Py.replace Py.CRLF "" None
      (relayed user ("PRIVMSG #" ++ channel ++ " :" ++ text ++ Py.CRLF))
    = relayed user ("PRIVMSG #" ++ channel ++ " :" ++ text)).
  { unfold relayed.
    repeat (rewrite replace_crlf_app by (assumption || reflexivity)).
    rewrite replace_crlf_end by assumption. reflexivity. }
  rewrite Hclean, relayed_shape.
  rewrite split_word.
  2:{ rewrite !contains_char_app, Hu1. reflexivity. }
  rewrite split_word by reflexivity.
  rewrite split_word.
  2:{ rewrite contains_char_app, Hc1. reflexivity. }
  rewrite split_exhausted.
  cbn [Py.index nth_error]. rewrite !bind_ret.
  replace (String.eqb "PRIVMSG" "PRIVMSG") with true by reflexivity.
  cbn [negb]. rewrite !bind_ret.
  rewrite <- (append_assoc ":" user).
  change ("!" ++ ?r) with (String "!" r).
  rewrite split_word.
  2:{ rewrite contains_char_app, Hu2. reflexivity. }
  cbn [Py.index nth_error]. rewrite !bind_ret.
  reflexivity.
Qed.

(** C6 (as amended).  The wire bytes of a ChannelMessage with [outgoing]
    set are [PRIVMSG #channel :text] and CRLF.  [from_text] refuses that
    line: it has no sender prefix, so its second field is the channel and
    not [PRIVMSG].  Behind the sender prefix the server adds when it relays
    the line, [from_text] parses it to a ChannelMessage with the same text,
    user and channel, which [==] finds equal to the first one exactly when
    that one has the type and [args] its constructor gives it for this
    text. *)
Theorem channel_message_relayed_roundtrip `{R : Regex} (m : ChannelMessage.t) :
  tagged_only R ->
  Py.contains " " (ChannelMessage.user m) = false ->
  Py.contains "!" (ChannelMessage.user m) = false ->
  Py.contains Py.CR (ChannelMessage.user m) = false ->
  Py.contains " " (ChannelMessage.channel m) = false ->
  Py.contains Py.CR (ChannelMessage.channel m) = false ->
  Py.contains Py.CRLF (ChannelMessage.text m) = false ->
  let payload := "PRIVMSG #" ++ ChannelMessage.channel m ++ " :"
                   ++ ChannelMessage.text m ++ Py.CRLF in
  ChannelMessage.__bytes__ (ChannelMessage.set_outgoing true m) = Py.Ok payload /\
  (exists msg, ChannelMessage.from_text payload tt = (Py.Raise (Py.Exception msg), tt)) /\
  exists m',
    ChannelMessage.from_text (relayed (ChannelMessage.user m) payload) tt
    = (Py.Ok m', tt) /\
    ChannelMessage.text m' = ChannelMessage.text m /\
    ChannelMessage.user m' = ChannelMessage.user m /\
    ChannelMessage.channel m' = ChannelMessage.channel m /\
    Message.__eq__ (ChannelMessage.base m) (ChannelMessage.base m')
    = String.eqb "PRIVMSG" (Message._type (ChannelMessage.base m))
      && String.eqb (ChannelMessage.text m) (Message.args (ChannelMessage.base m)).
Proof.
  intros HR Hu1 Hu2 Hu3 Hc1 Hc2 Hx payload.
  split; [reflexivity|]. split; [now apply payload_rejected|].
  exists (ChannelMessage.__init__ (ChannelMessage.text m) (ChannelMessage.user m)
            (ChannelMessage.channel m)).
  split; [now apply relayed_parsed|].
  cbn [ChannelMessage.__init__ ChannelMessage.text ChannelMessage.user
       ChannelMessage.channel ChannelMessage.base].
  rewrite replace_crlf_id by assumption.
  repeat split.
Qed.

Lemma untagged_regex_is_tagged_only : tagged_only {| re_match := fun _ _ => None |}.
Proof. intros line H. now contradiction H. Qed.

Lemma channel_message_relayed_roundtrip_witness :
  exists m',
    @ChannelMessage.from_text {| re_match := fun _ _ => None |} unit
      (relayed "bob" ("PRIVMSG #foo :hello world" ++ Py.CRLF)) tt = (Py.Ok m', tt) /\
    ChannelMessage.text m' = "hello world" /\
    ChannelMessage.user m' = "bob" /\
    ChannelMessage.channel m' = "foo".
Proof.
  destruct (@channel_message_relayed_roundtrip {| re_match := fun _ _ => None |}
              (ChannelMessage.__init__ "hello world" "bob" "foo")
              untagged_regex_is_tagged_only
              eq_refl eq_refl eq_refl eq_refl eq_refl eq_refl)
    as (_ & _ & m' & Hparse & Ht & Hu & Hc & _).
  exists m'. repeat split; assumption.
Defined.

(** C6 fails as stated: whatever the tagged pattern is, the message parsed
    from a relayed PRIVMSG line does not come back from its own wire
    bytes. *)
Lemma channel_message_bytes_do_not_reparse :
  ~ exists R : Regex,
      tagged_only R /\
      bytes_roundtrip_at R ":bob!bob@bob.tmi.twitch.tv PRIVMSG #foo :hello".
Proof.
  intros (R & HR & H).
  destruct (H (ChannelMessage.__init__ "hello" "bob" "foo"))
    as (payload & m2 & Hb & Hparse & _).
  - unfold ChannelMessage.from_text.
    destruct (re_match PRIVMSG_PATTERN_TWITCH _) as [m|] eqn:E; [|reflexivity].
    assert (Hm : re_match PRIVMSG_PATTERN_TWITCH
                   ":bob!bob@bob.tmi.twitch.tv PRIVMSG #foo :hello" <> None)
      by (rewrite E; discriminate).
    apply HR in Hm. discriminate Hm.
  - injection Hb as <-.
    destruct (@payload_rejected R unit "foo" "hello" tt HR) as (msg & Hrej).
    cbn [ChannelMessage.channel ChannelMessage.text ChannelMessage.__init__
         ChannelMessage.set_outgoing] in Hparse.
    change (Py.replace Py.CRLF "" None "hello") with "hello" in Hparse.
    rewrite Hrej in Hparse. discriminate Hparse.
Qed.

(* ===================================================================== *)
(** ** The outbound queues *)
(* ===================================================================== *)

(** The loop of [flush_single_queue] over a batch: every payload goes to
    [_send], and the cooldown is set, to the same value, once for each
    payload. *)
Lemma flush_loop (name : string) (now : Z) (batch : list string) :
  forall (c : Connection.t) (sent : Z),
    Py.for_fold batch
      (fun (sent : Z) (message : string) =>
           Connection._send message ;;;
           let* cooldown := Py.gets Connection.message_cooldown in
           Py.modify (fun c => Connection.set_message_wait
                                 (<[name := now + cooldown]> (Connection.message_wait c)) c) ;;;
           Py.ret (sent + 1))
      sent c
    = (Py.Ok (sent + Z.of_nat (length batch)),
       Connection.set_message_wait (cooled c name now batch)
         (Connection.set_wire (transmitted c batch) c)).
Proof.
  induction batch as [|x batch IH]; intros c sent.
  - destruct c as [? ? ? [s|] ? ? ? ? ? ? ? ? ?]; cbn; rewrite ?app_nil_r, Z.add_0_r; reflexivity.
  - cbn [Py.for_fold]. unfold Py.bind at 1.
    destruct c as [cd ad po [s|] qu rq rb mw hs cc cr wi cl].
    + cbn. rewrite IH. cbn. f_equal; [f_equal; lia|].
      unfold cooled, transmitted. cbn.
      rewrite <- app_assoc. cbn.
      destruct batch; cbn; [reflexivity|]. now rewrite insert_insert_eq.
    + cbn. rewrite IH. cbn. f_equal; [f_equal; lia|].
      unfold cooled, transmitted. cbn.
      destruct batch; cbn; [reflexivity|]. now rewrite insert_insert_eq.
Qed.

(** [flush_single_queue] in closed form, for any queue name and any
    [max_messages]. *)
Lemma flush_single_queue_run `{DefaultNow} (c : Connection.t) (name : string)
      (no_cooldown : bool) (max_messages : Z) (now : Z) :
  Connection.flush_single_queue name no_cooldown max_messages (Some now) c
  = if Connection.hold_send c then (Py.Ok 0, c) else
    match Connection.message_wait c !! name with
    | None => (Py.Raise (Py.KeyError name), c)
    | Some wait =>
        if (wait >? now) && negb no_cooldown then (Py.Ok 0, c) else
        match Connection.queue c !! name with
        | None => (Py.Raise (Py.KeyError name), c)
        | Some q => (Py.Ok (Z.of_nat (length (Py.slice_to q max_messages))),
                     flushed c name now max_messages q)
        end
    end.
Proof.
  unfold Connection.flush_single_queue.
  unfold Py.bind at 1. cbn [Py.gets].
  destruct (Connection.hold_send c) eqn:Hh; [reflexivity|].
  unfold Py.bind at 1. unfold Connection.message_wait_at at 1.
  unfold Py.bind at 1. cbn [Py.gets].
  destruct (Connection.message_wait c !! name) as [wait|] eqn:Hw; [|reflexivity].
  cbn [Py.ret].
  destruct ((wait >? now) && negb no_cooldown); [reflexivity|].
  unfold Py.bind at 1. unfold Connection.queue_at at 1.
  unfold Py.bind at 1. cbn [Py.gets].
  destruct (Connection.queue c !! name) as [q|] eqn:Hq; [|reflexivity].
  cbn [Py.ret].
  unfold Py.bind at 1. rewrite flush_loop.
  unfold Py.bind at 1. unfold Connection.queue_at at 1.
  unfold Py.bind at 1. cbn [Py.gets].
  destruct c as [cd ad po so qu rq rb mw hs cc cr wi cl]. cbn in Hq |- *.
  rewrite Hq. cbn. reflexivity.
Qed.

(** Reasoning about every run of a method, returning or raising, with a
    relation between the state before and the state after. *)
Section Runs.
Context {S : Type} (R : S -> S -> Prop).
Hypothesis R_refl : forall c, R c c.
Hypothesis R_trans : forall a b c, R a b -> R b c -> R a c.

Lemma runs_ret {A} (a : A) c : runs R (Py.ret a) c.
Proof. intros o c' [= <- <-]. apply R_refl. Qed.

Lemma runs_raise {A} e c : runs R (@Py.raise S A e) c.
Proof. intros o c' [= <- <-]. apply R_refl. Qed.

Lemma runs_gets {A} (f : S -> A) c : runs R (Py.gets f) c.
Proof. intros o c' [= <- <-]. apply R_refl. Qed.

Lemma runs_bind {A B} (m : Py.M S A) (f : A -> Py.M S B) c :
  runs R m c ->
  (forall a c1, m c = (Py.Ok a, c1) -> runs R (f a) c1) ->
  runs R (Py.bind m f) c.
Proof.
  intros Hm Hf o c'. unfold Py.bind.
  destruct (m c) as [[a|e] c1] eqn:E.
  - intros Hfa. eapply R_trans; [apply (Hm _ _ E)|].
    exact (Hf a c1 eq_refl _ _ Hfa).
  - intros [= <- <-]. apply (Hm _ _ E).
Qed.

Lemma runs_for_each {A} (l : list A) (body : A -> Py.M S unit) :
  (forall x c, In x l -> runs R (body x) c) ->
  forall c, runs R (Py.for_each l body) c.
Proof.
  induction l as [|x l IH]; intros Hb c; cbn [Py.for_each].
  - apply runs_ret.
  - apply runs_bind; [apply Hb; now left|].
    intros _ c1 _. apply IH. intros y c2 Hy. apply Hb. now right.
Qed.

Lemma runs_for_fold {A B} (l : list A) (body : B -> A -> Py.M S B) :
  (forall acc x c, In x l -> runs R (body acc x) c) ->
  forall acc c, runs R (Py.for_fold l body acc) c.
Proof.
  induction l as [|x l IH]; intros Hb acc c; cbn [Py.for_fold].
  - apply runs_ret.
  - apply runs_bind; [apply Hb; now left|].
    intros acc1 c1 _. apply IH. intros acc2 y c2 Hy. apply Hb. now right.
Qed.
End Runs.

Lemma grows_refl c : grows c c.
Proof. intros H. split; [assumption|reflexivity]. Qed.

Lemma grows_trans a b c : grows a b -> grows b c -> grows a c.
Proof.
  intros Hab Hbc Ha. destruct (Hab Ha) as [Hb Hsub].
  destruct (Hbc Hb) as [Hc Hsub']. split; [assumption|].
  now transitivity (dom (Connection.queue b)).
Qed.

Lemma grows_prunes c c' : grows c c' -> prunes c c'.
Proof.
  intros H Hc. destruct (H Hc) as [Hc' Hsub]. split; [assumption|].
  intros k Hk Hk'. exfalso. apply Hk', Hsub, Hk.
Qed.

(** A step that touches neither map. *)
Lemma grows_frame c c' :
  Connection.queue c' = Connection.queue c ->
  Connection.message_wait c' = Connection.message_wait c ->
  grows c c'.
Proof.
  intros Hq Hw Hc. unfold keys_agree in *. rewrite Hq, Hw. now split.
Qed.

Lemma queue_at_ok name c l c1 :
  Connection.queue_at name c = (Py.Ok l, c1) ->
  c1 = c /\ Connection.queue c !! name = Some l.
Proof.
  unfold Connection.queue_at, Py.bind, Py.gets.
  destruct (Connection.queue c !! name); intros [= <- <-]; auto.
Qed.

Lemma message_wait_at_ok name c w c1 :
  Connection.message_wait_at name c = (Py.Ok w, c1) ->
  c1 = c /\ Connection.message_wait c !! name = Some w.
Proof.
  unfold Connection.message_wait_at, Py.bind, Py.gets.
  destruct (Connection.message_wait c !! name); intros [= <- <-]; auto.
Qed.

Lemma runs_queue_at name c : runs grows (Connection.queue_at name) c.
Proof.
  intros o c'. unfold Connection.queue_at, Py.bind, Py.gets.
  destruct (_ !! name); intros [= <- <-]; apply grows_refl.
Qed.

Lemma runs_message_wait_at name c : runs grows (Connection.message_wait_at name) c.
Proof.
  intros o c'. unfold Connection.message_wait_at, Py.bind, Py.gets.
  destruct (_ !! name); intros [= <- <-]; apply grows_refl.
Qed.

Lemma grows_flushed c name now max_messages q :
  Connection.queue c !! name = Some q ->
  grows c (flushed c name now max_messages q).
Proof.
  intros Hq Hc. unfold keys_agree in *.
  assert (Hn : is_Some (Connection.queue c !! name)) by eauto.
  assert (Hw : is_Some (Connection.message_wait c !! name))
    by (apply elem_of_dom; rewrite <- Hc; now apply elem_of_dom).
  destruct c as [cd ad po so qu rq rb mw hs cc cr wi cl].
  unfold flushed, cooled; cbn in *. destruct (Py.slice_to q max_messages); cbn;
    rewrite ?dom_insert_lookup_L by assumption; now split.
Qed.

Lemma runs_flush_single_queue `{DefaultNow} name no_cooldown max_messages now c :
  runs grows (Connection.flush_single_queue name no_cooldown max_messages now) c.
Proof.
  intros o c' Hrun.
  assert (Hsome : exists n, Connection.flush_single_queue name no_cooldown max_messages now c
                 = Connection.flush_single_queue name no_cooldown max_messages (Some n) c).
  { destruct now; eauto. }
  destruct Hsome as [n Hn]. rewrite Hn, flush_single_queue_run in Hrun. clear Hn.
  destruct (Connection.hold_send c); [injection Hrun as <- <-; apply grows_refl|].
  destruct (Connection.message_wait c !! name) as [wait|];
    [|injection Hrun as <- <-; apply grows_refl].
  destruct (_ && _); [injection Hrun as <- <-; apply grows_refl|].
  destruct (Connection.queue c !! name) as [q|] eqn:Hq;
    injection Hrun as <- <-; [now apply grows_flushed | apply grows_refl].
Qed.

Lemma runs_modify {S} (R : S -> S -> Prop) (f : S -> S) c :
  R c (f c) -> runs R (Py.modify f) c.
Proof. intros H o c' [= <- <-]. exact H. Qed.

Ltac grows_bind := apply (runs_bind grows grows_trans).

Lemma grows_insert_present c name l :
  is_Some (Connection.queue c !! name) ->
  grows c (Connection.set_queue (<[name := l]> (Connection.queue c)) c).
Proof.
  intros Hn Hc. unfold keys_agree in *.
  destruct c as [cd ad po so qu rq rb mw hs cc cr wi cl]; cbn in *.
  rewrite dom_insert_lookup_L by assumption. now split.
Qed.

Lemma grows_insert_both c name l w :
  grows c (Connection.set_message_wait (<[name := w]> (Connection.message_wait c))
             (Connection.set_queue (<[name := l]> (Connection.queue c)) c)).
Proof.
  intros Hc. unfold keys_agree in *.
  destruct c as [cd ad po so qu rq rb mw hs cc cr wi cl]; cbn in *.
  rewrite !dom_insert_L, Hc. split; [reflexivity|].
  apply union_subseteq_r.
Qed.

Lemma runs_force_send `{DefaultNow} message c :
  runs grows (Connection.force_send message) c.
Proof.
  unfold Connection.force_send. grows_bind; [apply runs_queue_at|].
  intros misc c1 Hm. apply queue_at_ok in Hm as [-> Hm]. cbn [to_bytes].
  grows_bind; [apply runs_ret, grows_refl|]. intros b c1 [= <- <-].
  grows_bind; [apply runs_modify, grows_insert_present; eauto|].
  intros _ c1 _. grows_bind; [apply runs_flush_single_queue|].
  intros _ c2 _. apply runs_ret, grows_refl.
Qed.

Lemma runs_join `{DefaultNow} channel c : runs grows (Connection.join channel) c.
Proof.
  unfold Connection.join. grows_bind; [apply runs_force_send|].
  intros _ c1 _ o c' [= <- <-].
  eapply grows_trans; [apply (grows_insert_both c1 channel [] (Connection.clock c1))|].
  apply grows_frame; now destruct c1.
Qed.

Lemma runs_part `{DefaultNow} channel c : runs grows (Connection.part channel) c.
Proof.
  unfold Connection.part. grows_bind; [apply runs_force_send|].
  intros _ c1 _. apply runs_modify, grows_frame; now destruct c1.
Qed.

Lemma runs_disconnect c : runs grows Connection.disconnect c.
Proof.
  intros o c'. unfold Connection.disconnect, Py.bind, Py.gets.
  destruct (Connection.socket c); intros [= <- <-];
    [apply grows_frame; now destruct c | apply grows_refl].
Qed.

Lemma runs_connect `{DefaultNow} username password c :
  runs grows (Connection.connect username password) c.
Proof.
  unfold Connection.connect, Connection._login, Connection._connect.
  grows_bind; [apply runs_modify, grows_frame; now destruct c|].
  intros _ c1 _. grows_bind.
  - destruct password; [apply runs_force_send | apply runs_ret, grows_refl].
  - intros _ c2 _. apply runs_force_send.
Qed.

Lemma runs_to_bytes obj c : runs grows (to_bytes obj) c.
Proof.
  intros o c'. unfold to_bytes. destruct obj as [s|m]; [intros [= <- <-]; apply grows_refl|].
  destruct (message_bytes m); intros [= <- <-]; apply grows_refl.
Qed.

Lemma to_bytes_ok obj c b c1 : @to_bytes Connection.t obj c = (Py.Ok b, c1) -> c1 = c.
Proof.
  unfold to_bytes. destruct obj as [s|m]; [now intros [= <- <-]|].
  destruct (message_bytes m); now intros [= <- <-].
Qed.

Lemma runs_send message queue c : runs grows (Connection.send message queue) c.
Proof.
  unfold Connection.send.
  set (route := match message with Msg (Channel _) => _ | _ => _ end).
  destruct route as [name|]; [|apply runs_ret, grows_refl].
  grows_bind; [apply runs_gets, grows_refl|]. intros s c1 [= <- <-].
  grows_bind; [apply runs_gets, grows_refl|]. intros hold c1 [= <- <-].
  destruct (_ || _); [|apply runs_ret, grows_refl].
  grows_bind; [apply runs_gets, grows_refl|]. intros q c1 [= <- <-].
  grows_bind.
  - destruct (Connection.queue c !! name).
    + apply runs_ret, grows_refl.
    + intros o c' [= <- <-]. apply grows_insert_both.
  - intros _ c1 _. grows_bind; [apply runs_queue_at|].
    intros l c2 Hl. apply queue_at_ok in Hl as [-> Hl].
    grows_bind; [apply runs_to_bytes|].
    intros b c2 Hb. apply to_bytes_ok in Hb as ->.
    apply runs_modify, grows_insert_present. eauto.
Qed.

Lemma runs_flush_queue `{DefaultNow} max_messages c :
  runs grows (Connection.flush_queue max_messages) c.
Proof.
  unfold Connection.flush_queue.
  grows_bind; [apply runs_gets, grows_refl|]. intros hold c1 [= <- <-].
  destruct (Connection.hold_send c); [apply runs_ret, grows_refl|].
  grows_bind; [apply runs_gets, grows_refl|]. intros now c1 [= <- <-].
  grows_bind; [apply runs_gets, grows_refl|]. intros q c1 [= <- <-].
  apply (runs_for_fold grows grows_refl grows_trans).
  intros acc name c1 _. grows_bind; [apply runs_flush_single_queue|].
  intros n c2 _. apply runs_ret, grows_refl.
Qed.

Lemma runs_receive data c : runs grows (Connection.receive data) c.
Proof.
  unfold Connection.receive.
  grows_bind; [apply runs_gets, grows_refl|]. intros s c1 [= <- <-].
  destruct (Connection.socket c); [|apply runs_raise, grows_refl].
  grows_bind.
  - destruct (String.eqb _ ""); [|apply runs_ret, grows_refl].
    grows_bind; [apply runs_disconnect|]. intros _ c1 _. apply runs_raise, grows_refl.
  - intros _ c1 _. apply runs_modify, grows_frame; now destruct c1.
Qed.

Lemma pruned_refl c : pruned c c.
Proof. repeat split; auto. Qed.

Lemma pruned_trans a b c : pruned a b -> pruned b c -> pruned a c.
Proof.
  intros (Hk1 & Hq1 & Hr1) (Hk2 & Hq2 & Hr2). repeat split; auto.
  intros k. destruct (Hq2 k) as [E2|(N2 & I2 & E2)], (Hq1 k) as [E1|(N1 & I1 & E1)].
  - left. congruence.
  - right. repeat split; auto; congruence.
  - right. repeat split; auto; congruence.
  - congruence.
Qed.

Lemma pruned_prunes c c' : pruned c c' -> prunes c c'.
Proof.
  intros (Hk & Hq & _) Hc. split; [auto|].
  intros k Hin Hout. apply elem_of_dom in Hin as [l Hl].
  apply not_elem_of_dom in Hout.
  destruct (Hq k) as [E|(_ & I & E)]; [congruence|auto].
Qed.

Lemma list_remove_some (i : string) (l l' : list string) :
  Py.list_remove String.eqb i l = Some l' ->
  In i l /\ forall k, In k l' -> In k l.
Proof.
  revert l'. induction l as [|y l IH]; intros l'; cbn; [discriminate|].
  destruct (String.eqb i y) eqn:E.
  - apply String.eqb_eq in E as ->. intros [= <-]. auto.
  - destruct (Py.list_remove String.eqb i l) as [r|]; [|discriminate].
    intros [= <-]. destruct (IH r eq_refl) as [Hi Hsub]. split; [auto|].
    intros k [->|Hk]; [now left | right; auto].
Qed.

Lemma pruned_drop c i l' :
  Connection.queue c !! i = Some [] ->
  In i (Connection.channels_to_remove c) ->
  (forall k, In k l' -> In k (Connection.channels_to_remove c)) ->
  pruned c
    (Connection.set_queue (delete i (Connection.queue c))
       (Connection.set_message_wait (delete i (Connection.message_wait c))
          (Connection.set_channels_to_remove l' c))).
Proof.
  intros Hq Hi Hsub.
  destruct c as [cd ad po so qu rq rb mw hs cc cr wi cl]; cbn in *.
  repeat split; cbn; auto.
  - unfold keys_agree; cbn. intros E. rewrite !dom_delete_L, E. reflexivity.
  - intros k. destruct (decide (k = i)) as [->|Hne].
    + right. rewrite lookup_delete_eq. auto.
    + left. now rewrite lookup_delete_ne.
Qed.

(** [_remove_parted_channels] only removes marked, empty queues, and from
    both maps, also when it raises half-way. *)
Lemma runs_remove_parted_channels c :
  runs pruned Connection._remove_parted_channels c.
Proof.
  unfold Connection._remove_parted_channels.
  apply (runs_bind pruned pruned_trans); [apply runs_gets, pruned_refl|].
  intros pending c1 [= <- <-].
  apply (runs_for_each pruned pruned_refl pruned_trans).
  intros i c1 _ o c'. clear c. rename c1 into c.
  unfold Py.bind at 1.
  destruct (Connection.queue_at i c) as [[q|e] c1] eqn:Hq.
  2:{ intros [= <- <-]. revert Hq. unfold Connection.queue_at, Py.bind, Py.gets.
      destruct (_ !! i); intros [= <- <-]. apply pruned_refl. }
  apply queue_at_ok in Hq as [-> Hq].
  destruct q as [|x q]; [|intros [= <- <-]; apply pruned_refl].
  unfold Py.bind at 1. unfold Py.bind at 1. cbn [Py.gets].
  destruct (Py.list_remove String.eqb i (Connection.channels_to_remove c))
    as [l'|] eqn:Hl; [|intros [= <- <-]; apply pruned_refl].
  apply list_remove_some in Hl as [Hi Hsub].
  cbn [Py.modify].
  unfold Py.bind at 1. unfold Connection.message_wait_at at 1.
  unfold Py.bind at 1. cbn [Py.gets].
  destruct c as [cd ad po so qu rq rb mw hs cc cr wi cl]; cbn in *.
  destruct (mw !! i) as [w|] eqn:Hw; cbn.
  - unfold Py.bind, Connection.queue_at, Py.gets; cbn. rewrite Hq. cbn.
    intros [= <- <-].
    apply (pruned_drop
             {| Connection.message_cooldown := cd; Connection.address := ad;
                Connection.port := po; Connection.socket := so;
                Connection.queue := qu; Connection.receive_queue := rq;
                Connection.receive_buffer := rb; Connection.message_wait := mw;
                Connection.hold_send := hs; Connection.channels_connected := cc;
                Connection.channels_to_remove := cr; Connection.wire := wi;
                Connection.clock := cl |} i l'); assumption.
  - intros [= <- <-]. repeat split; cbn; auto.
Qed.

Lemma stateless_ret {S A} (a : A) : stateless (@Py.ret S A a).
Proof. now intros c o c' [= <- <-]. Qed.

Lemma stateless_raise {S A} e : stateless (@Py.raise S A e).
Proof. now intros c o c' [= <- <-]. Qed.

Lemma stateless_bind {S A B} (m : Py.M S A) (f : A -> Py.M S B) :
  stateless m -> (forall a, stateless (f a)) -> stateless (Py.bind m f).
Proof.
  intros Hm Hf c o c'. unfold Py.bind.
  destruct (m c) as [[a|e] c1] eqn:E.
  - intros Hfa. apply Hf in Hfa. apply Hm in E. congruence.
  - intros [= <- <-]. now apply Hm in E.
Qed.

Lemma stateless_index {S A} (l : list A) i : stateless (@Py.index S A l i).
Proof. unfold Py.index. destruct (nth_error l i); [apply stateless_ret | apply stateless_raise]. Qed.

Lemma stateless_for_fold {S A B} (l : list A) (body : B -> A -> Py.M S B) :
  (forall acc x, stateless (body acc x)) -> forall acc, stateless (Py.for_fold l body acc).
Proof.
  intros Hb. induction l as [|x l IH]; intros acc; cbn [Py.for_fold].
  - apply stateless_ret.
  - apply stateless_bind; auto.
Qed.

Lemma stateless_group {S} m k : stateless (@group S m k).
Proof. apply stateless_index. Qed.

Lemma stateless_process_twitch_flags {S} flags :
  stateless (@process_twitch_flags S flags).
Proof.
  unfold process_twitch_flags. apply stateless_for_fold. intros acc x.
  apply stateless_bind; [apply stateless_index|]. intros val.
  apply stateless_bind; [apply stateless_index|]. intros key. apply stateless_ret.
Qed.

Ltac stateless_steps :=
  repeat first
    [ apply stateless_ret
    | apply stateless_raise
    | apply stateless_group
    | apply stateless_index
    | apply stateless_process_twitch_flags
    | apply stateless_bind; [|intros ?] ].

(** Classifying a line reads and writes no state. *)
Lemma stateless_auto_message `{Regex} {S} message : stateless (@auto_message _ S message).
Proof.
  unfold auto_message, MESSAGE_PATTERN_DICT.
  cbn [first_match].
  repeat (destruct (re_match _ message) as [?m|];
          [ first [ unfold ChannelMessage.from_match | unfold PingMessage.from_match
                  | unfold NoticeMessage.from_match | unfold GlobalNoticeMessage.from_match
                  | unfold JoinMessage.from_match | unfold PartMessage.from_match
                  | unfold WhisperMessage.from_match ];
            stateless_steps;
            try (match goal with |- stateless (match ?x with _ => _ end) => destruct x end;
                 stateless_steps) | ]).
  apply stateless_ret.
Qed.

Lemma frame_refl c : frame c c.
Proof. now repeat split. Qed.

Lemma frame_trans a b c : frame a b -> frame b c -> frame a c.
Proof. intros (?&?&?) (?&?&?). repeat split; congruence. Qed.

Lemma pruned_frame c c' : frame c c' -> pruned c c'.
Proof.
  intros (Hq & Hw & Hr). repeat split.
  - unfold keys_agree. now rewrite Hq, Hw.
  - intros k. left. now rewrite Hq.
  - intros k. now rewrite Hr.
Qed.

Lemma runs_stateless {S A} (R : S -> S -> Prop) (m : Py.M S A) c :
  (forall c, R c c) -> stateless m -> runs R m c.
Proof. intros Hr Hm o c' E. apply Hm in E as ->. apply Hr. Qed.

Lemma runs_process_loop `{Regex} n mode : forall r a c,
  runs frame (Connection.process_loop n mode r a) c.
Proof.
  induction n as [|n IH]; intros r a c; cbn [Connection.process_loop].
  - apply runs_ret, frame_refl.
  - apply (runs_bind frame frame_trans); [apply runs_gets, frame_refl|].
    intros buffer c1 [= <- <-].
    destruct (negb _); [apply runs_ret, frame_refl|].
    apply (runs_bind frame frame_trans);
      [apply runs_stateless; [apply frame_refl | apply stateless_index]|].
    intros message c1 _.
    apply (runs_bind frame frame_trans);
      [apply runs_modify; now destruct c1|].
    intros _ c2 _.
    destruct (String.eqb message ""); [apply IH|].
    apply (runs_bind frame frame_trans);
      [apply runs_stateless; [apply frame_refl | apply stateless_auto_message]|].
    intros m c3 _. destruct (if Connection.is_channel_message m then _ else _); apply IH.
Qed.

Lemma runs_process_messages `{Regex} max_messages mode c :
  runs pruned (Connection.process_messages max_messages mode) c.
Proof.
  unfold Connection.process_messages.
  apply (runs_bind pruned pruned_trans); [apply runs_remove_parted_channels|].
  intros _ c1 _.
  apply (runs_bind pruned pruned_trans).
  { intros o c' E. apply pruned_frame. revert E. apply runs_process_loop. }
  intros r c2 _.
  apply (runs_bind pruned pruned_trans).
  { apply runs_modify, pruned_frame. now destruct c2. }
  intros _ c3 _. apply runs_ret, pruned_refl.
Qed.

(** Every operation other than [process_messages] keeps the key sets
    equal and removes no queue. *)
Lemma perform_grows `{DefaultNow} `{Regex} op c :
  is_process_messages op = false -> runs grows (perform op) c.
Proof.
  destruct op; cbn [perform is_process_messages]; intros Hop; try discriminate Hop.
  - apply runs_connect.
  - apply runs_force_send.
  - apply runs_join.
  - apply runs_part.
  - apply runs_send.
  - apply runs_force_send.
  - apply (runs_bind grows grows_trans); [apply runs_flush_single_queue|].
    intros _ c1 _. apply runs_ret, grows_refl.
  - apply (runs_bind grows grows_trans); [apply runs_flush_queue|].
    intros _ c1 _. apply runs_ret, grows_refl.
  - apply runs_receive.
  - apply runs_disconnect.
  - apply runs_modify, grows_frame; now destruct c.
  - apply runs_modify, grows_frame; now destruct c.
Qed.

Lemma perform_prunes `{DefaultNow} `{Regex} op c o c' :
  perform op c = (o, c') -> prunes c c'.
Proof.
  destruct (is_process_messages op) eqn:Hop.
  - destruct op; try discriminate Hop. cbn [perform]. intros E.
    apply pruned_prunes. revert E.
    apply (runs_bind pruned pruned_trans); [apply runs_process_messages|].
    intros _ c1 _. apply runs_ret, pruned_refl.
  - intros E. apply grows_prunes. revert E. now apply perform_grows.
Qed.

Lemma init_keys_agree address port message_cooldown now :
  keys_agree (Connection.__init__ address port message_cooldown now).
Proof. unfold keys_agree; cbn. now rewrite !dom_singleton_L. Qed.

Lemma reachable_keys_agree `{DefaultNow} `{Regex} c : reachable c -> keys_agree c.
Proof.
  induction 1 as [|c op o c' _ IH Hstep].
  - apply init_keys_agree.
  - now apply (perform_prunes op c o c' Hstep).
Qed.

(** C9.  In every state a connection reaches, the queue map and the
    cooldown map have the same keys.  Every further operation keeps it so,
    whether it returns or raises, and the only queues an operation removes
    are removed by [process_messages], were marked for departure and were
    empty. *)
Theorem queue_and_cooldown_keys_agree `{DefaultNow} `{Regex} (c : Connection.t) :
  reachable c ->
  dom (Connection.queue c) = dom (Connection.message_wait c) /\
  forall op o c',
    perform op c = (o, c') ->
    dom (Connection.queue c') = dom (Connection.message_wait c') /\
    forall k,
      k ∈ dom (Connection.queue c) -> k ∉ dom (Connection.queue c') ->
      is_process_messages op = true /\
      In k (Connection.channels_to_remove c) /\
      Connection.queue c !! k = Some [].
Proof.
  intros Hc. pose proof (reachable_keys_agree c Hc) as Hk. split; [exact Hk|].
  intros op o c' Hstep.
  destruct (perform_prunes op c o c' Hstep Hk) as [Hk' Hrm]. split; [exact Hk'|].
  intros k Hin Hout. destruct (Hrm k Hin Hout) as [Hmark Hempty].
  repeat split; auto.
  destruct (is_process_messages op) eqn:Hop; [reflexivity|].
  destruct (perform_grows op c Hop o c' Hstep Hk) as [_ Hsub].
  exfalso. apply Hout, Hsub, Hin.
Qed.

Lemma queue_and_cooldown_keys_agree_witness :
  dom (Connection.queue (snd (@Connection.join loaded_at_zero "foo" fresh)))
  = dom (Connection.message_wait (snd (@Connection.join loaded_at_zero "foo" fresh))).
Proof.
  apply (@queue_and_cooldown_keys_agree loaded_at_zero no_tagged_lines).
  apply (@reachable_step loaded_at_zero no_tagged_lines fresh (CallJoin "foo")
           (fst (@Connection.join loaded_at_zero "foo" fresh))).
  - apply reachable_init.
  - cbn [perform]. now destruct (Connection.join "foo" fresh).
Defined.

Lemma slice_to_nonneg {A} (l : list A) (k : Z) :
  0 <= k -> Py.slice_to l k = firstn (Z.to_nat k) l.
Proof. intros Hk. unfold Py.slice_to. now rewrite (proj2 (Z.leb_le 0 k) Hk). Qed.

Lemma slice_from_nonneg {A} (l : list A) (k : Z) :
  0 <= k -> Py.slice_from l k = skipn (Z.to_nat k) l.
Proof. intros Hk. unfold Py.slice_from. now rewrite (proj2 (Z.leb_le 0 k) Hk). Qed.

(** The two slices of [flush_single_queue] always split the queue. *)
Lemma slices_partition {A} (l : list A) (k : Z) :
  (Py.slice_to l k ++ Py.slice_from l k)%list = l.
Proof.
  unfold Py.slice_to, Py.slice_from. destruct (0 <=? k); apply firstn_skipn.
Qed.

(** C2 (as amended).  For a queue name present in both maps and
    [max_messages >= 0]: [flush_single_queue(queue, no_cooldown,
    max_messages, now)] returns 0 and leaves the connection as it is when
    [hold_send] is set, or when [no_cooldown] is false and [now] is before
    the queue's earliest-send timestamp.  Otherwise it hands the first
    [max_messages] payloads of the queue to [_send], in order (they reach
    the socket when there is one and are dropped when there is none),
    removes exactly these payloads from the queue, sets the queue's
    cooldown timestamp to [now + message_cooldown] if at least one payload
    was handed over and leaves it as it was if none was, and returns the
    number of payloads handed over. *)
Theorem flush_single_queue_spec `{DefaultNow} (c : Connection.t) (name : string)
        (no_cooldown : bool) (max_messages now : Z) (q : list string) (wait : Z) :
  Connection.queue c !! name = Some q ->
  Connection.message_wait c !! name = Some wait ->
  0 <= max_messages ->
  let batch := firstn (Z.to_nat max_messages) q in
  let rest := skipn (Z.to_nat max_messages) q in
  (batch ++ rest)%list = q /\
  Z.of_nat (length batch) <= max_messages /\
  Connection.flush_single_queue name no_cooldown max_messages (Some now) c
  = if Connection.hold_send c || ((wait >? now) && negb no_cooldown)
    then (Py.Ok 0, c)
    else (Py.Ok (Z.of_nat (length batch)),
          Connection.set_queue (<[name := rest]> (Connection.queue c))
            (Connection.set_message_wait (cooled c name now batch)
               (Connection.set_wire (transmitted c batch) c))).
Proof.
  intros Hq Hw Hmax batch rest. split; [apply firstn_skipn|]. split.
  - subst batch. rewrite length_firstn. lia.
  - rewrite flush_single_queue_run, Hw, Hq.
    unfold flushed. rewrite slice_to_nonneg, slice_from_nonneg by assumption.
    destruct (Connection.hold_send c); [reflexivity|].
    cbn [orb]. destruct (_ && _); reflexivity.
Qed.

Lemma flush_single_queue_spec_witness :
  @Connection.flush_single_queue loaded_at_zero "misc" false 1 (Some 10)
    (Connection.set_queue {[ "misc" := ["a"; "b"] ]}
       (Connection.set_socket (Some (TcpSocket "irc.chat.twitch.tv" 6667)) fresh))
  = (Py.Ok 1,
     Connection.set_queue {[ "misc" := ["b"] ]}
       (Connection.set_message_wait {[ "misc" := 13 ]}
          (Connection.set_wire ["a"]
             (Connection.set_socket (Some (TcpSocket "irc.chat.twitch.tv" 6667)) fresh)))).
Proof.
  pose proof (@flush_single_queue_spec loaded_at_zero
                (Connection.set_queue {[ "misc" := ["a"; "b"] ]}
                   (Connection.set_socket (Some (TcpSocket "irc.chat.twitch.tv" 6667)) fresh))
                "misc" false 1 10 ["a"; "b"] 0 eq_refl eq_refl ltac:(lia)) as (_ & _ & E).
  rewrite E. vm_compute. reflexivity.
Defined.

(** C2 fails as stated: a call that is not held back and finds the queue
    empty does not move the cooldown timestamp. *)
Lemma flush_of_empty_queue_keeps_cooldown :
  ~ (forall (D : DefaultNow) (c : Connection.t) (name : string) (no_cooldown : bool)
            (max_messages now : Z) (q : list string) (wait : Z) o c',
        Connection.queue c !! name = Some q ->
        Connection.message_wait c !! name = Some wait ->
        Connection.hold_send c || ((wait >? now) && negb no_cooldown) = false ->
        Connection.flush_single_queue name no_cooldown max_messages (Some now) c = (o, c') ->
        Connection.message_wait c' !! name = Some (now + Connection.message_cooldown c)).
Proof.
  intros H.
  specialize (H loaded_at_zero fresh "misc" false 1 10 [] 0 (Py.Ok 0) fresh
                eq_refl eq_refl eq_refl eq_refl).
  vm_compute in H. discriminate H.
Qed.

(** C7.  A call of [flush_single_queue] that leaves [now] out is the call
    with the timestamp taken when the function was defined: it is that
    timestamp the queue's earliest-send timestamp is compared with and the
    cooldown is counted from, and the time the clock shows when the call
    is made has no part in the outcome. *)
Theorem omitted_now_is_definition_time `{DefaultNow} (c : Connection.t)
        (name : string) (no_cooldown : bool) (max_messages : Z) :
  (Connection.flush_single_queue name no_cooldown max_messages None c
   = Connection.flush_single_queue name no_cooldown max_messages
       (Some definition_time) c)
  /\
  (Connection.flush_single_queue name no_cooldown max_messages None c
   = if Connection.hold_send c then (Py.Ok 0, c) else
     match Connection.message_wait c !! name with
     | None => (Py.Raise (Py.KeyError name), c)
     | Some wait =>
         if (wait >? definition_time) && negb no_cooldown then (Py.Ok 0, c) else
         match Connection.queue c !! name with
         | None => (Py.Raise (Py.KeyError name), c)
         | Some q => (Py.Ok (Z.of_nat (length (Py.slice_to q max_messages))),
                      flushed c name definition_time max_messages q)
         end
     end)
  /\
  (forall t : Z,
     Connection.flush_single_queue name no_cooldown max_messages None
       (Connection.set_clock t c)
     = (fst (Connection.flush_single_queue name no_cooldown max_messages None c),
        Connection.set_clock t
          (snd (Connection.flush_single_queue name no_cooldown max_messages None c)))).
Proof.
  split; [reflexivity|].
  change (Connection.flush_single_queue name no_cooldown max_messages None)
    with (Connection.flush_single_queue name no_cooldown max_messages (Some definition_time)).
  split; [apply flush_single_queue_run|]. intros t.
  rewrite !flush_single_queue_run.
  destruct c as [cd ad po so qu rq rb mw hs cc cr wi cl]; cbn.
  destruct hs; [reflexivity|].
  destruct (mw !! name) as [wait|]; [|reflexivity].
  destruct (_ && _); [reflexivity|].
  destruct (qu !! name) as [q|]; reflexivity.
Qed.

(** What C7 means for a caller: a queue created after the module was
    loaded is never flushed by a call that leaves [now] out, however much
    time has passed. *)
Lemma stale_default_blocks_queue `{DefaultNow} (c : Connection.t) (name : string)
      (max_messages : Z) (wait : Z) :
  Connection.message_wait c !! name = Some wait ->
  definition_time < wait ->
  Connection.flush_single_queue name false max_messages None c
  = (Py.Ok 0, c).
Proof.
  intros Hw Hlt.
  change (Connection.flush_single_queue name false max_messages None)
    with (Connection.flush_single_queue name false max_messages (Some definition_time)).
  rewrite flush_single_queue_run, Hw.
  destruct (Connection.hold_send c); [reflexivity|].
  now rewrite (proj2 (Z.gtb_gt wait definition_time)) by lia.
Qed.

(** C5, at the input on which the code departs from it.  After two
    [part] calls on a channel with a pending payload, both calls return;
    once the queue has drained, [process_messages] removes the channel
    from both maps and then raises [KeyError] on the second mark, which
    stays in [channels_to_remove]: the next [process_messages] raises
    again. *)
Theorem part_twice_raises_key_error :
  exists c',
    part_twice fresh = (Py.Raise (Py.KeyError "foo"), c') /\
    Connection.queue c' !! "foo" = None /\
    Connection.message_wait c' !! "foo" = None /\
    Connection.channels_to_remove c' = ["foo"] /\
    fst (@Connection.process_messages no_tagged_lines 100 2 c')
    = Py.Raise (Py.KeyError "foo").
Proof.
  eexists. split; [vm_compute; reflexivity|].
  repeat split; vm_compute; reflexivity.
Qed.

Lemma part_once_removes_after_drain :
  exists c',
    part_once fresh = (Py.Ok [], c') /\
    Connection.queue c' !! "foo" = None /\
    Connection.message_wait c' !! "foo" = None /\
    Connection.channels_to_remove c' = [].
Proof.
  eexists. split; [vm_compute; reflexivity|].
  repeat split; vm_compute; reflexivity.
Qed.

(* ===================================================================== *)
(** ** Permissions and command dispatch *)
(* ===================================================================== *)

Lemma has_In perms p : Bot.has perms p = true <-> In p perms.
Proof.
  unfold Bot.has, Py.list_in. rewrite existsb_exists. split.
  - intros (x & Hx & E). apply String.eqb_eq in E. now subst.
  - intros H. exists p. split; [assumption|apply String.eqb_refl].
Qed.

Lemma lacking_In perms required p :
  In p (Bot.lacking perms required) <-> In p required /\ ~ In p perms.
Proof.
  unfold Bot.lacking. rewrite filter_In, negb_true_iff.
  rewrite <- (has_In perms p). destruct (Bot.has perms p); intuition congruence.
Qed.

Lemma lacking_nil perms required :
  Bot.lacking perms required = [] -> forall p, In p required -> In p perms.
Proof.
  intros E p Hp. destruct (Bot.has perms p) eqn:Hh; [now apply has_In|].
  assert (Hin : In p (Bot.lacking perms required)).
  { apply lacking_In. split; [assumption|]. rewrite <- has_In. congruence. }
  rewrite E in Hin. contradiction.
Qed.

Lemma record_run (x : Call) (b : Bot.t) :
  Bot.record x b = (Py.Ok tt, Bot.set_calls (Bot.calls b ++ [x])%list b).
Proof. reflexivity. Qed.

Lemma set_calls_same b : Bot.set_calls (Bot.calls b) b = b.
Proof. now destruct b. Qed.

(** Every registered handler of the event is called, in order. *)
Lemma call_handlers_run event args hs b :
  Bot.handlers b !! event = Some hs ->
  Bot.call_handlers event args b
  = (Py.Ok tt,
     Bot.set_calls (Bot.calls b ++ map (fun h => HandlerCall h event args) hs)%list b).
Proof.
  intros Hh. unfold Bot.call_handlers, Py.bind, Py.gets. rewrite Hh. clear Hh.
  revert b. induction hs as [|h hs IH]; intros b; cbn [Py.for_each map].
  - unfold Py.ret. now rewrite app_nil_r, set_calls_same.
  - unfold Py.bind. rewrite record_run, IH.
    destruct b; cbn. now rewrite <- app_assoc.
Qed.

(** [check_permissions_from_command] in closed form. *)
Lemma check_permissions_from_command_run `{PermissionList} message command hs b :
  Bot.handlers b !! "permission_error" = Some hs ->
  Bot.check_permissions_from_command message command b
  = let missing := missing_for (Bot.permissions b) message command in
    (Py.Ok missing,
     match missing with
     | [] => b
     | _ :: _ => Bot.set_calls
                   (Bot.calls b ++ permission_error_calls hs message (Some command) missing)%list b
     end).
Proof.
  intros Hh. unfold Bot.check_permissions_from_command, missing_for.
  unfold Py.bind at 1. cbn [Py.gets].
  assert (Hfin : forall missing,
    (match missing with
     | [] => Py.ret tt
     | _ :: _ => Bot.call_handlers "permission_error"
                   (PermissionErrorArgs message (Some command) missing)
     end ;;; Py.ret missing) b
    = (Py.Ok missing,
       match missing with
       | [] => b
       | _ :: _ => Bot.set_calls
                     (Bot.calls b ++ permission_error_calls hs message (Some command) missing)%list b
       end)).
  { intros [|p l]; [reflexivity|]. unfold Py.bind.
    now rewrite (call_handlers_run _ _ hs b Hh). }
  destruct (Bot.permissions b !! ChannelMessage.user message); [|apply Hfin].
  destruct (_ || _); [reflexivity|apply Hfin].
Qed.

(** [Command.__call__] in closed form. *)
Lemma command_call_run `{PermissionList} self message hs b :
  Bot.handlers b !! "permission_error" = Some hs ->
  Bot.Command__call__ self message b
  = (Py.Ok tt,
     Bot.set_calls (Bot.calls b ++ invocation (Bot.permissions b) hs self message)%list b).
Proof.
  intros Hh. unfold Bot.Command__call__, invocation.
  destruct (Command.permissions_required self) as [|r rs] eqn:Hreq; [apply record_run|].
  unfold Py.bind. rewrite (check_permissions_from_command_run message self hs b Hh).
  cbv zeta. destruct (missing_for _ message self); [apply record_run|reflexivity].
Qed.

(** C1.  For a command with a non-empty list of required permissions,
    the check returns the list of missing permissions without raising.
    The list is empty only if the user holds, in the resolved permission
    set, every required permission, or the global bypass permission, or,
    when the command has [enable_local_bypass], the bypass permission of
    the message's channel; it is not empty when none of these holds.  The
    command calls its function exactly when the list is empty; otherwise
    the function is not called and every [permission_error] handler is
    called with the message, the command and the list. *)
Theorem command_runs_only_with_permission `{PermissionList} (b : Bot.t)
        (message : ChannelMessage.t) (command : Command.t) (hs : list Callable) :
  Command.permissions_required command <> [] ->
  Bot.handlers b !! "permission_error" = Some hs ->
  let perms := get_permission_state (Bot.permissions b) message in
  exists missing,
    Bot.check_permissions_from_command message command b
    = (Py.Ok missing,
       match missing with
       | [] => b
       | _ :: _ =>
           Bot.set_calls
             (Bot.calls b ++ permission_error_calls hs message (Some command) missing)%list b
       end) /\
    (missing = [] -> granted (Bot.permissions b) message command) /\
    (~ granted (Bot.permissions b) message command -> missing <> []) /\
    (forall p, In p missing -> In p (Command.permissions_required command)) /\
    (is_Some (Bot.permissions b !! ChannelMessage.user message) ->
     missing <> [] ->
     forall p, In p missing <->
               In p (Command.permissions_required command) /\ ~ In p perms) /\
    Bot.Command__call__ command message b
    = (Py.Ok tt,
       Bot.set_calls
         (Bot.calls b ++
          match missing with
          | [] => [FunctionCall (Command.function command) message]
          | _ :: _ => permission_error_calls hs message (Some command) missing
          end)%list b).
Proof.
  intros Hreq Hh perms.
  exists (missing_for (Bot.permissions b) message command).
  rewrite (check_permissions_from_command_run message command hs b Hh).
  split; [reflexivity|].
  assert (Hnil : missing_for (Bot.permissions b) message command = [] ->
                 granted (Bot.permissions b) message command).
  { unfold missing_for, granted. fold perms.
    destruct (Bot.permissions b !! ChannelMessage.user message); [|contradiction].
    destruct (Bot.has perms GLOBAL_BYPASS_PERMISSION) eqn:Hg.
    { intros _. right; left. now apply has_In. }
    destruct (Command.enable_local_bypass command) eqn:Hl; cbn [orb andb].
    - destruct (Bot.has perms (LOCAL_BYPASS_PERMISSION_TEMPLATE
                                  (ChannelMessage.channel message))) eqn:Hlb.
      + intros _. right; right. split; [reflexivity|now apply has_In].
      + intros E. left. now apply lacking_nil.
    - intros E. left. now apply lacking_nil. }
  split; [exact Hnil|]. split; [intros Hng E; apply Hng, Hnil, E|]. split.
  { intros p. unfold missing_for. fold perms.
    destruct (Bot.permissions b !! ChannelMessage.user message); [|auto].
    destruct (_ || _); [contradiction|]. rewrite lacking_In. tauto. }
  split.
  { intros [l Hl]. unfold missing_for. fold perms. rewrite Hl.
    destruct (_ || _); [contradiction|]. intros _ p. apply lacking_In. }
  rewrite (command_call_run command message hs b Hh). unfold invocation.
  destruct (Command.permissions_required command); [contradiction|].
  destruct (missing_for _ message command); reflexivity.
Qed.

Lemma command_runs_only_with_permission_witness :
  @Bot.Command__call__ stored_permissions quit_command
    (ChannelMessage.__init__ "!quit" "alice" "foo") quit_bot
  = (Py.Ok tt,
     Bot.set_calls
       [HandlerCall "no_permission" "permission_error"
          (PermissionErrorArgs (ChannelMessage.__init__ "!quit" "alice" "foo")
             (Some quit_command) ["twitchirc.quit"])]
       quit_bot).
Proof.
  destruct (@command_runs_only_with_permission stored_permissions quit_bot
              (ChannelMessage.__init__ "!quit" "alice" "foo") quit_command
              ["no_permission"] ltac:(discriminate) eq_refl)
    as (missing & Hcheck & _ & _ & _ & _ & Hcall).
  vm_compute in Hcheck. injection Hcheck as <- _. exact Hcall.
Defined.

Lemma set_calls_app l1 l2 b :
  Bot.set_calls (Bot.calls (Bot.set_calls (Bot.calls b ++ l1) b) ++ l2)
    (Bot.set_calls (Bot.calls b ++ l1) b)
  = Bot.set_calls (Bot.calls b ++ (l1 ++ l2)) b.
Proof. destruct b; cbn. now rewrite <- List.app_assoc. Qed.

Lemma set_calls_nil b : Bot.set_calls (Bot.calls b ++ []) b = b.
Proof. destruct b; cbn. now rewrite app_nil_r. Qed.


Lemma bind_eq {S A B} (m : Py.M S A) (f : A -> Py.M S B) s a s' :
  m s = (Py.Ok a, s') -> Py.bind m f s = f a s'.
Proof. intros E. unfold Py.bind. now rewrite E. Qed.

(** One iteration of the loop of the prefix branch. *)
Lemma prefix_step `{PermissionList} message hs handler b was_handled :
  Bot.handlers b !! "permission_error" = Some hs ->
  (let* was_handled :=
     match Command.matcher_function handler with
     | Some matcher =>
         if matcher message
         then Bot.Command__call__ handler message ;;; Py.ret true
         else Py.ret was_handled
     | None => Py.ret was_handled
     end in
   let* prefix := Py.gets Bot.prefix in
   if Py.startswith (ChannelMessage.text message)
                    (prefix ++ Command.ef_command handler)
   then Bot.Command__call__ handler message ;;; Py.ret true
   else Py.ret was_handled) b
  = (Py.Ok (was_handled || handles (Bot.prefix b) message handler),
     Bot.set_calls
       (Bot.calls b ++ tried_with_prefix (Bot.permissions b) hs (Bot.prefix b)
                         message handler) b).
Proof.
  intros Hh. unfold tried_with_prefix, handles.
  set (b1 := Bot.set_calls (Bot.calls b ++ invocation (Bot.permissions b) hs handler message) b).
  assert (Hh1 : Bot.handlers b1 !! "permission_error" = Some hs) by (now destruct b).
  assert (E1 : Bot.Command__call__ handler message b = (Py.Ok tt, b1))
    by apply (command_call_run handler message hs b Hh).
  assert (E2 : Bot.Command__call__ handler message b1
               = (Py.Ok tt,
                  Bot.set_calls
                    (Bot.calls b ++ (invocation (Bot.permissions b) hs handler message
                                     ++ invocation (Bot.permissions b) hs handler message)) b)).
  { rewrite (command_call_run handler message hs b1 Hh1). subst b1.
    rewrite <- set_calls_app. now destruct b. }
  assert (Hp1 : Bot.prefix b1 = Bot.prefix b) by (now destruct b).
  destruct (Command.matcher_function handler) as [matcher|];
    [destruct (matcher message)|].
  - rewrite (bind_eq _ _ b true b1) by (now rewrite (bind_eq _ _ b tt b1 E1)).
    rewrite (bind_eq _ _ b1 (Bot.prefix b) b1) by (now rewrite <- Hp1).
    destruct (Py.startswith _ (Bot.prefix b ++ Command.ef_command handler)).
    + rewrite (bind_eq _ _ _ _ _ E2). cbn. now rewrite orb_true_r.
    + cbn. now rewrite orb_true_r, app_nil_r.
  - rewrite (bind_eq _ _ b was_handled b) by reflexivity.
    rewrite (bind_eq _ _ b (Bot.prefix b) b) by reflexivity.
    destruct (Py.startswith _ (Bot.prefix b ++ Command.ef_command handler)).
    + rewrite (bind_eq _ _ _ _ _ E1). cbn. now rewrite orb_true_r.
    + cbn. now rewrite orb_false_r, set_calls_nil.
  - rewrite (bind_eq _ _ b was_handled b) by reflexivity.
    rewrite (bind_eq _ _ b (Bot.prefix b) b) by reflexivity.
    destruct (Py.startswith _ (Bot.prefix b ++ Command.ef_command handler)).
    + rewrite (bind_eq _ _ _ _ _ E1). cbn. now rewrite orb_true_r.
    + cbn. now rewrite orb_false_r, set_calls_nil.
Qed.

(** The loop of the prefix branch: what it calls and whether a command
    handled the message. *)
Lemma prefix_loop `{PermissionList} message hs cmds : forall b was_handled,
  Bot.handlers b !! "permission_error" = Some hs ->
  Py.for_fold cmds
    (fun was_handled handler =>
       let* was_handled :=
         match Command.matcher_function handler with
         | Some matcher =>
             if matcher message
             then Bot.Command__call__ handler message ;;; Py.ret true
             else Py.ret was_handled
         | None => Py.ret was_handled
         end in
       let* prefix := Py.gets Bot.prefix in
       if Py.startswith (ChannelMessage.text message)
                        (prefix ++ Command.ef_command handler)
       then Bot.Command__call__ handler message ;;; Py.ret true
       else Py.ret was_handled)
    was_handled b
  = (Py.Ok (was_handled || existsb (handles (Bot.prefix b) message) cmds),
     Bot.set_calls
       (Bot.calls b ++ prefix_pass (Bot.permissions b) hs (Bot.prefix b) cmds message) b).
Proof.
  induction cmds as [|h cmds IH]; intros b wh Hh.
  - cbn. unfold Py.ret. now rewrite set_calls_nil, orb_false_r.
  - cbn [Py.for_fold prefix_pass flat_map existsb].
    fold (prefix_pass (Bot.permissions b) hs (Bot.prefix b) cmds message).
    rewrite (bind_eq _ _ _ _ _ (prefix_step message hs h b wh Hh)).
    rewrite IH by (now destruct b). rewrite set_calls_app.
    destruct b; cbn. now rewrite orb_assoc.
Qed.







Lemma call_command_handlers_handled `{PermissionList} message hs b :
  Bot.handlers b !! "permission_error" = Some hs ->
  Py.startswith (ChannelMessage.text message) (Bot.prefix b) = true ->
  existsb (handles (Bot.prefix b) (Bot.with_trailing_space message)) (Bot.commands b) = true ->
  Bot._call_command_handlers message b
  = (Py.Ok (Bot.with_trailing_space message),
     Bot.set_calls
       (Bot.calls b ++ prefix_pass (Bot.permissions b) hs (Bot.prefix b) (Bot.commands b)
                         (Bot.with_trailing_space message)) b).
Proof.
  intros Hh Hp Hex. unfold Bot._call_command_handlers.
  rewrite (bind_eq _ _ b (Bot.prefix b) b) by reflexivity. rewrite Hp.
  rewrite (bind_eq _ _ b (Bot.commands b) b) by reflexivity.
  rewrite (bind_eq _ _ _ _ _
             (prefix_loop (Bot.with_trailing_space message) hs (Bot.commands b) b false Hh)).
  cbn [orb]. rewrite Hex. reflexivity.
Qed.

(** A text that already has a space is left as it is. *)
Lemma with_trailing_space_id (message : ChannelMessage.t) :
  Py.contains " " (ChannelMessage.text message) = true ->
  Bot.with_trailing_space message = message.
Proof. intros E. unfold Bot.with_trailing_space. now rewrite E. Qed.

(** C10.  When the text starts with the active prefix, a registered
    command whose matcher accepts the message and whose pattern (active
    prefix, then the command's [ef_command]: its name and a space, behind
    its forced prefix if it has one) also matches is called twice for
    that message, between the calls made for the commands registered
    before it and after it; a command without required permissions runs
    its function each time.  The matcher and the pattern see the text
    after a trailing space was added to a text without space. *)
Theorem matcher_and_prefix_invoke_twice `{PermissionList} (b : Bot.t)
        (message : ChannelMessage.t) (hs : list Callable)
        (before after : list Command.t) (handler : Command.t)
        (matcher : ChannelMessage.t -> bool) :
  Bot.handlers b !! "permission_error" = Some hs ->
  Bot.commands b = (before ++ handler :: after)%list ->
  Py.startswith (ChannelMessage.text message) (Bot.prefix b) = true ->
  Command.matcher_function handler = Some matcher ->
  let message' := Bot.with_trailing_space message in
  matcher message' = true ->
  Py.startswith (ChannelMessage.text message') (Bot.prefix b ++ Command.ef_command handler)
  = true ->
  let once := invocation (Bot.permissions b) hs handler message' in
  Bot._call_command_handlers message b
  = (Py.Ok message',
     Bot.set_calls
       (Bot.calls b
        ++ prefix_pass (Bot.permissions b) hs (Bot.prefix b) before message'
        ++ (once ++ once)
        ++ prefix_pass (Bot.permissions b) hs (Bot.prefix b) after message') b)
  /\ (Command.permissions_required handler = [] ->
      once = [FunctionCall (Command.function handler) message']).
Proof.
  intros Hh Hc Hp Hm message' Hacc Hpat once. split.
  - rewrite (call_command_handlers_handled message hs b Hh Hp).
    + rewrite Hc. unfold prefix_pass. rewrite flat_map_app. cbn [flat_map].
      unfold tried_with_prefix at 2. fold message'. rewrite Hm, Hacc, Hpat.
      fold once. now rewrite <- !List.app_assoc.
    + rewrite Hc, existsb_app. cbn [existsb]. unfold handles at 2.
      fold message'. rewrite Hm, Hacc. cbn. now rewrite orb_true_r.
  - intros Hreq. subst once. unfold invocation. now rewrite Hreq.
Qed.

Lemma matcher_and_prefix_invoke_twice_witness :
  @Bot._call_command_handlers stored_permissions
    (ChannelMessage.__init__ "!hi there" "bob" "foo") hi_bot
  = (Py.Ok (ChannelMessage.__init__ "!hi there" "bob" "foo"),
     Bot.set_calls
       [FunctionCall "command_hi" (ChannelMessage.__init__ "!hi there" "bob" "foo");
        FunctionCall "command_hi" (ChannelMessage.__init__ "!hi there" "bob" "foo")]
       hi_bot).
Proof.
  destruct (@matcher_and_prefix_invoke_twice stored_permissions hi_bot
              (ChannelMessage.__init__ "!hi there" "bob" "foo") ["no_permission"]
              [] [] hi_command
              (fun message => Py.startswith (ChannelMessage.text message) "!hi")
              eq_refl eq_refl eq_refl eq_refl eq_refl eq_refl) as [Hrun _].
  exact Hrun.
Defined.

(** [force_send] in closed form: the payload is sent at once, or, while
    [hold_send] is set, left at the front of the [misc] queue. *)
Lemma force_send_run `{DefaultNow} (message : string) (c : Connection.t)
      (misc : list string) (wait : Z) :
  Connection.queue c !! "misc" = Some misc ->
  Connection.message_wait c !! "misc" = Some wait ->
  Connection.force_send message c
  = (Py.Ok tt,
     if Connection.hold_send c
     then Connection.set_queue (<["misc" := message :: misc]> (Connection.queue c)) c
     else Connection.set_message_wait
            (<["misc" := definition_time + Connection.message_cooldown c]>
               (Connection.message_wait c))
            (Connection.set_wire (transmitted c [message]) c)).
Proof.
  intros Hq Hw. unfold Connection.force_send.
  rewrite (bind_eq _ _ c misc c)
    by (unfold Connection.queue_at, Py.bind, Py.gets; now rewrite Hq).
  cbn [to_bytes]. rewrite (bind_eq _ _ c message c) by reflexivity.
  unfold Py.bind at 1. cbn [Py.modify].
  change (Connection.flush_single_queue "misc" true 1 None)
    with (Connection.flush_single_queue "misc" true 1 (Some definition_time)).
  unfold Py.bind at 1. rewrite flush_single_queue_run.
  destruct c as [cd ad po so qu rq rb mw hs cc cr wi cl]; cbn in *.
  destruct hs; [reflexivity|]. rewrite Hw, andb_false_r.
  rewrite lookup_insert_eq. cbn. unfold flushed, cooled, transmitted. cbn.
  rewrite insert_insert_eq, (insert_id qu "misc" misc Hq). reflexivity.
Qed.

(** One step of the loop of [_run_once] on a Ping event with host [h],
    on a bot with a socket and its [misc] queue: the [any_msg] handlers
    are called, and, unless [hold_send] is set, the line [PONG], a space,
    [h] and CRLF is handed to the socket within that step through
    [force_send], whatever the cooldown of the queue, and the queue is
    left as it was.  While [hold_send] is set nothing is sent and the
    line stays at the front of the [misc] queue. *)
Lemma handle_received_ping `{DefaultNow} `{PermissionList} (b : Bot.t)
      (p : PingMessage.t) (hs : list Callable) (misc : list string) (wait : Z) :
  Bot.handlers b !! "any_msg" = Some hs ->
  Connection.socket (Bot.conn b) <> None ->
  Connection.queue (Bot.conn b) !! "misc" = Some misc ->
  Connection.message_wait (Bot.conn b) !! "misc" = Some wait ->
  let line := "PONG " ++ Py.fmt (PingMessage.host p) ++ Py.CRLF in
  exists b',
    Bot.handle_received (Ping p) b = (Py.Ok tt, b') /\
    Bot.calls b'
    = (Bot.calls b ++ map (fun h => HandlerCall h "any_msg" (MessageArg (Ping p))) hs)%list /\
    if Connection.hold_send (Bot.conn b)
    then Connection.wire (Bot.conn b') = Connection.wire (Bot.conn b) /\
         Connection.queue (Bot.conn b') !! "misc" = Some (line :: misc)
    else Connection.wire (Bot.conn b') = (Connection.wire (Bot.conn b) ++ [line])%list /\
         Connection.queue (Bot.conn b') !! "misc" = Some misc.
Proof.
  intros Hh Hsock Hq Hw line. unfold Bot.handle_received.
  rewrite (bind_eq _ _ _ _ _ (call_handlers_run "any_msg" (MessageArg (Ping p)) hs b Hh)).
  fold line. unfold Py.bind at 1. unfold Bot.super at 1, Py.lift.
  cbn [Bot.conn Bot.set_calls].
  rewrite (force_send_run line (Bot.conn b) misc wait Hq Hw).
  destruct (Bot.discard (Ping p) _) as [o b'] eqn:Hd.
  revert Hd. unfold Bot.discard, Bot.super, Py.lift, Py.modify.
  intros [= <- <-]. eexists. split; [reflexivity|].
  unfold transmitted.
  destruct b as [c rc un pw cmds hd pf ou pm cl];
    destruct c as [cd ad po so qu rq rb mw hold cc cr wi ck]; cbn in *.
  destruct so as [so|]; [|contradiction].
  destruct hold; cbn; destruct (Py.list_remove message_eq (Ping p) rq); cbn;
    rewrite ?lookup_insert_eq; auto.
Qed.

(** C8.  The Ping event of the line [PING :tmi.twitch.tv], whose host is
    [tmi.twitch.tv] as [PingMessage.from_text] parses it, in one step of
    the loop of [_run_once] on a connected bot: the line handed to the
    socket is [PONG tmi.twitch.tv], without the colon before the host
    that [PongMessage.__bytes__] writes for the answer
    [PongMessage(host)] that [PingMessage.reply] builds.  A whole tick
    that reads the line sends the same, when the Ping pattern captures
    that host. *)
Theorem ping_answer_lacks_colon :
  exists p b1 b2,
    PingMessage.from_text ("PING :tmi.twitch.tv" ++ Py.CRLF) tt = (Py.Ok p, tt) /\
    PingMessage.host p = Some "tmi.twitch.tv" /\
    @Bot.handle_received loaded_at_zero stored_permissions (Ping p) running_bot
    = (Py.Ok tt, b1) /\
    Connection.wire (Bot.conn b1)
    = (Connection.wire (Bot.conn running_bot)
       ++ [("PONG tmi.twitch.tv" ++ Py.CRLF)%string])%list /\
    @Bot._run_once loaded_at_zero (ping_captures "tmi.twitch.tv") stored_permissions true
      ("PING :tmi.twitch.tv" ++ Py.CRLF) running_bot = (Py.Ok true, b2) /\
    Connection.wire (Bot.conn b2)
    = (Connection.wire (Bot.conn running_bot)
       ++ [("PONG tmi.twitch.tv" ++ Py.CRLF)%string])%list /\
    PongMessage.__bytes__ (PongMessage.__init__ "tmi.twitch.tv")
    = Py.Ok ("PONG :tmi.twitch.tv" ++ Py.CRLF) /\
    "PONG tmi.twitch.tv" ++ Py.CRLF <> "PONG :tmi.twitch.tv" ++ Py.CRLF.
Proof.
  do 3 eexists.
  split; [vm_compute; reflexivity|].
  split; [reflexivity|].
  split; [vm_compute; reflexivity|].
  split; [vm_compute; reflexivity|].
  split; [vm_compute; reflexivity|].
  split; [vm_compute; reflexivity|].
  split; [reflexivity|].
  vm_compute. discriminate.
Qed.

(** One tick on the incoming line [PING :tmi.twitch.tv]: the loop sends
    [PONG], a space and the host text the Ping pattern captured, before
    the tick ends. *)
Lemma ping_line_answered_in_tick (host : string) :
  exists b',
    @Bot._run_once loaded_at_zero (ping_captures host) stored_permissions true
      ("PING :tmi.twitch.tv" ++ Py.CRLF) running_bot = (Py.Ok true, b') /\
    Connection.wire (Bot.conn b')
    = (Connection.wire (Bot.conn running_bot) ++ [("PONG " ++ host ++ Py.CRLF)%string])%list /\
    Connection.receive_queue (Bot.conn b') = [].
Proof.
  eexists. split; [vm_compute; reflexivity|].
  split; vm_compute; reflexivity.
Qed.

(** While [hold_send] is set the PONG line is not sent in the tick. *)
Lemma held_ping_is_not_answered :
  exists b',
    @Bot.handle_received loaded_at_zero stored_permissions
      (Ping (PingMessage.set_host (Some "tmi.twitch.tv") (PingMessage.__init__ None)))
      (Bot.set_conn (Connection.set_hold_send true (Bot.conn running_bot)) running_bot)
    = (Py.Ok tt, b') /\
    Connection.wire (Bot.conn b') = Connection.wire (Bot.conn running_bot) /\
    Connection.queue (Bot.conn b') !! "misc" = Some ["PONG tmi.twitch.tv" ++ Py.CRLF].
Proof.
  eexists. split; [vm_compute; reflexivity|].
  split; vm_compute; reflexivity.
Qed.

(* ===================================================================== *)
(** ** The wire during a tick *)
(* ===================================================================== *)

Lemma steady_refl c : steady c c.
Proof. repeat split. exists []. now rewrite app_nil_r. Qed.

Lemma steady_trans a b c : steady a b -> steady b c -> steady a c.
Proof.
  intros (S1 & H1 & s1 & W1) (S2 & H2 & s2 & W2). repeat split; [congruence..|].
  exists (s1 ++ s2)%list. now rewrite W2, W1, <- List.app_assoc.
Qed.

Lemma steady_frame c c' :
  Connection.socket c' = Connection.socket c ->
  Connection.hold_send c' = Connection.hold_send c ->
  Connection.wire c' = Connection.wire c ->
  steady c c'.
Proof. intros Hs Hh Hw. repeat split; auto. exists []. now rewrite app_nil_r. Qed.

Lemma bot_steady_refl b : bot_steady b b.
Proof. apply steady_refl. Qed.

Lemma bot_steady_trans a b c : bot_steady a b -> bot_steady b c -> bot_steady a c.
Proof. apply steady_trans. Qed.

Ltac steady_bind := apply (runs_bind steady steady_trans).
Ltac bot_bind := apply (runs_bind bot_steady bot_steady_trans).

Lemma steady_flushed c name now max_messages q :
  steady c (flushed c name now max_messages q).
Proof.
  split; [now destruct c|]. split; [now destruct c|]. unfold flushed, transmitted.
  destruct c as [cd ad po [s|] qu rq rb mw hs cc cr wi cl]; cbn.
  - eauto.
  - exists []. now rewrite app_nil_r.
Qed.

Lemma steady_flush_single_queue `{DefaultNow} name no_cooldown max_messages now c :
  runs steady (Connection.flush_single_queue name no_cooldown max_messages now) c.
Proof.
  intros o c' Hrun.
  assert (Hsome : exists n, Connection.flush_single_queue name no_cooldown max_messages now c
                 = Connection.flush_single_queue name no_cooldown max_messages (Some n) c).
  { destruct now; eauto. }
  destruct Hsome as [n Hn]. rewrite Hn, flush_single_queue_run in Hrun. clear Hn.
  destruct (Connection.hold_send c); [injection Hrun as <- <-; apply steady_refl|].
  destruct (Connection.message_wait c !! name) as [wait|];
    [|injection Hrun as <- <-; apply steady_refl].
  destruct (_ && _); [injection Hrun as <- <-; apply steady_refl|].
  destruct (Connection.queue c !! name) as [q|];
    injection Hrun as <- <-; [apply steady_flushed | apply steady_refl].
Qed.

Lemma steady_queue_at name c : runs steady (Connection.queue_at name) c.
Proof.
  intros o c'. unfold Connection.queue_at, Py.bind, Py.gets.
  destruct (_ !! name); intros [= <- <-]; apply steady_refl.
Qed.

Lemma steady_message_wait_at name c : runs steady (Connection.message_wait_at name) c.
Proof.
  intros o c'. unfold Connection.message_wait_at, Py.bind, Py.gets.
  destruct (_ !! name); intros [= <- <-]; apply steady_refl.
Qed.

Lemma steady_force_send `{DefaultNow} message c :
  runs steady (Connection.force_send message) c.
Proof.
  unfold Connection.force_send. steady_bind; [apply steady_queue_at|].
  intros misc c1 _. cbn [to_bytes].
  steady_bind; [apply runs_ret, steady_refl|]. intros b c2 _.
  steady_bind; [apply runs_modify, steady_frame; now destruct c2|].
  intros _ c3 _. steady_bind; [apply steady_flush_single_queue|].
  intros _ c4 _. apply runs_ret, steady_refl.
Qed.

Lemma steady_to_bytes obj c : runs steady (to_bytes obj) c.
Proof.
  intros o c'. unfold to_bytes.
  destruct obj as [s|m]; [intros [= <- <-]; apply steady_refl|].
  destruct (message_bytes m); intros [= <- <-]; apply steady_refl.
Qed.

Lemma steady_send message queue c : runs steady (Connection.send message queue) c.
Proof.
  unfold Connection.send.
  set (route := match message with Msg (Channel _) => _ | _ => _ end).
  destruct route as [name|]; [|apply runs_ret, steady_refl].
  steady_bind; [apply runs_gets, steady_refl|]. intros s c1 _.
  steady_bind; [apply runs_gets, steady_refl|]. intros hold c2 _.
  destruct (_ || _); [|apply runs_ret, steady_refl].
  steady_bind; [apply runs_gets, steady_refl|]. intros q c3 _.
  steady_bind.
  - destruct (q !! name); [apply runs_ret, steady_refl|].
    intros o c' [= <- <-]. apply steady_frame; now destruct c3.
  - intros _ c4 _. steady_bind; [apply steady_queue_at|].
    intros l c5 _. steady_bind; [apply steady_to_bytes|].
    intros b c6 _. apply runs_modify, steady_frame; now destruct c6.
Qed.

Lemma steady_flush_queue `{DefaultNow} max_messages c :
  runs steady (Connection.flush_queue max_messages) c.
Proof.
  unfold Connection.flush_queue.
  steady_bind; [apply runs_gets, steady_refl|]. intros hold c1 _.
  destruct hold; [apply runs_ret, steady_refl|].
  steady_bind; [apply runs_gets, steady_refl|]. intros now c2 _.
  steady_bind; [apply runs_gets, steady_refl|]. intros q c3 _.
  apply (runs_for_fold steady steady_refl steady_trans).
  intros acc name c4 _. steady_bind; [apply steady_flush_single_queue|].
  intros n c5 _. apply runs_ret, steady_refl.
Qed.

Lemma steady_remove_parted_channels c :
  runs steady Connection._remove_parted_channels c.
Proof.
  unfold Connection._remove_parted_channels.
  steady_bind; [apply runs_gets, steady_refl|]. intros pending c1 _.
  apply (runs_for_each steady steady_refl steady_trans).
  intros i c2 _. steady_bind; [apply steady_queue_at|].
  intros q c3 _. destruct q; [|apply runs_ret, steady_refl].
  steady_bind; [apply runs_gets, steady_refl|]. intros l c4 _.
  steady_bind.
  { destruct (Py.list_remove _ i l); [|apply runs_raise, steady_refl].
    apply runs_modify, steady_frame; now destruct c4. }
  intros _ c4' _. steady_bind; [apply steady_message_wait_at|].
  intros _ c5 _. steady_bind; [apply runs_modify, steady_frame; now destruct c5|].
  intros _ c6 _. steady_bind; [apply steady_queue_at|].
  intros _ c7 _. apply runs_modify, steady_frame; now destruct c7.
Qed.

Lemma steady_process_loop `{Regex} n mode : forall r a c,
  runs steady (Connection.process_loop n mode r a) c.
Proof.
  induction n as [|n IH]; intros r a c; cbn [Connection.process_loop].
  - apply runs_ret, steady_refl.
  - steady_bind; [apply runs_gets, steady_refl|]. intros buffer c1 _.
    destruct (negb _); [apply runs_ret, steady_refl|].
    steady_bind; [apply runs_stateless; [apply steady_refl | apply stateless_index]|].
    intros message c2 _.
    steady_bind; [apply runs_modify, steady_frame; now destruct c2|].
    intros _ c3 _.
    destruct (String.eqb message ""); [apply IH|].
    steady_bind;
      [apply runs_stateless; [apply steady_refl | apply stateless_auto_message]|].
    intros m c4 _. destruct (if Connection.is_channel_message m then _ else _); apply IH.
Qed.

Lemma steady_process_messages `{Regex} max_messages mode c :
  runs steady (Connection.process_messages max_messages mode) c.
Proof.
  unfold Connection.process_messages.
  steady_bind; [apply steady_remove_parted_channels|]. intros _ c1 _.
  steady_bind; [apply steady_process_loop|]. intros r c2 _.
  steady_bind; [apply runs_modify, steady_frame; now destruct c2|].
  intros _ c3 _. apply runs_ret, steady_refl.
Qed.

(** Bot level. *)
Lemma bot_super {A} (m : Py.M Connection.t A) b :
  runs steady m (Bot.conn b) -> runs bot_steady (Bot.super m) b.
Proof.
  intros Hm o b'. unfold Bot.super, Py.lift.
  destruct (m (Bot.conn b)) as [o1 c1] eqn:E. intros [= <- <-].
  unfold bot_steady. destruct b; cbn in *. exact (Hm _ _ E).
Qed.

Lemma bot_frame b b' : Bot.conn b' = Bot.conn b -> bot_steady b b'.
Proof. intros E. unfold bot_steady. rewrite E. apply steady_refl. Qed.

Lemma bot_record x b : runs bot_steady (Bot.record x) b.
Proof. apply runs_modify, bot_frame. now destruct b. Qed.

Lemma bot_call_handlers event args b : runs bot_steady (Bot.call_handlers event args) b.
Proof.
  unfold Bot.call_handlers. bot_bind; [apply runs_gets, bot_steady_refl|].
  intros hs b1 _. destruct (hs !! event); [|apply runs_raise, bot_steady_refl].
  apply (runs_for_each bot_steady bot_steady_refl bot_steady_trans).
  intros h b2 _. apply bot_record.
Qed.

Lemma bot_check_permissions_from_command `{PermissionList} message command b :
  runs bot_steady (Bot.check_permissions_from_command message command) b.
Proof.
  unfold Bot.check_permissions_from_command.
  bot_bind; [apply runs_gets, bot_steady_refl|]. intros store b1 _.
  assert (Hfin : forall missing b2,
    runs bot_steady
      (match missing with
       | [] => Py.ret tt
       | _ :: _ => Bot.call_handlers "permission_error"
                     (PermissionErrorArgs message (Some command) missing)
       end ;;; Py.ret missing) b2).
  { intros missing b2. bot_bind.
    - destruct missing; [apply runs_ret, bot_steady_refl | apply bot_call_handlers].
    - intros _ b3 _. apply runs_ret, bot_steady_refl. }
  destruct (store !! ChannelMessage.user message); [|apply Hfin].
  destruct (_ || _); [apply runs_ret, bot_steady_refl | apply Hfin].
Qed.

Lemma bot_command_call `{PermissionList} self message b :
  runs bot_steady (Bot.Command__call__ self message) b.
Proof.
  unfold Bot.Command__call__.
  destruct (Command.permissions_required self); [apply bot_record|].
  bot_bind; [apply bot_check_permissions_from_command|].
  intros o b1 _. destruct o; [apply bot_record | apply runs_ret, bot_steady_refl].
Qed.

Lemma bot_send message queue b : runs bot_steady (Bot.send message queue) b.
Proof.
  unfold Bot.send. bot_bind; [apply runs_gets, bot_steady_refl|].
  intros rc b1 _. destruct rc; [apply runs_ret, bot_steady_refl|].
  apply bot_super, steady_send.
Qed.

Lemma bot_do_unknown_command message b :
  runs bot_steady (Bot._do_unknown_command message) b.
Proof.
  unfold Bot._do_unknown_command.
  bot_bind; [apply runs_gets, bot_steady_refl|]. intros policy b1 _.
  destruct (String.eqb policy "warn"); [apply runs_ret, bot_steady_refl|].
  destruct (String.eqb policy "chat_message").
  - bot_bind; [apply runs_stateless; [apply bot_steady_refl | apply stateless_index]|].
    intros word b2 _. apply bot_send.
  - destruct (String.eqb policy "ignore");
      [apply runs_ret | apply runs_raise]; apply bot_steady_refl.
Qed.

Lemma bot_call_command_handlers `{PermissionList} message b :
  runs bot_steady (Bot._call_command_handlers message) b.
Proof.
  unfold Bot._call_command_handlers.
  bot_bind; [apply runs_gets, bot_steady_refl|]. intros prefix b1 _.
  destruct (Py.startswith _ prefix).
  - bot_bind; [apply runs_gets, bot_steady_refl|]. intros cmds b2 _.
    bot_bind.
    + apply (runs_for_fold bot_steady bot_steady_refl bot_steady_trans).
      intros wh h b3 _. bot_bind.
      * destruct (Command.matcher_function h) as [matcher|];
          [destruct (matcher _)|]; try apply runs_ret, bot_steady_refl.
        bot_bind; [apply bot_command_call|]. intros _ b4 _.
        apply runs_ret, bot_steady_refl.
      * intros wh1 b4 _. bot_bind; [apply runs_gets, bot_steady_refl|].
        intros pf b5 _. destruct (Py.startswith _ _); [|apply runs_ret, bot_steady_refl].
        bot_bind; [apply bot_command_call|]. intros _ b6 _.
        apply runs_ret, bot_steady_refl.
    + intros wh b3 _. bot_bind.
      * destruct (negb wh); [apply bot_do_unknown_command | apply runs_ret, bot_steady_refl].
      * intros _ b4 _. apply runs_ret, bot_steady_refl.
  - bot_bind.
    + unfold Bot._call_forced_prefix_commands.
      bot_bind; [apply runs_gets, bot_steady_refl|]. intros cmds b2 _.
      apply (runs_for_each bot_steady bot_steady_refl bot_steady_trans).
      intros h b3 _. destruct (Command.forced_prefix h); [|apply runs_ret, bot_steady_refl].
      destruct (Py.startswith _ _); [apply bot_command_call | apply runs_ret, bot_steady_refl].
    + intros _ b2 _. apply runs_ret, bot_steady_refl.
Qed.

Lemma bot_discard i b : runs bot_steady (Bot.discard i) b.
Proof.
  unfold Bot.discard. apply bot_super, runs_modify.
  destruct (Py.list_remove _ _ _); [|apply steady_refl].
  apply steady_frame; now destruct (Bot.conn b).
Qed.

Lemma bot_handle_received `{DefaultNow} `{PermissionList} i b :
  runs bot_steady (Bot.handle_received i) b.
Proof.
  unfold Bot.handle_received. bot_bind; [apply bot_call_handlers|].
  intros _ b1 _. destruct i; try apply bot_discard.
  - bot_bind; [apply bot_call_handlers|]. intros _ b2 _.
    bot_bind; [apply bot_call_command_handlers|]. intros m' b3 _. apply bot_discard.
  - bot_bind; [apply bot_super, steady_force_send|]. intros _ b2 _. apply bot_discard.
Qed.

(** A loop that returns went through each of its iterations. *)
Lemma for_each_visits {S A} (R : S -> S -> Prop) (l : list A) (body : A -> Py.M S unit) :
  (forall c, R c c) -> (forall a b c, R a b -> R b c -> R a c) ->
  (forall x c, runs R (body x) c) ->
  forall x c c',
    In x l -> Py.for_each l body c = (Py.Ok tt, c') ->
    exists c1 c2, R c c1 /\ body x c1 = (Py.Ok tt, c2) /\ R c2 c'.
Proof.
  intros Hrefl Htrans Hbody x. induction l as [|y l IH]; intros c c' Hin; [contradiction|].
  cbn [Py.for_each]. unfold Py.bind.
  destruct (body y c) as [[[]|e] c1] eqn:Hy; [|discriminate].
  intros Hrest. destruct Hin as [->|Hin].
  - exists c, c1. repeat split; auto.
    revert Hrest. now apply (runs_for_each R Hrefl Htrans).
  - destruct (IH c1 c' Hin Hrest) as (c2 & c3 & H12 & Hx & H3).
    exists c2, c3. repeat split; auto.
    eapply Htrans; [|exact H12]. exact (Hbody y c _ _ Hy).
Qed.

Lemma receive_ok data b b1 :
  Bot.receive data b = (Py.Ok tt, b1) ->
  Bot.conn b1
  = Connection.set_receive_buffer
      (Connection.receive_buffer (Bot.conn b) ++ Py.replace Py.CRLF Py.LF None data)
      (Bot.conn b).
Proof.
  unfold Bot.receive. unfold Py.bind at 1. cbn [Py.gets].
  destruct (Connection.socket (Bot.conn b)); [|discriminate].
  unfold Py.bind at 1.
  destruct (String.eqb _ "").
  - unfold Py.bind at 1. destruct (Bot.disconnect b) as [[[]|e] b2]; discriminate.
  - cbn. intros [= <-]. now destruct b.
Qed.

Lemma force_send_without_queue `{DefaultNow} message c o c' :
  Connection.queue c !! "misc" = None ->
  Connection.force_send message c = (o, c') -> o = Py.Raise (Py.KeyError "misc").
Proof.
  intros Hq. unfold Connection.force_send, Connection.queue_at, Py.bind, Py.gets.
  rewrite Hq. now intros [= <- <-].
Qed.

Lemma force_send_without_cooldown `{DefaultNow} message c misc o c' :
  Connection.hold_send c = false ->
  Connection.queue c !! "misc" = Some misc ->
  Connection.message_wait c !! "misc" = None ->
  Connection.force_send message c = (o, c') -> o = Py.Raise (Py.KeyError "misc").
Proof.
  intros Hh Hq Hw. unfold Connection.force_send.
  rewrite (bind_eq _ _ c misc c)
    by (unfold Connection.queue_at, Py.bind, Py.gets; now rewrite Hq).
  cbn [to_bytes]. rewrite (bind_eq _ _ c message c) by reflexivity.
  unfold Py.bind at 1. cbn [Py.modify].
  change (Connection.flush_single_queue "misc" true 1 None)
    with (Connection.flush_single_queue "misc" true 1 (Some definition_time)).
  unfold Py.bind at 1. rewrite flush_single_queue_run.
  destruct c as [cd ad po so qu rq rb mw hs cc cr wi cl]; cbn in *.
  subst hs. rewrite Hw. now intros [= <- <-].
Qed.

(** A Ping that was handled without an exception, with [hold_send] clear,
    was answered on the wire. *)
Lemma handle_ping_ok `{DefaultNow} `{PermissionList} p b b' :
  Connection.hold_send (Bot.conn b) = false ->
  Bot.handle_received (Ping p) b = (Py.Ok tt, b') ->
  Connection.wire (Bot.conn b')
  = transmitted (Bot.conn b) ["PONG " ++ Py.fmt (PingMessage.host p) ++ Py.CRLF].
Proof.
  intros Hhold. unfold Bot.handle_received.
  destruct (Bot.handlers b !! "any_msg") as [hs|] eqn:Hh.
  2:{ unfold Bot.call_handlers, Py.bind, Py.gets. rewrite Hh. discriminate. }
  rewrite (bind_eq _ _ _ _ _ (call_handlers_run "any_msg" (MessageArg (Ping p)) hs b Hh)).
  set (line := "PONG " ++ Py.fmt (PingMessage.host p) ++ Py.CRLF).
  unfold Py.bind at 1. unfold Bot.super at 1, Py.lift. cbn [Bot.conn Bot.set_calls].
  destruct (Connection.force_send line (Bot.conn b)) as [o c1] eqn:Hf.
  destruct (Connection.queue (Bot.conn b) !! "misc") as [misc|] eqn:Hq.
  2:{ apply (force_send_without_queue line _ _ _ Hq) in Hf as ->. discriminate. }
  destruct (Connection.message_wait (Bot.conn b) !! "misc") as [wait|] eqn:Hw.
  2:{ apply (force_send_without_cooldown line _ misc _ _ Hhold Hq Hw) in Hf as ->.
      discriminate. }
  rewrite (force_send_run line (Bot.conn b) misc wait Hq Hw), Hhold in Hf.
  injection Hf as <- <-.
  unfold Bot.discard, Bot.super, Py.lift, Py.modify. intros [= <-].
  destruct b as [c rc un pw cmds hd pf ou pm cl];
    destruct c as [cd ad po so qu rq rb mw hold cc cr wi ck]; cbn in *.
  destruct (Py.list_remove message_eq (Ping p) rq); reflexivity.
Qed.

(** Every Ping among the events of a tick that runs to its end, with a
    socket and with [hold_send] clear, is answered on the wire before the
    tick ends. *)
Lemma tick_answers_every_ping `{DefaultNow} `{Regex} `{PermissionList}
      (data : string) (b b' : Bot.t) (r : bool) (p : PingMessage.t) :
  Connection.socket (Bot.conn b) <> None ->
  Connection.hold_send (Bot.conn b) = false ->
  Bot._run_once true data b = (Py.Ok r, b') ->
  In (Ping p)
     (Connection.receive_queue
        (Bot.conn (snd ((Bot.receive data ;;;
                         Bot.super (Connection.process_messages 100 2)) b)))) ->
  exists before after,
    Connection.wire (Bot.conn b')
    = (Connection.wire (Bot.conn b) ++ before
       ++ [("PONG " ++ Py.fmt (PingMessage.host p) ++ Py.CRLF)%string] ++ after)%list.
Proof.
  intros Hconn Hhold Hrun Hin. revert Hrun. unfold Bot._run_once.
  unfold Py.bind at 1. cbn [Py.gets].
  destruct (Connection.socket (Bot.conn b)) as [sock|] eqn:Hsock; [|contradiction].
  cbn [negb]. unfold Py.bind at 1.
  destruct (Bot.receive data b) as [[[]|e] b1] eqn:Hrecv; [|discriminate].
  unfold Py.bind at 1.
  destruct (Bot.super (Connection.process_messages 100 2) b1) as [[msgs|e] b2] eqn:Hproc;
    [|discriminate].
  assert (E : (Bot.receive data ;;; Bot.super (Connection.process_messages 100 2)) b
              = (Py.Ok msgs, b2)) by (unfold Py.bind; now rewrite Hrecv, Hproc).
  rewrite E in Hin. cbn [snd] in Hin. clear E.
  apply receive_ok in Hrecv.
  assert (Ha : bot_steady b b1).
  { unfold bot_steady. rewrite Hrecv. apply steady_frame; now destruct (Bot.conn b). }
  assert (Hb : bot_steady b1 b2).
  { revert Hproc. apply bot_super, steady_process_messages. }
  unfold Py.bind at 1. cbn [Py.gets].
  unfold Py.bind at 1.
  destruct (Py.for_each _ Bot.handle_received b2) as [[[]|e] b3] eqn:Hloop; [|discriminate].
  intros Hend.
  destruct (for_each_visits bot_steady _ Bot.handle_received
              bot_steady_refl bot_steady_trans
              (fun x c => bot_handle_received x c) (Ping p) b2 b3 Hin Hloop)
    as (bk & bk' & Hk & Hping & Hk').
  assert (Hc : bot_steady b3 b').
  { revert Hend. unfold Py.bind at 1. cbn [Py.gets].
    destruct (Connection.channels_connected (Bot.conn b3)).
    - intros [= <- <-]. apply bot_steady_refl.
    - unfold Py.bind.
      destruct (Bot.super (Connection.flush_queue 100) b3) as [[n|e] b4] eqn:Hfl;
        intros [= <- <-].
      revert Hfl. apply bot_super, steady_flush_queue. }
  pose proof (bot_steady_trans _ _ _ (bot_steady_trans _ _ _ Ha Hb) Hk) as Hbk.
  pose proof (bot_steady_trans _ _ _ Hk' Hc) as Hend'.
  destruct Hbk as (Sk & Hhk & before & Wk).
  destruct Hend' as (_ & _ & after & We).
  apply handle_ping_ok in Hping; [|congruence].
  unfold transmitted in Hping. rewrite Sk, Hsock in Hping.
  exists before, after. rewrite We, Hping, Wk.
  now rewrite <- !List.app_assoc.
Qed.

(* ===================================================================== *)
(** ** Tags, patterns and message equality *)
(* ===================================================================== *)

Lemma split_without_sep sep k s :
  Py.contains (String sep "") s = false -> Py.split sep k s = [s].
Proof.
  revert k. induction s as [|c s IH]; intros k Hs; [reflexivity|].
  rewrite contains_char_cons in Hs. apply orb_false_elim in Hs as [Hc Hs].
  cbn [Py.split]. destruct (Py.exhausted k); [reflexivity|].
  rewrite Ascii.eqb_sym, Hc, (IH k Hs). reflexivity.
Qed.

Lemma contains_char_split (sep : ascii) (s : string) :
  Py.contains (String sep "") s = true ->
  exists w r, s = w ++ String sep r /\ Py.contains (String sep "") w = false.
Proof.
  induction s as [|c s IH]; intros Hs; [discriminate|].
  rewrite contains_char_cons in Hs.
  destruct (Ascii.eqb sep c) eqn:Hc.
  - apply Ascii.eqb_eq in Hc as <-. exists "", s. split; reflexivity.
  - cbn [orb] in Hs. destruct (IH Hs) as (w & r & -> & Hw).
    exists (String c w), r. split; [reflexivity|].
    rewrite contains_char_cons, Hc, Hw. reflexivity.
Qed.

(** All pieces when no limit is given. *)
Lemma split_word_all sep w s :
  Py.contains (String sep "") w = false ->
  Py.split sep None (w ++ String sep s) = w :: Py.split sep None s.
Proof.
  induction w as [|c w IH]; intros Hw.
  - rewrite app_nil_l. cbn [Py.split Py.exhausted Py.spend].
    now rewrite Ascii.eqb_refl.
  - rewrite contains_char_cons in Hw. apply orb_false_elim in Hw as [Hc Hw].
    rewrite app_cons. cbn [Py.split Py.exhausted].
    rewrite Ascii.eqb_sym, Hc, (IH Hw). reflexivity.
Qed.

Lemma flags_loop {S} (pieces : list string) : forall (output : gmap string FlagValue) (s : S),
  if forallb (Py.contains "=") pieces
  then exists output',
      Py.for_fold pieces
        (fun output i =>
           let i := Py.split "=" (Some 1%nat) i in
           let* val := Py.index i 1 in
           let val := if Py.contains "," val
                      then FlagList (Py.split "," None val)
                      else FlagStr val in
           let* key := Py.index i 0 in
           Py.ret (<[key := val]> output))
        output s = (Py.Ok output', s)
  else Py.for_fold pieces
        (fun output i =>
           let i := Py.split "=" (Some 1%nat) i in
           let* val := Py.index i 1 in
           let val := if Py.contains "," val
                      then FlagList (Py.split "," None val)
                      else FlagStr val in
           let* key := Py.index i 0 in
           Py.ret (<[key := val]> output))
        output s = (Py.Raise Py.IndexError, s).
Proof.
  induction pieces as [|i pieces IH]; intros output s; cbn [forallb Py.for_fold].
  - eexists. reflexivity.
  - unfold Py.bind at 1. cbv zeta.
    destruct (Py.contains "=" i) eqn:Hi; cbn [andb].
    + destruct (contains_char_split "=" i Hi) as (w & r & -> & Hw).
      rewrite (split_word "=" 0 w r Hw), split_exhausted. cbn.
      apply IH.
    + rewrite (split_without_sep "=" _ i Hi). reflexivity.
Qed.

(** X1.  [process_twitch_flags] returns a dict exactly when every piece
    between semicolons of the tag prefix, after its first character, has
    an equals sign; otherwise it raises [IndexError].  In particular the
    prefix without any tag raises. *)
Theorem process_twitch_flags_needs_key_value {S} (flags : string) (s : S) :
  (if forallb (Py.contains "=") (Py.split ";" None (Py.tail flags))
   then exists output, process_twitch_flags flags s = (Py.Ok output, s)
   else process_twitch_flags flags s = (Py.Raise Py.IndexError, s)) /\
  @process_twitch_flags S "@" s = (Py.Raise Py.IndexError, s).
Proof.
  split; [|reflexivity].
  unfold process_twitch_flags. apply flags_loop.
Qed.

Lemma join_cons sep x y l :
  Py.join sep (x :: y :: l) = x ++ sep ++ Py.join sep (y :: l).
Proof. reflexivity. Qed.

Lemma split_join (sep : ascii) (l : list string) :
  l <> [] ->
  Forall (fun x => Py.contains (String sep "") x = false) l ->
  Py.split sep None (Py.join (String sep "") l) = l.
Proof.
  induction l as [|x l IH]; intros Hne Hall; [contradiction|].
  apply Forall_cons_iff in Hall as [Hx Hall].
  destruct l as [|y l].
  - cbn [Py.join]. apply split_without_sep, Hx.
  - rewrite join_cons. rewrite app_cons, app_nil_l.
    rewrite (split_word_all sep x _ Hx). f_equal. apply IH; [discriminate|assumption].
Qed.

Lemma tags_loop {S} (tags : list (string * string)) :
  Forall (fun kv => Py.contains "=" (fst kv) = false) tags ->
  forall (output : gmap string FlagValue) (s : S),
    Py.for_fold (map (fun kv => fst kv ++ "=" ++ snd kv) tags)
      (fun output i =>
         let i := Py.split "=" (Some 1%nat) i in
         let* val := Py.index i 1 in
         let val := if Py.contains "," val
                    then FlagList (Py.split "," None val)
                    else FlagStr val in
         let* key := Py.index i 0 in
         Py.ret (<[key := val]> output))
      output s
    = (Py.Ok (fold_left (fun output kv => <[fst kv := tag_value (snd kv)]> output)
                tags output), s).
Proof.
  induction 1 as [|[k v] tags Hk Hall IH]; intros output s; [reflexivity|].
  cbn [map Py.for_fold fold_left fst snd]. unfold Py.bind at 1. cbv zeta.
  rewrite app_cons, app_nil_l.
  rewrite (split_word "=" 0 k v Hk), split_exhausted. cbn. apply IH.
Qed.

(** X2.  Round trip of the tag prefix: for a non-empty list of tags whose
    keys have no equals sign and no semicolon and whose values have no
    semicolon, [process_twitch_flags] of the line [@k1=v1;k2=v2...] is
    the dict of the tags, in which a value with a comma is the list of
    its pieces and a later tag replaces an earlier one. *)
Theorem process_twitch_flags_roundtrip {S} (tags : list (string * string)) (s : S) :
  tags <> [] ->
  Forall (fun kv => Py.contains "=" (fst kv) = false /\
                    Py.contains ";" (fst kv) = false /\
                    Py.contains ";" (snd kv) = false) tags ->
  process_twitch_flags (tags_line tags) s = (Py.Ok (tags_dict tags), s).
Proof.
  intros Hne Hall. unfold process_twitch_flags, tags_line, tags_dict.
  rewrite app_cons, app_nil_l. cbn [Py.tail].
  rewrite split_join.
  - apply tags_loop. eapply Forall_impl; [exact Hall|]. now intros kv (? & _).
  - destruct tags; [contradiction|discriminate].
  - apply Forall_map. eapply Forall_impl; [exact Hall|].
    intros [k v] (_ & Hk & Hv). cbn [fst snd] in *.
    rewrite !contains_char_app, Hk, Hv. reflexivity.
Qed.

Lemma process_twitch_flags_roundtrip_witness :
  @process_twitch_flags unit (tags_line [("badges", "moderator/1,subscriber/12"); ("color", "")]) tt
  = (Py.Ok (tags_dict [("badges", "moderator/1,subscriber/12"); ("color", "")]), tt).
Proof.
  apply process_twitch_flags_roundtrip; [discriminate|].
  repeat constructor.
Defined.

Lemma bind_ok {S A B} (m : Py.M S A) (f : A -> Py.M S B) s b s' :
  Py.bind m f s = (Py.Ok b, s') ->
  exists a s1, m s = (Py.Ok a, s1) /\ f a s1 = (Py.Ok b, s').
Proof.
  unfold Py.bind. destruct (m s) as [[a|e] s1]; [eauto|discriminate].
Qed.

(** X3.  A line that none of the patterns matches is a raw [Message] that
    holds the line, whatever the line is: [auto_message] does not raise on
    it.  Conversely [auto_message] returns a raw [Message] only for such a
    line. *)
Theorem auto_message_unmatched_is_raw `{Regex} {S} (line : string) (s : S) :
  ((forall p, re_match p line = None) ->
   auto_message line s = (Py.Ok (Raw (Message.__init__ line)), s)) /\
  (forall r s', auto_message line s = (Py.Ok (Raw r), s') ->
                forall p, re_match p line = None).
Proof.
  split.
  - intros Hnone. unfold auto_message, MESSAGE_PATTERN_DICT. cbn [first_match].
    rewrite !Hnone. reflexivity.
  - intros r s'. unfold auto_message, MESSAGE_PATTERN_DICT. cbn [first_match].
    destruct (re_match PRIVMSG_PATTERN_TWITCH line) eqn:E1.
    { intros Hm. apply bind_ok in Hm as (? & ? & _ & [=]). }
    destruct (re_match PING_MESSAGSE_PATTERN line) eqn:E2.
    { intros Hm. apply bind_ok in Hm as (? & ? & _ & [=]). }
    destruct (re_match NOTICE_MESSAGE_PATTERN line) eqn:E3.
    { intros Hm. apply bind_ok in Hm as (? & ? & _ & [=]). }
    destruct (re_match GLOBAL_NOTICE_MESSAGE_PATTERN line) eqn:E4.
    { intros Hm. apply bind_ok in Hm as (? & ? & _ & [=]). }
    destruct (re_match JOIN_MESSAGE_PATTERN line) eqn:E5.
    { intros Hm. apply bind_ok in Hm as (? & ? & _ & [=]). }
    destruct (re_match PART_MESSAGE_PATTERN line) eqn:E6.
    { intros Hm. apply bind_ok in Hm as (? & ? & _ & [=]). }
    destruct (re_match WHISPER_MESSAGE_PATTERN line) eqn:E7.
    { intros Hm. apply bind_ok in Hm as (? & ? & _ & [=]). }
    intros _ []; assumption.
Qed.

Lemma auto_message_unmatched_is_raw_witness :
  @auto_message no_tagged_lines unit ":tmi.twitch.tv 001 bot :Welcome, GLHF!" tt
  = (Py.Ok (Raw (Message.__init__ ":tmi.twitch.tv 001 bot :Welcome, GLHF!")), tt).
Proof.
  apply (@auto_message_unmatched_is_raw no_tagged_lines unit). reflexivity.
Defined.

(** X4.  The class of the message [auto_message] returns is the class
    listed with the first pattern, in the order of
    [MESSAGE_PATTERN_DICT], that matches the line.  It never returns a
    [PongMessage] or a [UsernoticeMessage]. *)
Theorem auto_message_first_pattern_decides `{Regex} {S} (line : string) (s s' : S)
        (m : AnyMessage) :
  auto_message line s = (Py.Ok m, s') ->
  match m with
  | Pong _ | Usernotice _ => False
  | Raw _ => forall p, re_match p line = None
  | _ => exists p, pattern_of m = Some p /\ re_match p line <> None /\
                   forall q, In q (listed_before p) -> re_match q line = None
  end.
Proof.
  unfold auto_message, MESSAGE_PATTERN_DICT. cbn [first_match].
  destruct (re_match PRIVMSG_PATTERN_TWITCH line) eqn:E1.
  { intros Hm. apply bind_ok in Hm as (? & ? & _ & [= <- _]).
    exists PRIVMSG_PATTERN_TWITCH. repeat split; [congruence|]. intros q []. }
  destruct (re_match PING_MESSAGSE_PATTERN line) eqn:E2.
  { intros Hm. apply bind_ok in Hm as (? & ? & _ & [= <- _]).
    exists PING_MESSAGSE_PATTERN. repeat split; [congruence|].
    cbn. intuition (subst; assumption). }
  destruct (re_match NOTICE_MESSAGE_PATTERN line) eqn:E3.
  { intros Hm. apply bind_ok in Hm as (? & ? & _ & [= <- _]).
    exists NOTICE_MESSAGE_PATTERN. repeat split; [congruence|].
    cbn. intuition (subst; assumption). }
  destruct (re_match GLOBAL_NOTICE_MESSAGE_PATTERN line) eqn:E4.
  { intros Hm. apply bind_ok in Hm as (? & ? & _ & [= <- _]).
    exists GLOBAL_NOTICE_MESSAGE_PATTERN. repeat split; [congruence|].
    cbn. intuition (subst; assumption). }
  destruct (re_match JOIN_MESSAGE_PATTERN line) eqn:E5.
  { intros Hm. apply bind_ok in Hm as (? & ? & _ & [= <- _]).
    exists JOIN_MESSAGE_PATTERN. repeat split; [congruence|].
    cbn. intuition (subst; assumption). }
  destruct (re_match PART_MESSAGE_PATTERN line) eqn:E6.
  { intros Hm. apply bind_ok in Hm as (? & ? & _ & [= <- _]).
    exists PART_MESSAGE_PATTERN. repeat split; [congruence|].
    cbn. intuition (subst; assumption). }
  destruct (re_match WHISPER_MESSAGE_PATTERN line) eqn:E7.
  { intros Hm. apply bind_ok in Hm as (? & ? & _ & [= <- _]).
    exists WHISPER_MESSAGE_PATTERN. repeat split; [congruence|].
    cbn. intuition (subst; assumption). }
  intros [= <- _]. intros []; assumption.
Qed.

Lemma auto_message_first_pattern_decides_witness :
  exists p, pattern_of (Ping (PingMessage.set_host (Some "tmi.twitch.tv")
                                (PingMessage.__init__ None))) = Some p /\
            @re_match (ping_captures "tmi.twitch.tv") p "PING :tmi.twitch.tv" <> None /\
            forall q, In q (listed_before p) ->
                      @re_match (ping_captures "tmi.twitch.tv") q "PING :tmi.twitch.tv" = None.
Proof.
  exact (@auto_message_first_pattern_decides (ping_captures "tmi.twitch.tv") unit
           "PING :tmi.twitch.tv" tt tt
           (Ping (PingMessage.set_host (Some "tmi.twitch.tv") (PingMessage.__init__ None)))
           eq_refl).
Defined.

Lemma parsed_ping_args (p : PingMessage.t) :
  parsed_ping p -> PingMessage.base p = Message.__init__ "PING :None".
Proof.
  intros [[m Hm]|[text Hm]].
  - unfold PingMessage.from_match in Hm. apply bind_ok in Hm as (h & [] & _ & [= <-]).
    reflexivity.
  - unfold PingMessage.from_text in Hm. apply bind_ok in Hm as (h & [] & _ & [= <-]).
    reflexivity.
Qed.

(** X5.  A parsed [PingMessage] keeps the [args] of a Ping without host,
    [PING :None]: the host is assigned after the constructor ran.  So any
    two parsed Pings are equal for [==], whatever their hosts, and each is
    equal to the raw message [PING :None]. *)
Theorem parsed_pings_are_equal (p1 p2 : PingMessage.t) :
  parsed_ping p1 -> parsed_ping p2 ->
  message_eq (Ping p1) (Ping p2) = true /\
  message_eq (Ping p1) (Raw (Message.__init__ "PING :None")) = true.
Proof.
  intros H1 H2. unfold message_eq. cbn [base_of].
  rewrite (parsed_ping_args p1 H1), (parsed_ping_args p2 H2). split; reflexivity.
Qed.

Lemma parsed_pings_are_equal_witness :
  message_eq (Ping (PingMessage.set_host (Some "tmi.twitch.tv") (PingMessage.__init__ None)))
             (Ping (PingMessage.set_host (Some "irc.example.org") (PingMessage.__init__ None)))
  = true.
Proof.
  refine (proj1 (parsed_pings_are_equal _ _ _ _)).
  - right. exists "PING :tmi.twitch.tv". reflexivity.
  - right. exists "PING :irc.example.org". reflexivity.
Defined.

(** X6.  [PingMessage.from_text] recovers the host of a Ping line, with or
    without the final CRLF, when the host has no CRLF of its own; a text
    without a space raises [IndexError]. *)
Theorem ping_from_text_recovers_host {S} (h : string) (s : S) :
  Py.contains Py.CRLF h = false ->
  (exists p, PingMessage.from_text ("PING :" ++ h ++ Py.CRLF) s = (Py.Ok p, s) /\
             PingMessage.host p = Some h) /\
  (exists p, PingMessage.from_text ("PING :" ++ h) s = (Py.Ok p, s) /\
             PingMessage.host p = Some h) /\
  (forall text, Py.contains " " text = false ->
                PingMessage.from_text text s = (Py.Raise Py.IndexError, s)).
Proof.
  intros Hh. repeat split.
  - eexists. unfold PingMessage.from_text.
    change ("PING :" ++ h ++ Py.CRLF) with ("PING" ++ String " " (":" ++ h ++ Py.CRLF)).
    rewrite (split_word " " 0 "PING" _ eq_refl), split_exhausted.
    cbn -[Py.replace]. rewrite app_cons, app_nil_l. cbn [Py.tail].
    rewrite (replace_crlf_end h Hh). split; reflexivity.
  - eexists. unfold PingMessage.from_text.
    change ("PING :" ++ h) with ("PING" ++ String " " (":" ++ h)).
    rewrite (split_word " " 0 "PING" _ eq_refl), split_exhausted.
    cbn -[Py.replace]. rewrite app_cons, app_nil_l. cbn [Py.tail].
    rewrite (replace_crlf_id h Hh). split; reflexivity.
  - intros text Ht. unfold PingMessage.from_text.
    assert (E : Py.split " " (Some 1%nat) text = [text]).
    { revert Ht. generalize (Some 1%nat).
      induction text as [|c text IH]; intros k Ht; [reflexivity|].
      rewrite contains_char_cons in Ht. apply orb_false_elim in Ht as [Hc Ht].
      cbn [Py.split]. destruct (Py.exhausted k); [reflexivity|].
      rewrite Ascii.eqb_sym, Hc, (IH k Ht). reflexivity. }
    rewrite E. reflexivity.
Qed.

Lemma ping_from_text_recovers_host_witness :
  exists p, @PingMessage.from_text unit ("PING :" ++ "tmi.twitch.tv" ++ Py.CRLF) tt = (Py.Ok p, tt) /\
            PingMessage.host p = Some "tmi.twitch.tv".
Proof.
  exact (proj1 (@ping_from_text_recovers_host unit "tmi.twitch.tv" tt eq_refl)).
Defined.

(** X7.  Two ChannelMessages are equal for [==] exactly when they were
    constructed from the same text: the user, the channel, the tags and
    the direction of the message have no part in the comparison. *)
Theorem channel_messages_equal_by_text (text1 user1 channel1 text2 user2 channel2 : string)
        (flags1 flags2 : gmap string FlagValue) (outgoing1 outgoing2 : bool) :
  message_eq
    (Channel (ChannelMessage.set_outgoing outgoing1
                (ChannelMessage.set_flags flags1
                   (ChannelMessage.__init__ text1 user1 channel1))))
    (Channel (ChannelMessage.set_outgoing outgoing2
                (ChannelMessage.set_flags flags2
                   (ChannelMessage.__init__ text2 user2 channel2))))
  = true <-> text1 = text2.
Proof.
  unfold message_eq, Message.__eq__. cbn.
  rewrite String.eqb_eq. split; congruence.
Qed.


(* ===================================================================== *)
(** ** Reading from a stream *)
(* ===================================================================== *)

Lemma append_nil_r (a : string) : a ++ "" = a.
Proof. induction a as [|c a IH]; [reflexivity|]. now rewrite app_cons, IH. Qed.

Lemma append_char (a : string) (c : ascii) (b : string) :
  (a ++ String c "") ++ b = a ++ String c b.
Proof. now rewrite append_assoc. Qed.

Lemma readuntil_at_end left char m :
  readuntil_loop left char m [] = (Py.Ok m, []).
Proof.
  revert m. induction left as [|left IH]; intros m; [reflexivity|].
  cbn [readuntil_loop]. unfold Py.bind. cbn [read_1].
  destruct (String.eqb "" char); [reflexivity|].
  rewrite append_nil_r. apply IH.
Qed.

Lemma readuntil_word (char : string) (w : list string) :
  Forall (fun c => c <> char) w ->
  forall left m tail,
    (length w <= left)%nat ->
    readuntil_loop left char m (w ++ tail)%list
    = readuntil_loop (left - length w) char (m ++ text_of w) tail.
Proof.
  induction w as [|c w IH]; intros Hw left m tail Hlen.
  - cbn [app text_of fold_right length]. rewrite append_nil_r, Nat.sub_0_r. reflexivity.
  - apply Forall_cons in Hw as [Hc Hw].
    cbn [length] in Hlen. destruct left as [|left]; [lia|].
    cbn [app readuntil_loop]. unfold Py.bind at 1. cbn [read_1].
    apply String.eqb_neq in Hc. rewrite Hc, (IH Hw left _ tail) by lia.
    cbn [length Nat.sub text_of fold_right]. now rewrite append_assoc.
Qed.

(** X8.  [readuntil] returns the characters of the stream before the first
    delimiter and takes them and the delimiter off the stream.  It reads
    at most [max_size - 1] characters: when it stops there, what follows
    stays on the stream, a delimiter too; with [max_size] at most 1 it
    reads nothing.  At the end of the stream it returns what it has
    read.  The bound counts characters, not bytes. *)
Theorem readuntil_stops_at_delimiter (char : string) (w tail : list string)
        (max_size : Z) :
  Forall (fun c => c <> char) w ->
  (Z.of_nat (length w) + 1 < max_size ->
   readuntil char max_size (w ++ char :: tail)%list = (Py.Ok (text_of w), tail)) /\
  (Z.of_nat (length w) + 1 = max_size ->
   readuntil char max_size (w ++ tail)%list = (Py.Ok (text_of w), tail)) /\
  (Z.of_nat (length w) + 1 < max_size ->
   readuntil char max_size w = (Py.Ok (text_of w), [])) /\
  (max_size <= 1 ->
   readuntil char max_size (w ++ tail)%list = (Py.Ok "", (w ++ tail)%list)).
Proof.
  intros Hw. unfold readuntil. repeat split.
  - intros Hlen. rewrite (readuntil_word char w Hw) by lia. rewrite app_nil_l.
    destruct (Z.to_nat (max_size - 1) - length w)%nat as [|left] eqn:E; [lia|].
    cbn [readuntil_loop]. unfold Py.bind. cbn [read_1].
    now rewrite String.eqb_refl.
  - intros Hlen. rewrite (readuntil_word char w Hw) by lia. rewrite app_nil_l.
    replace (Z.to_nat (max_size - 1) - length w)%nat with O by lia. reflexivity.
  - intros Hlen. rewrite <- (List.app_nil_r w) at 1.
    rewrite (readuntil_word char w Hw) by lia. rewrite app_nil_l.
    apply readuntil_at_end.
  - intros Hmax. replace (Z.to_nat (max_size - 1)) with O by lia. reflexivity.
Qed.

Lemma readuntil_stops_at_delimiter_witness :
  readuntil Py.LF 1024 ["c"; "a"; "f"; e_acute; Py.LF; "!"]
  = (Py.Ok ("caf" ++ e_acute), ["!"]) /\
  readuntil Py.LF 3 [e_acute; e_acute; Py.LF] = (Py.Ok (e_acute ++ e_acute), [Py.LF]).
Proof.
  split.
  - apply (readuntil_stops_at_delimiter Py.LF ["c"; "a"; "f"; e_acute] ["!"] 1024).
    + repeat constructor; discriminate.
    + cbn. lia.
  - apply (readuntil_stops_at_delimiter Py.LF [e_acute; e_acute] [Py.LF] 3).
    + repeat constructor; discriminate.
    + reflexivity.
Defined.

(* ===================================================================== *)
(** ** Queueing, logging in, joining and leaving *)
(* ===================================================================== *)

Lemma send_run (message : Sendable) (queue name : string) (c : Connection.t) :
  routed message queue = Some name ->
  bool_decide (Connection.socket c <> None) || Connection.hold_send c = true ->
  Connection.send message queue c
  = match @to_bytes Connection.t message c with
    | (Py.Ok b, _) => (Py.Ok tt, enqueued c name b)
    | (Py.Raise e, _) => (Py.Raise e, with_queue c name)
    end.
Proof.
  intros Hr Hc. unfold Connection.send. fold (routed message queue). rewrite Hr.
  rewrite (bind_eq _ _ c (Connection.socket c) c) by reflexivity.
  rewrite (bind_eq _ _ c (Connection.hold_send c) c) by reflexivity.
  rewrite Hc.
  rewrite (bind_eq _ _ c (Connection.queue c) c) by reflexivity.
  unfold enqueued, with_queue.
  destruct (Connection.queue c !! name) as [l|] eqn:Hq.
  - unfold Py.bind at 1. cbn [Py.ret].
    rewrite (bind_eq _ _ c l c)
      by (unfold Connection.queue_at, Py.bind, Py.gets; now rewrite Hq).
    unfold Py.bind. destruct message as [s|m]; cbn [to_bytes].
    + cbn. now rewrite Hq.
    + destruct (message_bytes m); cbn; [now rewrite Hq|reflexivity].
  - unfold Py.bind at 1. unfold Py.bind at 1. cbn [Py.modify].
    unfold Py.bind at 1. cbn [Connection.time_time Py.gets Py.modify].
    destruct c as [cd ad po so qu rq rb mw hs cc cr wi cl]; cbn in *.
    unfold Connection.queue_at, Py.bind, Py.gets; cbn.
    rewrite lookup_insert_eq. cbn.
    destruct message as [s|m]; cbn [to_bytes].
    + cbn. reflexivity.
    + destruct (message_bytes m); cbn; reflexivity.
Qed.

(** X9.  [send] leaves the connection as it is, without raising, when
    there is no socket and [hold_send] is clear, and when the message is a
    ChannelMessage of the user [rcfile]: the message is neither queued
    nor serialized. *)
Theorem send_drops_without_socket (message : Sendable) (queue : string)
        (c : Connection.t) :
  (Connection.socket c = None /\ Connection.hold_send c = false) \/
  routed message queue = None ->
  Connection.send message queue c = (Py.Ok tt, c).
Proof.
  intros Hcase. unfold Connection.send. fold (routed message queue).
  destruct (routed message queue) as [name|]; [|reflexivity].
  destruct Hcase as [[Hs Hh]|]; [|discriminate].
  unfold Py.bind, Py.gets. now rewrite Hs, Hh.
Qed.

Lemma send_drops_without_socket_witness :
  Connection.send (Str ("PRIVMSG #foo :hello" ++ Py.CRLF)) "foo" fresh = (Py.Ok tt, fresh).
Proof.
  apply send_drops_without_socket. left. split; reflexivity.
Defined.

(** X10.  With a socket, or while [hold_send] is set, [send] puts the bytes
    of the message at the back of a queue and sends nothing: the queue
    of its channel for a ChannelMessage, whatever [queue] says, else the
    queue [queue].  A queue that did not exist is created with the
    current time as its earliest-send timestamp; the timestamp of an
    existing queue is left as it is. *)
Theorem send_queues_at_the_back (message : Sendable) (queue name : string)
        (c : Connection.t) (b : string) :
  routed message queue = Some name ->
  Connection.socket c <> None \/ Connection.hold_send c = true ->
  @to_bytes Connection.t message c = (Py.Ok b, c) ->
  exists c',
    Connection.send message queue c = (Py.Ok tt, c') /\
    Connection.queue c'
    = <[name := (default [] (Connection.queue c !! name) ++ [b])%list]> (Connection.queue c) /\
    Connection.message_wait c'
    = match Connection.queue c !! name with
      | Some _ => Connection.message_wait c
      | None => <[name := Connection.clock c]> (Connection.message_wait c)
      end /\
    Connection.wire c' = Connection.wire c /\
    Connection.socket c' = Connection.socket c.
Proof.
  intros Hr Hc Hb. exists (enqueued c name b).
  rewrite (send_run message queue name c Hr), Hb.
  2:{ destruct Hc as [Hs|Hh]; [|rewrite Hh; apply orb_true_r].
      now rewrite bool_decide_eq_true_2. }
  split; [reflexivity|]. unfold enqueued, with_queue.
  destruct (Connection.queue c !! name) as [l|] eqn:Hq.
  - destruct c; cbn in *. rewrite Hq. repeat split; reflexivity.
  - destruct c; cbn in *. rewrite lookup_insert_eq, insert_insert_eq.
    repeat split; reflexivity.
Qed.

Lemma send_queues_at_the_back_witness :
  exists c',
    Connection.send (Msg (Channel (ChannelMessage.reply
                                     (ChannelMessage.__init__ "!hi" "bob" "foo") "hello")))
                    "misc" (Connection.set_hold_send true fresh) = (Py.Ok tt, c') /\
    Connection.queue c' = <["foo" := ["PRIVMSG #foo :hello" ++ Py.CRLF]]> {[ "misc" := [] ]} /\
    Connection.message_wait c' = <["foo" := 0]> {[ "misc" := 0 ]} /\
    Connection.wire c' = [] /\
    Connection.socket c' = None.
Proof.
  exact (send_queues_at_the_back
           (Msg (Channel (ChannelMessage.reply
                            (ChannelMessage.__init__ "!hi" "bob" "foo") "hello")))
           "misc" "foo" (Connection.set_hold_send true fresh)
           ("PRIVMSG #foo :hello" ++ Py.CRLF)
           eq_refl (or_intror eq_refl) eq_refl).
Defined.

(** X11.  A message that is not outgoing, of any class but [PongMessage],
    is queued by [send] as the empty payload: the queue grows by one
    entry that holds no bytes. *)
Theorem send_of_incoming_message_queues_nothing (m : AnyMessage) (queue name : string)
        (c : Connection.t) :
  Message.outgoing (base_of m) = false -> is_pong m = false ->
  routed (Msg m) queue = Some name ->
  Connection.socket c <> None \/ Connection.hold_send c = true ->
  exists c',
    Connection.send (Msg m) queue c = (Py.Ok tt, c') /\
    Connection.queue c' !! name
    = Some (default [] (Connection.queue c !! name) ++ [""])%list.
Proof.
  intros Hout Hpong Hr Hc.
  assert (Hb : message_bytes m = Py.Ok "").
  { destruct m as [m|m|m|m|m|m|m|m|m|m]; try discriminate Hpong;
      cbn [message_bytes base_of] in *;
      unfold Message.__bytes__, ChannelMessage.__bytes__,
        WhisperMessage.__bytes__, JoinMessage.__bytes__;
      rewrite Hout; reflexivity. }
  exists (enqueued c name "").
  rewrite (send_run (Msg m) queue name c Hr).
  2:{ destruct Hc as [Hs|Hh]; [|rewrite Hh; apply orb_true_r].
      now rewrite bool_decide_eq_true_2. }
  cbn [to_bytes]. rewrite Hb. split; [reflexivity|].
  unfold enqueued, with_queue.
  destruct (Connection.queue c !! name) as [l|] eqn:Hq.
  - destruct c; cbn in *. now rewrite Hq, lookup_insert_eq.
  - destruct c; cbn in *. now rewrite !lookup_insert_eq.
Qed.

Lemma send_of_incoming_message_queues_nothing_witness :
  exists c',
    Connection.send (Msg (Channel (ChannelMessage.__init__ "hello" "bob" "foo"))) "misc"
                    (Connection.set_hold_send true fresh) = (Py.Ok tt, c') /\
    Connection.queue c' !! "foo" = Some [""].
Proof.
  exact (send_of_incoming_message_queues_nothing
           (Channel (ChannelMessage.__init__ "hello" "bob" "foo")) "misc" "foo"
           (Connection.set_hold_send true fresh) eq_refl eq_refl eq_refl (or_intror eq_refl)).
Defined.

(** X12.  An outgoing message of a class that inherits
    [Message.__bytes__] cannot be sent: [__bytes__] returns a [str], so
    [send] raises [TypeError].  By then the queue has been created if it
    was missing, and it stays. *)
Theorem send_of_outgoing_base_message_raises (m : AnyMessage) (queue : string)
        (c : Connection.t) :
  inherits_bytes m = true -> Message.outgoing (base_of m) = true ->
  Connection.socket c <> None \/ Connection.hold_send c = true ->
  message_bytes m = Py.Raise Py.TypeError /\
  Connection.send (Msg m) queue c = (Py.Raise Py.TypeError, with_queue c queue).
Proof.
  intros Hin Hout Hc.
  assert (Hb : message_bytes m = Py.Raise Py.TypeError).
  { destruct m as [m|m|m|m|m|m|m|m|m|m]; try discriminate Hin;
      cbn [message_bytes base_of] in *; unfold Message.__bytes__; now rewrite Hout. }
  split; [exact Hb|].
  rewrite (send_run (Msg m) queue queue c).
  - cbn [to_bytes]. now rewrite Hb.
  - destruct m; try discriminate Hin; reflexivity.
  - destruct Hc as [Hs|Hh]; [|rewrite Hh; apply orb_true_r].
    now rewrite bool_decide_eq_true_2.
Qed.

Lemma send_of_outgoing_base_message_raises_witness :
  Connection.send (Msg (Raw (Message.set_outgoing true (Message.__init__ "PRIVMSG #foo :hi"))))
                  "foo" (Connection.set_hold_send true fresh)
  = (Py.Raise Py.TypeError, with_queue (Connection.set_hold_send true fresh) "foo").
Proof.
  exact (proj2 (send_of_outgoing_base_message_raises
                  (Raw (Message.set_outgoing true (Message.__init__ "PRIVMSG #foo :hi")))
                  "foo" (Connection.set_hold_send true fresh)
                  eq_refl eq_refl (or_intror eq_refl))).
Defined.

(** X13.  [connect] opens a socket to the address and port of the
    connection, a new one even if there was one, and logs in: it hands
    the PASS line, if a password is given, and then the NICK line to the
    socket at once, leaving the queues as they were.  While [hold_send]
    is set nothing is sent and the two lines are left at the front of the
    [misc] queue, the NICK line first. *)
Theorem connect_logs_in `{DefaultNow} (username : string) (password : option string)
        (c : Connection.t) (misc : list string) (wait : Z) :
  Connection.queue c !! "misc" = Some misc ->
  Connection.message_wait c !! "misc" = Some wait ->
  exists c',
    Connection.connect username password c = (Py.Ok tt, c') /\
    Connection.socket c' = Some (TcpSocket (Connection.address c) (Connection.port c)) /\
    if Connection.hold_send c
    then Connection.wire c' = Connection.wire c /\
         Connection.queue c' !! "misc" = Some (rev (login_lines username password) ++ misc)%list
    else Connection.wire c' = (Connection.wire c ++ login_lines username password)%list /\
         Connection.queue c' = Connection.queue c.
Proof.
  intros Hq Hw. unfold Connection.connect, Connection._connect, Connection._login.
  unfold Py.bind at 1. cbn [Py.modify].
  set (c1 := Connection.set_socket _ c).
  assert (Hq1 : Connection.queue c1 !! "misc" = Some misc) by (now destruct c).
  assert (Hw1 : Connection.message_wait c1 !! "misc" = Some wait) by (now destruct c).
  destruct password as [p|].
  - unfold Py.bind at 1. rewrite (force_send_run _ c1 misc wait Hq1 Hw1).
    set (c2 := if Connection.hold_send c1 then _ else _).
    destruct (Connection.hold_send c) eqn:Hh.
    + assert (Hq2 : Connection.queue c2 !! "misc" = Some (("PASS " ++ p ++ Py.CRLF) :: misc)).
      { subst c2 c1. destruct c; cbn in *. subst. cbn. now rewrite lookup_insert_eq. }
      assert (Hw2 : Connection.message_wait c2 !! "misc" = Some wait).
      { subst c2 c1. destruct c; cbn in *. now subst. }
      rewrite (force_send_run _ c2 _ wait Hq2 Hw2).
      eexists. split; [reflexivity|].
      subst c2 c1. destruct c; cbn in *. subst. cbn.
      rewrite lookup_insert_eq. repeat split; reflexivity.
    + assert (Hq2 : Connection.queue c2 !! "misc" = Some misc).
      { subst c2 c1. destruct c; cbn in *. now subst. }
      assert (Hw2 : Connection.message_wait c2 !! "misc"
                    = Some (definition_time + Connection.message_cooldown c)).
      { subst c2 c1. destruct c; cbn in *. subst. cbn. now rewrite lookup_insert_eq. }
      rewrite (force_send_run _ c2 _ _ Hq2 Hw2).
      eexists. split; [reflexivity|].
      subst c2 c1. destruct c; cbn in *. subst. cbn.
      rewrite <- List.app_assoc. repeat split; reflexivity.
  - unfold Py.bind at 1. cbn [Py.ret].
    rewrite (force_send_run _ c1 misc wait Hq1 Hw1).
    eexists. split; [reflexivity|].
    subst c1. destruct c as [cd ad po so qu rq rb mw hs cc cr wi cl]; cbn in *.
    destruct hs; cbn; [rewrite lookup_insert_eq|]; repeat split; reflexivity.
Qed.

Lemma connect_logs_in_witness :
  exists c',
    @Connection.connect loaded_at_zero "bot" (Some "oauth:token") fresh = (Py.Ok tt, c') /\
    Connection.socket c' = Some (TcpSocket "irc.chat.twitch.tv" 6667) /\
    Connection.wire c' = ["PASS oauth:token" ++ Py.CRLF; "NICK bot" ++ Py.CRLF] /\
    Connection.queue c' = {[ "misc" := [] ]}.
Proof.
  exact (@connect_logs_in loaded_at_zero "bot" (Some "oauth:token") fresh [] 0 eq_refl eq_refl).
Defined.

(** X14.  [join], with [hold_send] clear: the join line is handed to the
    socket at once; the channel gets an empty queue, in place of the one
    it had and of what was waiting there, with the current time as its
    earliest-send timestamp; the channel is added at the end of
    [channels_connected], also when it is listed there. *)
Theorem join_resets_the_queue `{DefaultNow} (channel : string) (c : Connection.t)
        (misc : list string) (wait : Z) :
  Connection.queue c !! "misc" = Some misc ->
  Connection.message_wait c !! "misc" = Some wait ->
  Connection.hold_send c = false ->
  exists c',
    Connection.join channel c = (Py.Ok tt, c') /\
    Connection.wire c' = transmitted c ["join #" ++ channel ++ Py.CRLF] /\
    Connection.queue c' = <[channel := []]> (Connection.queue c) /\
    Connection.message_wait c'
    = <[channel := Connection.clock c]>
        (<["misc" := definition_time + Connection.message_cooldown c]>
           (Connection.message_wait c)) /\
    Connection.channels_connected c' = (Connection.channels_connected c ++ [channel])%list.
Proof.
  intros Hq Hw Hh. unfold Connection.join.
  unfold Py.bind at 1. rewrite (force_send_run _ c misc wait Hq Hw), Hh.
  eexists. split; [reflexivity|].
  destruct c; cbn in *. repeat split; reflexivity.
Qed.

Lemma join_resets_the_queue_witness :
  exists c',
    @Connection.join loaded_at_zero "foo"
      (Connection.set_queue (<["foo" := ["PRIVMSG #foo :hi" ++ Py.CRLF]]> {[ "misc" := [] ]}) fresh)
    = (Py.Ok tt, c') /\
    Connection.queue c' !! "foo" = Some [].
Proof.
  assert (Hq : Connection.queue
                 (Connection.set_queue
                    (<["foo" := ["PRIVMSG #foo :hi" ++ Py.CRLF]]> {[ "misc" := [] ]}) fresh)
               !! "misc" = Some []) by (vm_compute; reflexivity).
  destruct (@join_resets_the_queue loaded_at_zero "foo" _ [] 0 Hq eq_refl eq_refl)
    as (c' & E & _ & Q & _).
  exists c'. split; [exact E|]. rewrite Q. apply lookup_insert_eq.
Defined.

(** X15.  [part], with [hold_send] clear: the part line is handed to the
    socket at once and the channel is added at the end of
    [channels_to_remove], whether it was joined or not.  The queue of the
    channel and [channels_connected] are left as they were: the channel
    stays listed as connected. *)
Theorem part_only_marks_the_channel `{DefaultNow} (channel : string) (c : Connection.t)
        (misc : list string) (wait : Z) :
  Connection.queue c !! "misc" = Some misc ->
  Connection.message_wait c !! "misc" = Some wait ->
  Connection.hold_send c = false ->
  exists c',
    Connection.part channel c = (Py.Ok tt, c') /\
    Connection.wire c' = transmitted c ["part #" ++ channel ++ Py.CRLF] /\
    Connection.channels_to_remove c' = (Connection.channels_to_remove c ++ [channel])%list /\
    Connection.queue c' = Connection.queue c /\
    Connection.channels_connected c' = Connection.channels_connected c.
Proof.
  intros Hq Hw Hh. unfold Connection.part.
  unfold Py.bind at 1. rewrite (force_send_run _ c misc wait Hq Hw), Hh.
  eexists. split; [reflexivity|].
  destruct c; cbn in *. repeat split; reflexivity.
Qed.

Lemma part_only_marks_the_channel_witness :
  exists c',
    @Connection.part loaded_at_zero "foo" fresh = (Py.Ok tt, c') /\
    Connection.wire c' = transmitted fresh ["part #foo" ++ Py.CRLF] /\
    Connection.channels_to_remove c' = ["foo"] /\
    Connection.queue c' = Connection.queue fresh /\
    Connection.channels_connected c' = [].
Proof.
  exact (@part_only_marks_the_channel loaded_at_zero "foo" fresh [] 0 eq_refl eq_refl eq_refl).
Defined.


(* ===================================================================== *)
(** ** Flushing the queues *)
(* ===================================================================== *)

Lemma transmitted_app c c1 a b :
  Connection.socket c1 = Connection.socket c ->
  Connection.wire c1 = transmitted c a ->
  transmitted c1 b = transmitted c (a ++ b).
Proof.
  unfold transmitted. intros -> ->. destruct (Connection.socket c); [|reflexivity].
  now rewrite List.app_assoc.
Qed.

Lemma flush_queue_loop `{DefaultNow} (now : Z) (max_messages : Z) (ks : list string) :
  NoDup ks ->
  forall (c : Connection.t) (sent : Z),
    Connection.hold_send c = false ->
    (forall k, k ∈ ks -> is_Some (Connection.queue c !! k) /\
                         is_Some (Connection.message_wait c !! k)) ->
    exists c',
      Py.for_fold ks
        (fun sent queue_name =>
           let* n := Connection.flush_single_queue queue_name false max_messages (Some now) in
           Py.ret (sent + n))
        sent c
      = (Py.Ok (sent + Z.of_nat (length (concat (map (batch c now max_messages) ks)))), c') /\
      flushed_queues c c' now max_messages ks.
Proof.
  induction 1 as [|k ks Hk Hnd IH]; intros c sent Hh Hdom.
  - exists c. split; [cbn; now rewrite Z.add_0_r|].
    unfold flushed_queues, transmitted. cbn.
    repeat split; try reflexivity.
    destruct (Connection.socket c); [now rewrite app_nil_r|reflexivity].
  - destruct (Hdom k) as [[q Hq] [wait Hw]]; [now left|].
    cbn [Py.for_fold]. unfold Py.bind at 1. unfold Py.bind at 1.
    rewrite flush_single_queue_run, Hh, Hw, Hq. rewrite andb_true_r.
    assert (Hb : batch c now max_messages k
                 = if wait >? now then [] else Py.slice_to q max_messages).
    { unfold batch, due. rewrite Hw, Hq. cbn. now destruct (wait >? now). }
    set (c1 := if wait >? now then c else flushed c k now max_messages q).
    assert (Hone : flushed_queues c c1 now max_messages [k]).
    { subst c1. unfold flushed_queues. cbn [map concat]. rewrite app_nil_r, Hb.
      destruct (wait >? now) eqn:Hdue.
      - unfold transmitted. repeat split; try reflexivity.
        + destruct (Connection.socket c); [now rewrite app_nil_r|reflexivity].
        + unfold due. destruct (bool_decide (k0 ∈ [k])) eqn:Hin; [|reflexivity].
          apply bool_decide_eq_true_1, list_elem_of_singleton in Hin as ->.
          now rewrite Hw, Hdue.
        + unfold batch, due. destruct (bool_decide (k0 ∈ [k])) eqn:Hin; [|reflexivity].
          apply bool_decide_eq_true_1, list_elem_of_singleton in Hin as ->.
          now rewrite Hw, Hdue.
      - destruct c as [cd ad po so qu rq rb mw hs cc cr wi cl]; cbn in *.
        unfold flushed, cooled, transmitted. cbn.
        repeat split; try reflexivity.
        + unfold due; cbn. destruct (bool_decide (k0 ∈ [k])) eqn:Hin.
          * apply bool_decide_eq_true_1, list_elem_of_singleton in Hin as ->.
            now rewrite Hw, Hdue, lookup_insert_eq, Hq.
          * apply bool_decide_eq_false_1 in Hin. rewrite list_elem_of_singleton in Hin.
            now rewrite lookup_insert_ne by congruence.
        + unfold batch, due; cbn. destruct (bool_decide (k0 ∈ [k])) eqn:Hin.
          * apply bool_decide_eq_true_1, list_elem_of_singleton in Hin as ->.
            rewrite Hw, Hdue, Hq. cbn.
            destruct (Py.slice_to q max_messages); [exact Hw|apply lookup_insert_eq].
          * apply bool_decide_eq_false_1 in Hin. rewrite list_elem_of_singleton in Hin.
            destruct (Py.slice_to q max_messages); [reflexivity|].
            now rewrite lookup_insert_ne by congruence. }
    destruct Hone as (W1 & K1 & S1 & H1 & C1).
    assert (Hsame : forall k', k' ∈ ks ->
              Connection.queue c1 !! k' = Connection.queue c !! k' /\
              Connection.message_wait c1 !! k' = Connection.message_wait c !! k').
    { intros k' Hk'. destruct (K1 k') as [Q M]. rewrite Q, M.
      assert (Hne : bool_decide (k' ∈ [k]) = false).
      { apply bool_decide_eq_false_2. rewrite list_elem_of_singleton. intros ->. contradiction. }
      rewrite Hne. split; reflexivity. }
    assert (Hbatch : map (batch c1 now max_messages) ks = map (batch c now max_messages) ks).
    { apply map_ext_in. intros k' Hk'. apply list_elem_of_In in Hk'.
      destruct (Hsame k' Hk') as [Q M]. unfold batch, due. now rewrite Q, M. }
    destruct (IH c1 (sent + Z.of_nat (length (batch c now max_messages k)))) as (c' & Hrun & Hrest).
    { congruence. }
    { intros k' Hk'. destruct (Hsame k' Hk') as [-> ->]. apply Hdom. now right. }
    exists c'. split.
    + cbn [Py.ret].
      assert (E : (if wait >? now then (Py.Ok 0, c)
                   else (Py.Ok (Z.of_nat (length (Py.slice_to q max_messages))),
                         flushed c k now max_messages q))
                  = (Py.Ok (Z.of_nat (length (batch c now max_messages k))), c1)).
      { subst c1. rewrite Hb. now destruct (wait >? now). }
      rewrite E. cbn [Py.ret]. rewrite Hrun, Hbatch. cbn [map concat].
      rewrite length_app. f_equal. f_equal. lia.
    + destruct Hrest as (W & K & S & Hs & C).
      unfold flushed_queues. cbn [map concat].
      split.
      { rewrite W, Hbatch. apply transmitted_app; [exact S1|].
        rewrite W1. cbn. now rewrite app_nil_r. }
      split; [|repeat split; congruence].
      intros k'. destruct (K k') as [Q M]. destruct (K1 k') as [Q1 M1].
      rewrite Q, M.
      destruct (decide (k' = k)) as [->|Hne].
      * assert (Hin1 : bool_decide (k ∈ ks) = false) by (now apply bool_decide_eq_false_2).
        assert (Hin2 : bool_decide (k ∈ k :: ks) = true)
          by (apply bool_decide_eq_true_2; now left).
        assert (Hin3 : bool_decide (k ∈ [k]) = true)
          by (apply bool_decide_eq_true_2; now left).
        rewrite Hin1, Hin2. cbn [andb]. rewrite Q1, M1, Hin3. split; reflexivity.
      * assert (Hin3 : bool_decide (k' ∈ [k]) = false).
        { apply bool_decide_eq_false_2. rewrite list_elem_of_singleton. congruence. }
        assert (Hin2 : bool_decide (k' ∈ k :: ks) = bool_decide (k' ∈ ks)).
        { apply bool_decide_ext. rewrite elem_of_cons. intuition congruence. }
        rewrite Hin2. rewrite Hin3 in Q1, M1. cbn [andb] in Q1.
        assert (Hd : due c1 now k' = due c now k') by (unfold due; now rewrite M1).
        assert (Hbk : batch c1 now max_messages k' = batch c now max_messages k')
          by (unfold batch; now rewrite Hd, Q1).
        rewrite Hd, Hbk, Q1, M1, C1. split; reflexivity.
Qed.

(** X16.  [flush_queue] on a connection whose two maps have the same keys.
    While [hold_send] is set it returns 0 and changes nothing.  Otherwise
    it reads the clock once and visits every queue once: from a queue
    whose earliest-send timestamp is not after the time read it takes the
    first [max_messages] payloads, which are handed to [_send] in their
    order in the queue, and the queue gets the time read plus the
    cooldown as its timestamp if a payload was taken; the other queues
    keep their payloads and their timestamps.  It returns the number of
    payloads taken. *)
Theorem flush_queue_takes_from_due_queues `{DefaultNow} (max_messages : Z)
        (c : Connection.t) :
  keys_agree c ->
  (Connection.hold_send c = true ->
   Connection.flush_queue max_messages c = (Py.Ok 0, c)) /\
  (Connection.hold_send c = false ->
   exists ks c',
     NoDup ks /\
     (forall k, In k ks <-> Connection.queue c !! k <> None) /\
     let taken := concat (map (batch c (Connection.clock c) max_messages) ks) in
     Connection.flush_queue max_messages c = (Py.Ok (Z.of_nat (length taken)), c') /\
     Connection.wire c' = transmitted c taken /\
     forall k l,
       Connection.queue c !! k = Some l ->
       Connection.queue c' !! k
       = Some (if due c (Connection.clock c) k then Py.slice_from l max_messages else l) /\
       Connection.message_wait c' !! k
       = match batch c (Connection.clock c) max_messages k with
         | [] => Connection.message_wait c !! k
         | _ :: _ => Some (Connection.clock c + Connection.message_cooldown c)
         end).
Proof.
  intros Hk. unfold Connection.flush_queue. split.
  - intros Hh. unfold Py.bind, Py.gets. now rewrite Hh.
  - intros Hh.
    rewrite (bind_eq _ _ c false c) by (unfold Py.gets; now rewrite Hh).
    rewrite (bind_eq _ _ c (Connection.clock c) c) by reflexivity.
    rewrite (bind_eq _ _ c (Connection.queue c) c) by reflexivity.
    assert (Hin : forall k, k ∈ (map_to_list (Connection.queue c)).*1
                            <-> Connection.queue c !! k <> None).
    { intros k. rewrite list_elem_of_fmap. split.
      - intros ([k' l] & -> & Hin). apply elem_of_map_to_list in Hin. cbn. congruence.
      - intros Hne. destruct (Connection.queue c !! k) as [l|] eqn:E; [|congruence].
        exists (k, l). split; [reflexivity|]. now apply elem_of_map_to_list. }
    destruct (flush_queue_loop (Connection.clock c) max_messages
                (map_to_list (Connection.queue c)).*1
                (NoDup_fst_map_to_list _) c 0 Hh) as (c' & Hrun & W & K & _).
    { intros k Hk'. apply Hin in Hk'.
      destruct (Connection.queue c !! k) as [l|] eqn:E; [|congruence].
      split; [eauto|]. apply elem_of_dom. rewrite <- Hk. apply elem_of_dom. eauto. }
    exists (map_to_list (Connection.queue c)).*1, c'.
    split; [apply NoDup_fst_map_to_list|].
    split; [intros k; rewrite <- list_elem_of_In; apply Hin|].
    cbv zeta. split; [exact Hrun|]. split; [exact W|].
    intros k l Hq. destruct (K k) as [Q M].
    assert (Hink : bool_decide (k ∈ (map_to_list (Connection.queue c)).*1) = true).
    { apply bool_decide_eq_true_2, Hin. congruence. }
    rewrite Hink in Q, M. cbn [andb] in Q. rewrite Q, M, Hq. cbn.
    split; [|reflexivity]. now destruct (due c (Connection.clock c) k).
Qed.

Lemma flush_queue_takes_from_due_queues_witness :
  exists c',
    @Connection.flush_queue loaded_at_zero 2 busy = (Py.Ok 2, c') /\
    Connection.wire c' = (Connection.wire busy ++ ["a"; "b"])%list /\
    Connection.queue c' !! "foo" = Some ["c"] /\
    Connection.message_wait c' !! "foo" = Some 3 /\
    Connection.queue c' !! "bar" = Some ["y"] /\
    Connection.message_wait c' !! "bar" = Connection.message_wait busy !! "bar".
Proof.
  assert (Hkeys : keys_agree busy) by (unfold keys_agree; vm_compute; reflexivity).
  destruct (proj2 (@flush_queue_takes_from_due_queues loaded_at_zero 2 busy Hkeys) eq_refl)
    as (ks & c' & Hnd & Hks & Hrun & Hwire & Hq).
  assert (Hfoo : Connection.queue busy !! "foo" = Some ["a"; "b"; "c"])
    by (vm_compute; reflexivity).
  assert (Hbar : Connection.queue busy !! "bar" = Some ["y"]) by (vm_compute; reflexivity).
  destruct (Hq "foo" _ Hfoo) as [Qf Wf]. destruct (Hq "bar" _ Hbar) as [Qb Wb].
  assert (Hres : fst (@Connection.flush_queue loaded_at_zero 2 busy) = Py.Ok 2)
    by (vm_compute; reflexivity).
  assert (Hw : Connection.wire (snd (@Connection.flush_queue loaded_at_zero 2 busy))
               = (Connection.wire busy ++ ["a"; "b"])%list) by (vm_compute; reflexivity).
  rewrite Hrun in Hres, Hw. cbn [fst snd] in Hres, Hw.
  exists c'. split; [rewrite Hrun; f_equal; exact Hres|].
  split; [exact Hw|].
  repeat split.
  - rewrite Qf. reflexivity.
  - rewrite Wf. reflexivity.
  - rewrite Qb. reflexivity.
  - rewrite Wb. reflexivity.
Defined.

(** X17.  [flush_single_queue] with a negative [max_messages], when it is
    not held back: the slices count from the end of the queue, so the
    last [-max_messages] payloads stay in the queue and all the payloads
    before them are handed to [_send], however many they are. *)
Theorem flush_with_negative_bound_keeps_the_tail `{DefaultNow} (c : Connection.t)
        (name : string) (no_cooldown : bool) (k : nat) (now : Z)
        (q : list string) (wait : Z) :
  Connection.queue c !! name = Some q ->
  Connection.message_wait c !! name = Some wait ->
  Connection.hold_send c = false ->
  (wait >? now) && negb no_cooldown = false ->
  (0 < k)%nat ->
  exists c',
    Connection.flush_single_queue name no_cooldown (- Z.of_nat k) (Some now) c
    = (Py.Ok (Z.of_nat (length q - k)), c') /\
    Connection.wire c' = transmitted c (firstn (length q - k) q) /\
    Connection.queue c' = <[name := skipn (length q - k) q]> (Connection.queue c).
Proof.
  intros Hq Hw Hh Hdue Hk.
  rewrite flush_single_queue_run, Hh, Hw, Hdue, Hq.
  assert (Hto : Py.slice_to q (- Z.of_nat k) = firstn (length q - k) q).
  { unfold Py.slice_to. destruct (0 <=? - Z.of_nat k) eqn:E; [lia|].
    now rewrite Z.opp_involutive, Nat2Z.id. }
  assert (Hfrom : Py.slice_from q (- Z.of_nat k) = skipn (length q - k) q).
  { unfold Py.slice_from. destruct (0 <=? - Z.of_nat k) eqn:E; [lia|].
    now rewrite Z.opp_involutive, Nat2Z.id. }
  eexists. split.
  - rewrite Hto, length_firstn. f_equal. f_equal. lia.
  - unfold flushed. rewrite Hto, Hfrom. destruct c; cbn. split; reflexivity.
Qed.

Lemma flush_with_negative_bound_keeps_the_tail_witness :
  exists c',
    @Connection.flush_single_queue loaded_at_zero "misc" false (- Z.of_nat 1) (Some 10)
      (Connection.set_queue {[ "misc" := ["a"; "b"; "c"] ]}
         (Connection.set_socket (Some (TcpSocket "irc.chat.twitch.tv" 6667)) fresh))
    = (Py.Ok (Z.of_nat (length ["a"; "b"; "c"] - 1)), c') /\
    Connection.wire c'
    = transmitted
        (Connection.set_queue {[ "misc" := ["a"; "b"; "c"] ]}
           (Connection.set_socket (Some (TcpSocket "irc.chat.twitch.tv" 6667)) fresh))
        (firstn (length ["a"; "b"; "c"] - 1) ["a"; "b"; "c"]) /\
    Connection.queue c'
    = <["misc" := skipn (length ["a"; "b"; "c"] - 1) ["a"; "b"; "c"]]> {[ "misc" := ["a"; "b"; "c"] ]}.
Proof.
  exact (@flush_with_negative_bound_keeps_the_tail loaded_at_zero
           (Connection.set_queue {[ "misc" := ["a"; "b"; "c"] ]}
              (Connection.set_socket (Some (TcpSocket "irc.chat.twitch.tv" 6667)) fresh))
           "misc" false 1 10 ["a"; "b"; "c"] 0 eq_refl eq_refl eq_refl eq_refl
           ltac:(lia)).
Defined.

(* ===================================================================== *)
(** ** The list of channels *)
(* ===================================================================== *)

Lemma same_refl {S A} (f : S -> A) c : same f c c.
Proof. reflexivity. Qed.

Lemma same_trans {S A} (f : S -> A) a b c : same f a b -> same f b c -> same f a c.
Proof. unfold same. congruence. Qed.

(** One step through the text of a method, for an attribute that none of
    its assignments touches. *)
Ltac same_step f :=
  lazymatch goal with
  | |- runs _ (Py.bind _ _) _ => apply (runs_bind (same f) (same_trans f)); [|intros ? ? _]
  | |- runs _ (Py.ret _) _ => apply runs_ret, same_refl
  | |- runs _ (Py.raise _) _ => apply runs_raise, same_refl
  | |- runs _ (Py.gets _) _ => apply runs_gets, same_refl
  | |- runs _ (Py.modify _) ?c => apply runs_modify; destruct c; reflexivity
  | |- runs _ (Py.for_each _ _) _ =>
      apply (runs_for_each (same f) (same_refl f) (same_trans f)); intros ? ? _
  | |- runs _ (Py.for_fold _ _ _) _ =>
      apply (runs_for_fold (same f) (same_refl f) (same_trans f)); intros ? ? ? _
  | |- runs _ (match ?x with _ => _ end) _ => destruct x
  end.

Section Channels.
Context `{DefaultNow} `{Regex}.
Lemma listed_queue_at name c : runs (same Connection.channels_connected) (Connection.queue_at name) c.
Proof. unfold Connection.queue_at. repeat same_step Connection.channels_connected. Qed.

Lemma listed_message_wait_at name c : runs (same Connection.channels_connected) (Connection.message_wait_at name) c.
Proof. unfold Connection.message_wait_at. repeat same_step Connection.channels_connected. Qed.

Lemma listed_send_ message c : runs (same Connection.channels_connected) (Connection._send message) c.
Proof. unfold Connection._send. repeat same_step Connection.channels_connected. Qed.

Lemma listed_flush_single_queue name no_cooldown max_messages now c :
  runs (same Connection.channels_connected) (Connection.flush_single_queue name no_cooldown max_messages now) c.
Proof.
  unfold Connection.flush_single_queue. cbv zeta.
  repeat first [ apply listed_queue_at | apply listed_message_wait_at | apply listed_send_
               | same_step Connection.channels_connected ].
Qed.

Lemma listed_to_bytes obj c : runs (same Connection.channels_connected) (to_bytes obj) c.
Proof. unfold to_bytes. repeat same_step Connection.channels_connected. Qed.

Lemma listed_force_send message c : runs (same Connection.channels_connected) (Connection.force_send message) c.
Proof.
  unfold Connection.force_send.
  repeat first [ apply listed_queue_at | apply listed_to_bytes | apply listed_flush_single_queue
               | same_step Connection.channels_connected ].
Qed.

Lemma listed_disconnect c : runs (same Connection.channels_connected) Connection.disconnect c.
Proof. unfold Connection.disconnect. repeat same_step Connection.channels_connected. Qed.

Lemma listed_connect username password c :
  runs (same Connection.channels_connected) (Connection.connect username password) c.
Proof.
  unfold Connection.connect, Connection._connect, Connection._login.
  repeat first [ apply listed_force_send | same_step Connection.channels_connected ].
Qed.

Lemma listed_send message queue c : runs (same Connection.channels_connected) (Connection.send message queue) c.
Proof.
  unfold Connection.send. cbv zeta.
  set (route := match message with Msg (Channel _) => _ | _ => _ end).
  destruct route as [name|]; [|apply runs_ret, same_refl].
  unfold Connection.time_time.
  repeat first [ apply listed_queue_at | apply listed_to_bytes
               | same_step Connection.channels_connected ].
Qed.

Lemma listed_flush_queue max_messages c : runs (same Connection.channels_connected) (Connection.flush_queue max_messages) c.
Proof.
  unfold Connection.flush_queue, Connection.time_time.
  repeat first [ apply listed_flush_single_queue | same_step Connection.channels_connected ].
Qed.

Lemma listed_receive data c : runs (same Connection.channels_connected) (Connection.receive data) c.
Proof.
  unfold Connection.receive. cbv zeta.
  repeat first [ apply listed_disconnect | same_step Connection.channels_connected ].
Qed.

Lemma listed_remove_parted_channels c : runs (same Connection.channels_connected) Connection._remove_parted_channels c.
Proof.
  unfold Connection._remove_parted_channels.
  repeat first [ apply listed_queue_at | apply listed_message_wait_at
               | same_step Connection.channels_connected ].
Qed.

Lemma listed_process_loop n mode : forall r a c,
  runs (same Connection.channels_connected) (Connection.process_loop n mode r a) c.
Proof.
  induction n as [|n IH]; intros r a c; cbn [Connection.process_loop].
  - apply runs_ret, same_refl.
  - repeat first [ apply IH
                 | apply runs_stateless;
                   [apply same_refl | first [apply stateless_index | apply stateless_auto_message]]
                 | same_step Connection.channels_connected ].
Qed.

Lemma listed_process_messages max_messages mode c :
  runs (same Connection.channels_connected) (Connection.process_messages max_messages mode) c.
Proof.
  unfold Connection.process_messages.
  repeat first [ apply listed_remove_parted_channels | apply listed_process_loop
               | same_step Connection.channels_connected ].
Qed.

End Channels.

Lemma listed_perform `{DefaultNow} `{Regex} op c :
  (forall channel, op <> CallJoin channel) ->
  runs (same Connection.channels_connected) (perform op) c.
Proof.
  intros Hop. destruct op; cbn [perform].
  3:{ now destruct (Hop channel). }
  - apply listed_connect.
  - apply listed_force_send.
  - unfold Connection.part.
    repeat first [ apply listed_force_send | same_step Connection.channels_connected ].
  - apply listed_send.
  - apply listed_force_send.
  - repeat first [ apply listed_flush_single_queue | same_step Connection.channels_connected ].
  - repeat first [ apply listed_flush_queue | same_step Connection.channels_connected ].
  - apply listed_receive.
  - repeat first [ apply listed_process_messages | same_step Connection.channels_connected ].
  - apply listed_disconnect.
  - same_step Connection.channels_connected.
  - same_step Connection.channels_connected.
Qed.

(** X18.  No method of the connection takes a channel off
    [channels_connected]: every operation other than [join] leaves the
    list as it is, whether it returns or raises, [part] and the removal of
    the queue of a parted channel included; [join] adds its channel at
    the end, or leaves the list as it is when it raises. *)
Theorem channels_connected_never_shrinks `{DefaultNow} `{Regex} (op : Operation)
        (c c' : Connection.t) (o : Py.Outcome unit) :
  perform op c = (o, c') ->
  match op, o with
  | CallJoin channel, Py.Ok _ =>
      Connection.channels_connected c' = (Connection.channels_connected c ++ [channel])%list
  | _, _ => Connection.channels_connected c' = Connection.channels_connected c
  end.
Proof.
  intros E.
  destruct (match op with CallJoin _ => true | _ => false end) eqn:Hj.
  - destruct op; try discriminate Hj. revert E. cbn [perform].
    unfold Connection.join. unfold Py.bind at 1.
    destruct (Connection.force_send _ c) as [[[]|e] c1] eqn:Hf.
    + apply listed_force_send in Hf. unfold same in Hf.
      unfold Py.bind, Py.modify, Connection.time_time, Py.gets. intros [= <- <-].
      destruct c1; cbn in *. now rewrite Hf.
    + apply listed_force_send in Hf. intros [= <- <-]. exact Hf.
  - assert (Hs : same Connection.channels_connected c c').
    { revert E. apply listed_perform. intros channel ->. discriminate Hj. }
    destruct op; try discriminate Hj; destruct o; exact Hs.
Qed.

Lemma channels_connected_never_shrinks_witness :
  Connection.channels_connected
    (snd (@perform loaded_at_zero no_tagged_lines (CallPart "foo")
            (snd (@perform loaded_at_zero no_tagged_lines (CallJoin "foo") fresh))))
  = ["foo"].
Proof.
  set (c1 := snd (@perform loaded_at_zero no_tagged_lines (CallJoin "foo") fresh)).
  destruct (@perform loaded_at_zero no_tagged_lines (CallPart "foo") c1) as [o c2] eqn:E.
  pose proof (@channels_connected_never_shrinks loaded_at_zero no_tagged_lines
                (CallPart "foo") c1 c2 o E) as Hs.
  cbn [snd]. cbv iota in Hs. rewrite Hs. vm_compute. reflexivity.
Defined.

(* ===================================================================== *)
(** ** Lines of the receive buffer *)
(* ===================================================================== *)

Lemma agrees_ret {S A} (a : A) : agrees (@Py.ret S A a) (Py.ret a).
Proof. now intros s. Qed.

Lemma agrees_raise {S A} e : agrees (@Py.raise S A e) (Py.raise e).
Proof. now intros s. Qed.

Lemma agrees_bind {S A B} (m : Py.M S A) m0 (f : A -> Py.M S B) f0 :
  agrees m m0 -> (forall a, agrees (f a) (f0 a)) -> agrees (Py.bind m f) (Py.bind m0 f0).
Proof.
  intros Hm Hf s. unfold Py.bind. rewrite Hm.
  destruct (m0 tt) as [[a|e] []]; cbn [fst]; [apply Hf|reflexivity].
Qed.

Lemma agrees_index {S A} (l : list A) i : agrees (@Py.index S A l i) (Py.index l i).
Proof. unfold Py.index. destruct (nth_error l i); [apply agrees_ret | apply agrees_raise]. Qed.

Lemma agrees_for_fold {S A B} (l : list A) (body : B -> A -> Py.M S B) body0 :
  (forall acc x, agrees (body acc x) (body0 acc x)) ->
  forall acc, agrees (Py.for_fold l body acc) (Py.for_fold l body0 acc).
Proof.
  intros Hb. induction l as [|x l IH]; intros acc; cbn [Py.for_fold].
  - apply agrees_ret.
  - apply agrees_bind; auto.
Qed.

Lemma agrees_process_twitch_flags {S} flags :
  agrees (@process_twitch_flags S flags) (process_twitch_flags flags).
Proof.
  unfold process_twitch_flags. apply agrees_for_fold. intros acc x.
  apply agrees_bind; [apply agrees_index|]. intros val.
  apply agrees_bind; [apply agrees_index|]. intros key. apply agrees_ret.
Qed.

Ltac agrees_steps :=
  repeat first
    [ apply agrees_ret
    | apply agrees_raise
    | apply agrees_index
    | apply agrees_process_twitch_flags
    | apply agrees_bind; [|intros ?] ].

(** Classifying a line neither reads nor writes the state. *)
Lemma auto_message_parse `{Regex} {S} (line : string) (s : S) :
  auto_message line s = (parse line, s).
Proof.
  revert s. change (agrees (@auto_message _ S line) (auto_message line)).
  unfold auto_message, MESSAGE_PATTERN_DICT. cbn [first_match].
  destruct (re_match PRIVMSG_PATTERN_TWITCH line) as [m|].
  { unfold ChannelMessage.from_match, group. agrees_steps. }
  destruct (re_match PING_MESSAGSE_PATTERN line) as [m|].
  { unfold PingMessage.from_match, group. agrees_steps. }
  destruct (re_match NOTICE_MESSAGE_PATTERN line) as [m|].
  { unfold NoticeMessage.from_match, group. agrees_steps.
    match goal with |- agrees (match ?x with _ => _ end) _ => destruct x end;
      agrees_steps. }
  destruct (re_match GLOBAL_NOTICE_MESSAGE_PATTERN line) as [m|].
  { unfold GlobalNoticeMessage.from_match, group. agrees_steps. }
  destruct (re_match JOIN_MESSAGE_PATTERN line) as [m|].
  { unfold JoinMessage.from_match, group. agrees_steps. }
  destruct (re_match PART_MESSAGE_PATTERN line) as [m|].
  { unfold PartMessage.from_match, group. agrees_steps. }
  destruct (re_match WHISPER_MESSAGE_PATTERN line) as [m|].
  { unfold WhisperMessage.from_match, group. agrees_steps. }
  apply agrees_ret.
Qed.

Lemma replace_skip (old new : string) (t : string) :
  forall tail, Py.replace_from old new (Some O) (String.length t) (t ++ tail) = tail.
Proof.
  induction t as [|c t IH]; intros tail.
  - rewrite app_nil_l. now destruct tail.
  - rewrite app_cons. cbn [String.length Py.replace_from]. apply IH.
Qed.

Lemma prefix_app (a b : string) : String.prefix a (a ++ b) = true.
Proof.
  induction a as [|c a IH]; [apply prefix_nil|].
  rewrite app_cons, prefix_cons, Ascii.eqb_refl. exact IH.
Qed.

(** Taking the first occurrence of a string off the front. *)
Lemma replace_first_prefix (c : ascii) (t tail : string) :
  Py.replace (String c t) "" (Some 1%nat) (String c t ++ tail) = tail.
Proof.
  unfold Py.replace. rewrite app_cons. cbn [Py.replace_from Py.exhausted].
  rewrite <- app_cons, prefix_app, app_nil_l. cbn [Py.spend Nat.pred String.length].
  apply replace_skip.
Qed.

Lemma first_line (line tail : string) :
  Py.contains Py.LF line = false ->
  let buffer := line ++ Py.LF ++ tail in
  Py.contains Py.LF buffer = true /\
  Py.split "010" (Some 1%nat) buffer = [line; tail] /\
  Py.replace (line ++ Py.LF) "" (Some 1%nat) buffer = tail.
Proof.
  intros Hl buffer. subst buffer. unfold Py.LF in *. repeat split.
  - rewrite contains_char_app, app_cons, contains_char_cons, Ascii.eqb_refl.
    apply orb_true_r.
  - rewrite app_cons, app_nil_l, (split_word "010" 0 line tail Hl), split_exhausted.
    reflexivity.
  - rewrite <- append_assoc.
    destruct (line ++ String "010" "") as [|c t] eqn:E.
    + destruct line; discriminate E.
    + apply replace_first_prefix.
Qed.

Lemma set_receive_buffer_same c :
  Connection.set_receive_buffer (Connection.receive_buffer c) c = c.
Proof. now destruct c. Qed.

Lemma set_receive_buffer_twice x y c :
  Connection.set_receive_buffer x (Connection.set_receive_buffer y c)
  = Connection.set_receive_buffer x c.
Proof. now destruct c. Qed.

(** The loop of [process_messages] on a buffer of complete lines followed
    by a partial line. *)
Lemma process_loop_lines `{Regex} (mode : Z) (rest : string) :
  Py.contains Py.LF rest = false ->
  forall (n : nat) (lines : list string) (ms : list AnyMessage)
         (r a : list AnyMessage) (c : Connection.t),
    Forall (fun line => Py.contains Py.LF line = false) lines ->
    Connection.receive_buffer c = buffered lines rest ->
    parsed_lines (firstn n lines) = Some ms ->
    Connection.process_loop n mode r a c
    = (Py.Ok ((r ++ List.filter (returned mode) ms)%list,
              (a ++ List.filter (fun m => negb (returned mode m)) ms)%list),
       Connection.set_receive_buffer (buffered (skipn n lines) rest) c).
Proof.
  intros Hrest. induction n as [|n IH]; intros lines ms r a c Hlines Hbuf Hms.
  - cbn in Hms. injection Hms as <-.
    cbn [Connection.process_loop List.filter]. rewrite skipn_O.
    unfold Py.ret. rewrite !app_nil_r, <- Hbuf.
    now rewrite set_receive_buffer_same.
  - destruct lines as [|line lines].
    + cbn in Hms. injection Hms as <-. cbn [buffered fold_right] in Hbuf.
      rewrite skipn_nil. cbn [Connection.process_loop buffered fold_right].
      rewrite (bind_eq _ _ c (Connection.receive_buffer c) c) by reflexivity.
      rewrite Hbuf, Hrest. cbn [negb Py.ret List.filter].
      rewrite !app_nil_r, <- Hbuf. now rewrite set_receive_buffer_same.
    + apply Forall_cons_iff in Hlines as [Hline Hlines].
      cbn [buffered fold_right] in Hbuf. fold (buffered lines rest) in Hbuf.
      destruct (first_line line (buffered lines rest) Hline) as (Hc & Hs & Hr).
      rewrite skipn_cons. cbn [Connection.process_loop].
      rewrite (bind_eq _ _ c (Connection.receive_buffer c) c) by reflexivity.
      rewrite Hbuf, Hc. cbn [negb]. rewrite Hs.
      rewrite (bind_eq _ _ c line c) by reflexivity.
      unfold Py.bind at 1. cbn [Py.modify]. rewrite Hr.
      set (c1 := Connection.set_receive_buffer (buffered lines rest) c).
      assert (Hbuf1 : Connection.receive_buffer c1 = buffered lines rest) by (now destruct c).
      rewrite firstn_cons in Hms. cbn [parsed_lines] in Hms.
      destruct (String.eqb line "") eqn:Hempty.
      * rewrite (IH lines ms r a c1 Hlines Hbuf1 Hms). subst c1.
        now rewrite set_receive_buffer_twice.
      * unfold Py.bind at 1. rewrite auto_message_parse.
        destruct (parse line) as [m|e]; [|discriminate].
        destruct (parsed_lines (firstn n lines)) as [ms'|] eqn:Hms'; [|discriminate].
        injection Hms as <-. cbn [List.filter]. fold (returned mode m).
        destruct (returned mode m) eqn:Hret; cbn [negb].
        -- rewrite (IH lines ms' _ a c1 Hlines Hbuf1 Hms'). subst c1.
           rewrite set_receive_buffer_twice, <- List.app_assoc. reflexivity.
        -- rewrite (IH lines ms' r _ c1 Hlines Hbuf1 Hms'). subst c1.
           rewrite set_receive_buffer_twice, <- List.app_assoc. reflexivity.
Qed.

(** X19.  [process_messages] on a buffer that holds complete lines and then
    a partial line, when no channel waits to be removed: it takes the
    first [max_messages] lines off the buffer, empty lines counted, and
    classifies those that are not empty with [auto_message].  By [mode] a
    message is returned or put at the end of [receive_queue]: [-1]
    returns all, [0] the ChannelMessages, [1] the others, any other mode
    none.  The lines beyond [max_messages] and the partial line stay in
    the buffer. *)
Theorem process_messages_frames_lines `{Regex} (max_messages : nat) (mode : Z)
        (lines : list string) (rest : string) (ms : list AnyMessage)
        (c : Connection.t) :
  Forall (fun line => Py.contains Py.LF line = false) lines ->
  Py.contains Py.LF rest = false ->
  Connection.receive_buffer c = buffered lines rest ->
  Connection.channels_to_remove c = [] ->
  parsed_lines (firstn max_messages lines) = Some ms ->
  Connection.process_messages (Z.of_nat max_messages) mode c
  = (Py.Ok (List.filter (returned mode) ms),
     Connection.set_receive_queue
       (Connection.receive_queue c ++ List.filter (fun m => negb (returned mode m)) ms)
       (Connection.set_receive_buffer (buffered (skipn max_messages lines) rest) c)).
Proof.
  intros Hlines Hrest Hbuf Hmarks Hms. unfold Connection.process_messages.
  unfold Py.bind at 1. unfold Connection._remove_parted_channels.
  unfold Py.bind at 1. cbn [Py.gets]. rewrite Hmarks. cbn [Py.for_each Py.ret].
  rewrite Nat2Z.id.
  rewrite (bind_eq _ _ _ _ _
             (process_loop_lines mode rest Hrest max_messages lines ms [] [] c
                Hlines Hbuf Hms)).
  cbn. now destruct c.
Qed.

Lemma process_messages_frames_lines_witness :
  @Connection.process_messages no_tagged_lines (Z.of_nat 2) 2
    (Connection.set_receive_buffer
       (buffered [":tmi.twitch.tv 001 bot :Welcome"; ""; ":tmi.twitch.tv 002 bot :Your host"]
                 ":tmi.twitch.tv 003") fresh)
  = (Py.Ok [],
     Connection.set_receive_queue
       [Raw (Message.__init__ ":tmi.twitch.tv 001 bot :Welcome")]
       (Connection.set_receive_buffer
          (buffered [":tmi.twitch.tv 002 bot :Your host"] ":tmi.twitch.tv 003") fresh)).
Proof.
  exact (@process_messages_frames_lines no_tagged_lines 2 2
           [":tmi.twitch.tv 001 bot :Welcome"; ""; ":tmi.twitch.tv 002 bot :Your host"]
           ":tmi.twitch.tv 003"
           [Raw (Message.__init__ ":tmi.twitch.tv 001 bot :Welcome")]
           (Connection.set_receive_buffer
              (buffered [":tmi.twitch.tv 001 bot :Welcome"; "";
                         ":tmi.twitch.tv 002 bot :Your host"]
                        ":tmi.twitch.tv 003") fresh)
           ltac:(repeat constructor) eq_refl eq_refl eq_refl eq_refl).
Defined.

Lemma process_loop_error `{Regex} (mode : Z) (rest : string) (bad : string) (e : Py.Exn)
      (more : list string) :
  String.eqb bad "" = false -> Py.contains Py.LF bad = false ->
  parse bad = Py.Raise e ->
  forall (good : list string) (ms : list AnyMessage) (n : nat)
         (r a : list AnyMessage) (c : Connection.t),
    Forall (fun line => Py.contains Py.LF line = false) good ->
    Connection.receive_buffer c = buffered (good ++ bad :: more) rest ->
    parsed_lines good = Some ms ->
    (length good < n)%nat ->
    Connection.process_loop n mode r a c
    = (Py.Raise e, Connection.set_receive_buffer (buffered more rest) c).
Proof.
  intros Hne Hbad He. induction good as [|line good IH]; intros ms n r a c Hgood Hbuf Hms Hn.
  - destruct n as [|n]; [cbn in Hn; lia|].
    cbn [app buffered fold_right] in Hbuf. fold (buffered more rest) in Hbuf.
    destruct (first_line bad (buffered more rest) Hbad) as (Hc & Hs & Hr).
    cbn [Connection.process_loop].
    rewrite (bind_eq _ _ c (Connection.receive_buffer c) c) by reflexivity.
    rewrite Hbuf, Hc. cbn [negb]. rewrite Hs.
    rewrite (bind_eq _ _ c bad c) by reflexivity.
    unfold Py.bind at 1. cbn [Py.modify]. rewrite Hr, Hne.
    unfold Py.bind at 1. rewrite auto_message_parse, He. reflexivity.
  - destruct n as [|n]; [cbn in Hn; lia|].
    apply Forall_cons_iff in Hgood as [Hline Hgood].
    cbn [app buffered fold_right] in Hbuf. fold (buffered (good ++ bad :: more) rest) in Hbuf.
    destruct (first_line line (buffered (good ++ bad :: more) rest) Hline) as (Hc & Hs & Hr).
    cbn [Connection.process_loop].
    rewrite (bind_eq _ _ c (Connection.receive_buffer c) c) by reflexivity.
    rewrite Hbuf, Hc. cbn [negb]. rewrite Hs.
    rewrite (bind_eq _ _ c line c) by reflexivity.
    unfold Py.bind at 1. cbn [Py.modify]. rewrite Hr.
    set (c1 := Connection.set_receive_buffer (buffered (good ++ bad :: more) rest) c).
    assert (Hbuf1 : Connection.receive_buffer c1 = buffered (good ++ bad :: more) rest)
      by (now destruct c).
    cbn [parsed_lines] in Hms. cbn [length] in Hn.
    destruct (String.eqb line "") eqn:Hempty.
    + rewrite (IH ms n r a c1 Hgood Hbuf1 Hms) by lia. subst c1.
      now rewrite set_receive_buffer_twice.
    + unfold Py.bind at 1. rewrite auto_message_parse.
      destruct (parse line) as [m|e']; [|discriminate].
      destruct (parsed_lines good) as [ms'|] eqn:Hms'; [|discriminate].
      destruct (if Connection.is_channel_message m then _ else _).
      * rewrite (IH ms' n _ a c1 Hgood Hbuf1 eq_refl) by lia. subst c1.
        now rewrite set_receive_buffer_twice.
      * rewrite (IH ms' n r _ c1 Hgood Hbuf1 eq_refl) by lia. subst c1.
        now rewrite set_receive_buffer_twice.
Qed.

(** X20.  When [auto_message] raises on a line, [process_messages] raises
    the same exception.  The lines before that line and the line itself
    are gone from the buffer, and the messages of the lines before it are
    lost: they were not returned and [receive_queue] is as it was. *)
Theorem process_messages_loses_the_batch_on_error `{Regex} (max_messages : nat) (mode : Z)
        (good : list string) (bad : string) (more : list string) (rest : string)
        (ms : list AnyMessage) (e : Py.Exn) (c : Connection.t) :
  Forall (fun line => Py.contains Py.LF line = false) good ->
  Py.contains Py.LF bad = false -> bad <> "" ->
  Connection.receive_buffer c = buffered (good ++ bad :: more) rest ->
  Connection.channels_to_remove c = [] ->
  parsed_lines good = Some ms ->
  parse bad = Py.Raise e ->
  (length good < max_messages)%nat ->
  Connection.process_messages (Z.of_nat max_messages) mode c
  = (Py.Raise e, Connection.set_receive_buffer (buffered more rest) c).
Proof.
  intros Hgood Hbad Hne Hbuf Hmarks Hms He Hn. unfold Connection.process_messages.
  unfold Py.bind at 1. unfold Connection._remove_parted_channels.
  unfold Py.bind at 1. cbn [Py.gets]. rewrite Hmarks. cbn [Py.for_each Py.ret].
  rewrite Nat2Z.id. unfold Py.bind at 1.
  rewrite (process_loop_error mode rest bad e more
             ltac:(now apply String.eqb_neq) Hbad He good ms max_messages [] [] c
             Hgood Hbuf Hms Hn).
  reflexivity.
Qed.

Lemma process_messages_loses_the_batch_on_error_witness :
  @Connection.process_messages notice_without_id (Z.of_nat 100) 2
    (Connection.set_receive_buffer
       (buffered ["PING :tmi.twitch.tv"; "@x=y :tmi.twitch.tv NOTICE #foo :hi"] "") fresh)
  = (Py.Raise (Py.KeyError "msg-id"),
     Connection.set_receive_buffer (buffered [] "") fresh).
Proof.
  refine (@process_messages_loses_the_batch_on_error notice_without_id 100 2
            ["PING :tmi.twitch.tv"] "@x=y :tmi.twitch.tv NOTICE #foo :hi" [] ""
            [Raw (Message.__init__ "PING :tmi.twitch.tv")] (Py.KeyError "msg-id")
            (Connection.set_receive_buffer
               (buffered ["PING :tmi.twitch.tv"; "@x=y :tmi.twitch.tv NOTICE #foo :hi"] "")
               fresh)
            _ eq_refl _ eq_refl eq_refl eq_refl eq_refl _).
  - repeat constructor.
  - discriminate.
  - cbn. lia.
Defined.

Lemma list_remove_perm (x : string) (l : list string) :
  x ∈ l -> exists l', Py.list_remove String.eqb x l = Some l' /\ l ≡ₚ x :: l'.
Proof.
  induction l as [|y l IH]; intros Hin; [now apply elem_of_nil in Hin|].
  cbn [Py.list_remove]. destruct (String.eqb x y) eqn:E.
  - apply String.eqb_eq in E as ->. eauto.
  - apply String.eqb_neq in E. apply elem_of_cons in Hin as [->|Hin]; [contradiction|].
    destruct (IH Hin) as (l' & -> & Hp). exists (y :: l'). split; [reflexivity|].
    rewrite Hp. apply Permutation_swap.
Qed.


Lemma remove_parted_channels_loop c :
  Connection._remove_parted_channels c
  = Py.for_each (Connection.channels_to_remove c) remove_if_drained c.
Proof. reflexivity. Qed.

Lemma remove_if_drained_run (x : string) (c : Connection.t) :
  remove_if_drained x c
  = match Connection.queue c !! x with
    | None => (Py.Raise (Py.KeyError x), c)
    | Some (_ :: _) => (Py.Ok tt, c)
    | Some [] =>
        match Py.list_remove String.eqb x (Connection.channels_to_remove c) with
        | None => (Py.Raise Py.ValueError, c)
        | Some l' =>
            match Connection.message_wait c !! x with
            | None => (Py.Raise (Py.KeyError x), Connection.set_channels_to_remove l' c)
            | Some _ =>
                (Py.Ok tt,
                 Connection.set_queue (delete x (Connection.queue c))
                   (Connection.set_message_wait (delete x (Connection.message_wait c))
                      (Connection.set_channels_to_remove l' c)))
            end
        end
    end.
Proof.
  unfold remove_if_drained, Connection.queue_at, Connection.message_wait_at,
    Py.bind, Py.gets, Py.modify, Py.ret, Py.raise.
  destruct c as [cd ad po so qu rq rb mw hs cc cr wi cl]; cbn.
  destruct (qu !! x) as [[|p q]|] eqn:Hx; try reflexivity. cbn.
  destruct (Py.list_remove String.eqb x cr); [|reflexivity]. cbn.
  destruct (mw !! x); [|reflexivity]. cbn. now rewrite Hx.
Qed.

(** The loop of [_remove_parted_channels] when a channel still to be
    visited has no queue. *)
Lemma remove_loop_raises (i : string) (pending : list string) :
  forall c,
    pending ⊆+ Connection.channels_to_remove c ->
    i ∈ pending ->
    Connection.queue c !! i = None ->
    exists k c',
      Py.for_each pending remove_if_drained c = (Py.Raise (Py.KeyError k), c') /\
      i ∈ Connection.channels_to_remove c' /\
      Connection.queue c' !! i = None /\
      Connection.receive_buffer c' = Connection.receive_buffer c /\
      Connection.receive_queue c' = Connection.receive_queue c.
Proof.
  induction pending as [|x pending IH]; intros c Hsub Hin Hq;
    [now apply elem_of_nil in Hin|].
  cbn [Py.for_each]. unfold Py.bind. rewrite remove_if_drained_run.
  destruct (Connection.queue c !! x) as [q|] eqn:Hx.
  2:{ exists x, c. repeat split; auto.
      eapply elem_of_submseteq; [exact Hin|exact Hsub]. }
  assert (Hne : x <> i) by congruence.
  apply elem_of_cons in Hin as [->|Hin]; [congruence|].
  apply submseteq_cons_l in Hsub as (k' & Hperm & Hsub).
  destruct q as [|p q].
  2:{ apply IH; auto. rewrite Hperm. now apply submseteq_cons. }
  destruct (list_remove_perm x (Connection.channels_to_remove c)) as (l' & -> & Hperm').
  { rewrite Hperm. now left. }
  assert (Hsub' : pending ⊆+ l').
  { rewrite Hperm in Hperm'. apply Permutation_cons_inv in Hperm'. now rewrite <- Hperm'. }
  destruct (Connection.message_wait c !! x) as [w|] eqn:Hw.
  2:{ exists x, (Connection.set_channels_to_remove l' c).
      destruct c; cbn in *. repeat split; auto.
      eapply elem_of_submseteq; [exact Hin|exact Hsub']. }
  set (c3 := Connection.set_queue _ _).
  destruct (IH c3) as (k & c' & E & H1 & H2 & H3 & H4).
  { subst c3. now destruct c. }
  { exact Hin. }
  { subst c3. destruct c; cbn in *. now rewrite lookup_delete_ne. }
  exists k, c'. rewrite E. repeat split; auto.
  all: first [rewrite H3 | rewrite H4]; subst c3; now destruct c.
Qed.

(** X21.  While a channel marked for departure has no queue,
    [process_messages] raises [KeyError] before it looks at the receive
    buffer: the buffer and [receive_queue] are left as they were, and
    the channel is still marked and without a queue afterwards, so the
    next call raises again. *)
Theorem parted_channel_without_queue_blocks_processing `{Regex} (max_messages mode : Z)
        (i : string) (c : Connection.t) :
  In i (Connection.channels_to_remove c) ->
  Connection.queue c !! i = None ->
  exists k c',
    Connection.process_messages max_messages mode c = (Py.Raise (Py.KeyError k), c') /\
    In i (Connection.channels_to_remove c') /\
    Connection.queue c' !! i = None /\
    Connection.receive_buffer c' = Connection.receive_buffer c /\
    Connection.receive_queue c' = Connection.receive_queue c.
Proof.
  intros Hin Hq. apply list_elem_of_In in Hin.
  destruct (remove_loop_raises i (Connection.channels_to_remove c) c
              ltac:(reflexivity) Hin Hq) as (k & c' & E & H1 & H2 & H3 & H4).
  exists k, c'. split.
  - unfold Connection.process_messages. unfold Py.bind at 1.
    now rewrite remove_parted_channels_loop, E.
  - apply list_elem_of_In in H1. auto.
Qed.

Lemma parted_channel_without_queue_blocks_processing_witness :
  exists k c',
    @Connection.process_messages no_tagged_lines 100 2
      (snd (@Connection.part loaded_at_zero "foo" fresh))
    = (Py.Raise (Py.KeyError k), c') /\
    In "foo" (Connection.channels_to_remove c') /\
    Connection.queue c' !! "foo" = None /\
    Connection.receive_buffer c' = "" /\
    Connection.receive_queue c' = [].
Proof.
  apply (@parted_channel_without_queue_blocks_processing no_tagged_lines 100 2 "foo"
           (snd (@Connection.part loaded_at_zero "foo" fresh))).
  - vm_compute. now left.
  - vm_compute. reflexivity.
Defined.

(* ===================================================================== *)
(** ** Checks, registration and the unknown command *)
(* ===================================================================== *)

(** [check_permissions] in closed form. *)
Lemma check_permissions_run `{PermissionList} message permissions bypass hs b :
  Bot.handlers b !! "permission_error" = Some hs ->
  Bot.check_permissions message permissions bypass b
  = let missing := missing_of (Bot.permissions b) message permissions bypass in
    (Py.Ok missing,
     match missing with
     | [] => b
     | _ :: _ => Bot.set_calls
                   (Bot.calls b ++ permission_error_calls hs message None missing)%list b
     end).
Proof.
  intros Hh. unfold Bot.check_permissions, missing_of.
  unfold Py.bind at 1. cbn [Py.gets].
  assert (Hfin : forall missing,
    (match missing with
     | [] => Py.ret tt
     | _ :: _ => Bot.call_handlers "permission_error"
                   (PermissionErrorArgs message None missing)
     end ;;; Py.ret missing) b
    = (Py.Ok missing,
       match missing with
       | [] => b
       | _ :: _ => Bot.set_calls
                     (Bot.calls b ++ permission_error_calls hs message None missing)%list b
       end)).
  { intros [|p l]; [reflexivity|]. unfold Py.bind.
    now rewrite (call_handlers_run _ _ hs b Hh). }
  destruct (Bot.permissions b !! ChannelMessage.user message); [|apply Hfin].
  destruct (Bot.has (get_permission_state (Bot.permissions b) message) GLOBAL_BYPASS_PERMISSION
            || bypass && Bot.has (get_permission_state (Bot.permissions b) message)
                           (LOCAL_BYPASS_PERMISSION_TEMPLATE (ChannelMessage.channel message)));
    [reflexivity|apply Hfin].
Qed.

(** X22.  [check_permissions], called with the required permissions and the
    bypass setting of a command, returns the list that
    [check_permissions_from_command] returns for the command, without
    raising; a user without an entry in the permission store misses every
    required permission.  When the list is not empty both call every
    [permission_error] handler, once, with the message and the list:
    [check_permissions] passes [None] as the command. *)
Theorem check_permissions_decides_like_the_command_check `{PermissionList}
        (message : ChannelMessage.t) (command : Command.t) (hs : list Callable)
        (b : Bot.t) :
  Bot.handlers b !! "permission_error" = Some hs ->
  exists missing b1 b2,
    Bot.check_permissions message (Command.permissions_required command)
      (Command.enable_local_bypass command) b = (Py.Ok missing, b1) /\
    Bot.check_permissions_from_command message command b = (Py.Ok missing, b2) /\
    (Bot.permissions b !! ChannelMessage.user message = None ->
     missing = Command.permissions_required command) /\
    match missing with
    | [] => b1 = b /\ b2 = b
    | _ :: _ =>
        b1 = Bot.set_calls
               (Bot.calls b ++ permission_error_calls hs message None missing) b /\
        b2 = Bot.set_calls
               (Bot.calls b ++ permission_error_calls hs message (Some command) missing) b
    end.
Proof.
  intros Hh.
  rewrite (check_permissions_run message _ _ hs b Hh).
  rewrite (check_permissions_from_command_run message command hs b Hh).
  cbv zeta.
  change (missing_of (Bot.permissions b) message (Command.permissions_required command)
            (Command.enable_local_bypass command))
    with (missing_for (Bot.permissions b) message command).
  eexists _, _, _. split; [reflexivity|]. split; [reflexivity|]. split.
  - intros Hu. unfold missing_for. now rewrite Hu.
  - destruct (missing_for (Bot.permissions b) message command); split; reflexivity.
Qed.

Lemma check_permissions_decides_like_the_command_check_witness :
  exists missing b1 b2,
    @Bot.check_permissions stored_permissions (ChannelMessage.__init__ "!quit" "bob" "foo")
      (Command.permissions_required quit_command)
      (Command.enable_local_bypass quit_command) quit_bot = (Py.Ok missing, b1) /\
    @Bot.check_permissions_from_command stored_permissions
      (ChannelMessage.__init__ "!quit" "bob" "foo") quit_command quit_bot
    = (Py.Ok missing, b2) /\
    (Bot.permissions quit_bot !! ChannelMessage.user (ChannelMessage.__init__ "!quit" "bob" "foo")
     = None ->
     missing = Command.permissions_required quit_command) /\
    match missing with
    | [] => b1 = quit_bot /\ b2 = quit_bot
    | _ :: _ =>
        b1 = Bot.set_calls
               (Bot.calls quit_bot
                  ++ permission_error_calls ["no_permission"]
                       (ChannelMessage.__init__ "!quit" "bob" "foo") None missing) quit_bot /\
        b2 = Bot.set_calls
               (Bot.calls quit_bot
                  ++ permission_error_calls ["no_permission"]
                       (ChannelMessage.__init__ "!quit" "bob" "foo") (Some quit_command) missing)
               quit_bot
    end.
Proof.
  apply (@check_permissions_decides_like_the_command_check stored_permissions).
  vm_compute. reflexivity.
Defined.

Lemma prefix_refl (a : string) : String.prefix a a = true.
Proof. induction a as [|c a IH]; [reflexivity|]. now rewrite prefix_cons, Ascii.eqb_refl. Qed.

Lemma prefix_pass_app `{PermissionList} store hs prefix l1 l2 message :
  prefix_pass store hs prefix (l1 ++ l2) message
  = (prefix_pass store hs prefix l1 message ++ prefix_pass store hs prefix l2 message)%list.
Proof. unfold prefix_pass. apply flat_map_app. Qed.

(** X23.  A command registered with [add_command], without a forced
    prefix, is called for a message whose text is the active prefix and
    the name of the command, followed by a space and anything or, when
    prefix and name have no space, by nothing: the text then gets a space
    at its end.  It is called once, after what the commands registered
    before it call for the message, its function if the user passes the
    permission check. *)
Theorem added_command_answers_to_its_name `{PermissionList} (b b1 : Bot.t)
        (name : string) (bypass : bool) (required : list string) (func : Callable)
        (cmd : Command.t) (hs : list Callable) (message : ChannelMessage.t)
        (rest : string) :
  Bot.handlers b !! "permission_error" = Some hs ->
  Bot.add_command name None bypass required func b = (Py.Ok cmd, b1) ->
  ChannelMessage.text message = Bot.prefix b ++ name ++ rest ->
  (rest = "" /\ Py.contains " " (Bot.prefix b ++ name) = false) \/
  Py.startswith rest " " = true ->
  let message' := Bot.with_trailing_space message in
  Bot.commands b1 = (Bot.commands b ++ [cmd])%list /\
  Bot._call_command_handlers message b1
  = (Py.Ok message',
     Bot.set_calls
       (Bot.calls b
          ++ prefix_pass (Bot.permissions b) hs (Bot.prefix b) (Bot.commands b) message'
          ++ invocation (Bot.permissions b) hs cmd message') b1) /\
  (required = [] ->
   invocation (Bot.permissions b) hs cmd message' = [FunctionCall func message']).
Proof.
  intros Hh Hadd Htext Hrest message'.
  unfold Bot.add_command, Py.bind, Py.modify, Py.ret in Hadd. injection Hadd as <- <-.
  set (cmd := Command.set_permissions_required _ _).
  set (b1 := Bot.set_commands _ b).
  assert (Hp1 : Bot.prefix b1 = Bot.prefix b) by (subst b1; now destruct b).
  assert (Hc1 : Bot.commands b1 = (Bot.commands b ++ [cmd])%list) by (subst b1; now destruct b).
  assert (Hs1 : Bot.permissions b1 = Bot.permissions b) by (subst b1; now destruct b).
  assert (Hl1 : Bot.calls b1 = Bot.calls b) by (subst b1; now destruct b).
  assert (Hh1 : Bot.handlers b1 !! "permission_error" = Some hs) by (subst b1; now destruct b).
  clearbody b1.
  assert (Hstart : Py.startswith (ChannelMessage.text message) (Bot.prefix b1) = true).
  { rewrite Htext, Hp1. unfold Py.startswith. apply prefix_app. }
  assert (Hcmd : Py.startswith (ChannelMessage.text message')
                   (Bot.prefix b ++ Command.ef_command cmd) = true).
  { subst message'. unfold Bot.with_trailing_space, Py.startswith. rewrite Htext.
    cbn [Command.ef_command cmd Command.set_permissions_required Command.__init__].
    destruct Hrest as [[-> Hns]|Hsp].
    - rewrite (append_nil_r name). rewrite Hns. cbn [negb ChannelMessage.text ChannelMessage.set_text].
      rewrite append_assoc. apply prefix_refl.
    - destruct rest as [|c rest]; [discriminate|].
      unfold Py.startswith in Hsp. rewrite prefix_cons, prefix_nil, andb_true_r in Hsp.
      apply Ascii.eqb_eq in Hsp as <-.
      rewrite !contains_char_app, contains_char_cons, Ascii.eqb_refl.
      cbn [orb]. rewrite !orb_true_r. cbn [negb].
      replace (Bot.prefix b ++ name ++ String " " rest)
        with ((Bot.prefix b ++ name ++ " ") ++ rest)
        by (rewrite !append_assoc; reflexivity).
      rewrite Htext.
      replace (Bot.prefix b ++ name ++ String " " rest)
        with ((Bot.prefix b ++ name ++ " ") ++ rest)
        by (rewrite !append_assoc; reflexivity).
      apply prefix_app. }
  assert (Hex : existsb (handles (Bot.prefix b1) message') (Bot.commands b1) = true).
  { rewrite Hp1, Hc1, existsb_app. cbn [existsb].
    unfold handles at 2. rewrite Hcmd. now rewrite !orb_true_r. }
  split; [exact Hc1|]. split.
  - rewrite (call_command_handlers_handled message hs b1 Hh1 Hstart Hex).
    fold message'. rewrite Hp1, Hc1, Hs1, Hl1.
    assert (Hlast : prefix_pass (Bot.permissions b) hs (Bot.prefix b) [cmd] message'
                    = invocation (Bot.permissions b) hs cmd message').
    { unfold prefix_pass. cbn [flat_map]. unfold tried_with_prefix.
      replace (Command.matcher_function cmd) with (@None (ChannelMessage.t -> bool))
        by reflexivity.
      rewrite Hcmd. cbn [app]. apply List.app_nil_r. }
    now rewrite prefix_pass_app, Hlast.
  - intros ->. reflexivity.
Qed.

Lemma added_command_answers_to_its_name_witness :
  @Bot._call_command_handlers stored_permissions (ChannelMessage.__init__ "!hello" "bob" "foo")
    (snd (Bot.add_command "hello" None true [] "say_hello" plain_bot))
  = (Py.Ok (Bot.with_trailing_space (ChannelMessage.__init__ "!hello" "bob" "foo")),
     Bot.set_calls
       [FunctionCall "say_hello"
          (Bot.with_trailing_space (ChannelMessage.__init__ "!hello" "bob" "foo"))]
       (snd (Bot.add_command "hello" None true [] "say_hello" plain_bot))).
Proof.
  pose proof (@added_command_answers_to_its_name stored_permissions plain_bot
                (snd (Bot.add_command "hello" None true [] "say_hello" plain_bot))
                "hello" true [] "say_hello"
                (Command.set_permissions_required []
                   (Command.__init__ "hello" "say_hello" None true None))
                ["no_permission"] (ChannelMessage.__init__ "!hello" "bob" "foo") ""
                eq_refl eq_refl eq_refl (or_introl (conj eq_refl eq_refl))) as (_ & E & _).
  exact E.
Defined.

Lemma no_cr_no_crlf (s : string) :
  Py.contains Py.CR s = false -> Py.contains Py.CRLF s = false.
Proof.
  unfold Py.CR, Py.CRLF. induction s as [|c s IH]; intros Hs; [reflexivity|].
  rewrite contains_char_cons in Hs. apply orb_false_elim in Hs as [Hc Hs].
  cbn [Py.contains]. now rewrite (IH Hs), orb_false_r, prefix_cons, Hc.
Qed.

(** [repr] writes no carriage return: it escapes it. *)
Lemma repr_char_without_cr (quote c : ascii) :
  quote = Py.SQUOTE \/ quote = Py.DQUOTE ->
  Py.contains Py.CR (Py.repr_char quote c) = false.
Proof.
  intros [-> | ->]; destruct c as [[] [] [] [] [] [] [] []]; reflexivity.
Qed.

Lemma repr_body_without_cr (quote : ascii) (s : string) :
  quote = Py.SQUOTE \/ quote = Py.DQUOTE ->
  Py.contains Py.CR (Py.repr_body quote s) = false.
Proof.
  intros Hq. induction s as [|c s IH]; [reflexivity|].
  cbn [Py.repr_body]. unfold Py.CR in *.
  rewrite contains_char_app, IH. fold Py.CR.
  now rewrite (repr_char_without_cr quote c Hq).
Qed.

Lemma repr_without_cr (s : string) : Py.contains Py.CR (Py.repr s) = false.
Proof.
  unfold Py.repr.
  destruct (Py.contains (String Py.SQUOTE "") s && negb (Py.contains (String Py.DQUOTE "") s)).
  - pose proof (repr_body_without_cr Py.DQUOTE s (or_intror eq_refl)) as Hb.
    unfold Py.CR in *. rewrite contains_char_cons, contains_char_app, Hb. reflexivity.
  - pose proof (repr_body_without_cr Py.SQUOTE s (or_introl eq_refl)) as Hb.
    unfold Py.CR in *. rewrite contains_char_cons, contains_char_app, Hb. reflexivity.
Qed.

(** The [repr] of a text of printable ASCII characters without single
    quote and backslash is the text between single quotes. *)
Lemma repr_body_plain (s : string) : plain s = true -> Py.repr_body Py.SQUOTE s = s.
Proof.
  unfold plain. induction s as [|c s IH]; intros Hs; [reflexivity|].
  cbn [list_ascii_of_string forallb] in Hs. apply andb_true_iff in Hs as [Hc Hs].
  cbn [Py.repr_body]. rewrite (IH Hs).
  destruct c as [[] [] [] [] [] [] [] []]; try discriminate Hc; reflexivity.
Qed.

Lemma plain_without_quote (s : string) :
  plain s = true -> Py.contains (String Py.SQUOTE "") s = false.
Proof.
  unfold plain. induction s as [|c s IH]; intros Hs; [reflexivity|].
  cbn [list_ascii_of_string forallb] in Hs. apply andb_true_iff in Hs as [Hc Hs].
  rewrite contains_char_cons, (IH Hs), orb_false_r.
  destruct (Ascii.eqb Py.SQUOTE c) eqn:E; [|reflexivity].
  apply Ascii.eqb_eq in E as <-. discriminate Hc.
Qed.

Lemma repr_plain (s : string) : plain s = true -> Py.repr s = "'" ++ s ++ "'".
Proof.
  intros Hs. unfold Py.repr. rewrite (plain_without_quote s Hs). cbn [andb].
  now rewrite (repr_body_plain s Hs).
Qed.

(** The dispatcher on a text with the active prefix that no command
    handles. *)
Lemma call_command_handlers_unhandled `{PermissionList} message hs b :
  Bot.handlers b !! "permission_error" = Some hs ->
  Py.startswith (ChannelMessage.text message) (Bot.prefix b) = true ->
  existsb (handles (Bot.prefix b) (Bot.with_trailing_space message)) (Bot.commands b) = false ->
  Bot._call_command_handlers message b
  = (Bot._do_unknown_command (Bot.with_trailing_space message) ;;;
     Py.ret (Bot.with_trailing_space message)) b.
Proof.
  intros Hh Hp Hex. unfold Bot._call_command_handlers.
  rewrite (bind_eq _ _ b (Bot.prefix b) b) by reflexivity. rewrite Hp.
  rewrite (bind_eq _ _ b (Bot.commands b) b) by reflexivity.
  rewrite (bind_eq _ _ _ _ _
             (prefix_loop (Bot.with_trailing_space message) hs (Bot.commands b) b false Hh)).
  cbn [orb]. rewrite Hex. cbn [negb].
  assert (Hnone : prefix_pass (Bot.permissions b) hs (Bot.prefix b) (Bot.commands b)
                    (Bot.with_trailing_space message) = []).
  { revert Hex. unfold prefix_pass. induction (Bot.commands b) as [|h l IH]; [reflexivity|].
    cbn [existsb flat_map]. intros Hex. apply orb_false_elim in Hex as [Hh1 Hl].
    rewrite (IH Hl), List.app_nil_r. unfold handles in Hh1. unfold tried_with_prefix.
    apply orb_false_elim in Hh1 as [Hm Hs]. rewrite Hs.
    destruct (Command.matcher_function h) as [matcher|]; [now rewrite Hm|reflexivity]. }
  now rewrite Hnone, set_calls_nil.
Qed.

(** X24.  A message with the active prefix that no command handles is
    treated by [on_unknown_command], and no user callable is called:
    [ignore] and [warn] change nothing; [chat_message], outside replay
    mode and with a socket or with [hold_send] set, queues on the queue of
    the channel of the message the line [PRIVMSG #channel :Unknown
    command] followed by the [repr] of the first word of the text; any
    other value raises [Exception].  The first word is ASCII.  Its [repr]
    is the word between single quotes when the word has printable
    characters only and no single quote and no backslash. *)
Theorem unknown_command_follows_the_policy `{PermissionList} (b : Bot.t)
        (message : ChannelMessage.t) (hs : list Callable) (word args : string) :
  Bot.handlers b !! "permission_error" = Some hs ->
  Py.startswith (ChannelMessage.text message) (Bot.prefix b) = true ->
  existsb (handles (Bot.prefix b) (Bot.with_trailing_space message)) (Bot.commands b) = false ->
  ChannelMessage.text (Bot.with_trailing_space message) = word ++ " " ++ args ->
  Py.contains " " word = false -> Py.isascii word = true ->
  let message' := Bot.with_trailing_space message in
  let policy := Bot.on_unknown_command b in
  (policy = "ignore" \/ policy = "warn" ->
   Bot._call_command_handlers message b = (Py.Ok message', b)) /\
  (policy = "chat_message" ->
   Bot._in_rc_mode b = false ->
   Connection.socket (Bot.conn b) <> None \/ Connection.hold_send (Bot.conn b) = true ->
   Bot._call_command_handlers message b
   = (Py.Ok message',
      Bot.set_conn
        (enqueued (Bot.conn b) (ChannelMessage.channel message)
           ("PRIVMSG #" ++ ChannelMessage.channel message ++ " :Unknown command "
              ++ Py.repr word ++ Py.CRLF)) b)) /\
  (policy <> "ignore" -> policy <> "warn" -> policy <> "chat_message" ->
   Bot._call_command_handlers message b
   = (Py.Raise (Py.Exception
        "Invalid handler in `on_unknown_command`. Valid options: warn, chat_message, ignore."),
      b)) /\
  (plain word = true -> Py.repr word = "'" ++ word ++ "'").
Proof.
  intros Hh Hp Hex Htext Hword Hascii message' policy. subst policy.
  assert (Hrun : Bot._call_command_handlers message b
                 = let (o, s') :=
                     (let policy := Bot.on_unknown_command b in
                      if String.eqb policy "warn" then Py.ret tt
                      else if String.eqb policy "chat_message" then
                        let* word := Py.index (Py.split " " (Some 1%nat)
                                                 (ChannelMessage.text message')) 0 in
                        let msg := ChannelMessage.reply message'
                                     ("Unknown command " ++ Py.repr word) in
                        Bot.send (Msg (Channel msg)) (ChannelMessage.channel msg)
                      else if String.eqb policy "ignore" then Py.ret tt
                      else Py.raise (Py.Exception
        "Invalid handler in `on_unknown_command`. Valid options: warn, chat_message, ignore."))
                       b in
                   match o with
                   | Py.Ok _ => (Py.Ok message', s')
                   | Py.Raise e => (Py.Raise e, s')
                   end).
  { rewrite (call_command_handlers_unhandled message hs b Hh Hp Hex). reflexivity. }
  rewrite Hrun. clear Hrun. cbv zeta.
  split; [|split; [|split]].
  - intros [->| ->]; reflexivity.
  - intros Hpol Hrc Hconn. rewrite Hpol. cbn [String.eqb Ascii.eqb Bool.eqb].
    fold message' in Htext. rewrite Htext.
    change (word ++ " " ++ args) with (word ++ String " " args).
    rewrite (split_word " " 0 word args Hword), split_exhausted.
    rewrite (bind_eq _ _ b word b) by reflexivity.
    unfold Bot.send. rewrite (bind_eq _ _ b false b) by (unfold Py.gets; now rewrite Hrc).
    unfold Bot.super, Py.lift.
    set (reply := ChannelMessage.reply message' _).
    assert (Hroute : routed (Msg (Channel reply)) (ChannelMessage.channel reply)
                     = Some (ChannelMessage.channel message)).
    { subst reply message'. unfold Bot.with_trailing_space.
      destruct (negb _); reflexivity. }
    rewrite (send_run _ _ _ (Bot.conn b) Hroute).
    2:{ destruct Hconn as [Hs|Hhold]; [|rewrite Hhold; apply orb_true_r].
        now rewrite bool_decide_eq_true_2. }
    cbn [to_bytes message_bytes]. subst reply.
    unfold ChannelMessage.__bytes__, ChannelMessage.reply. cbn -[Py.replace enqueued Py.repr].
    rewrite replace_crlf_id.
    + replace (ChannelMessage.channel message') with (ChannelMessage.channel message)
        by (subst message'; unfold Bot.with_trailing_space; destruct (negb _); reflexivity).
      rewrite !append_assoc. reflexivity.
    + apply no_cr_no_crlf. unfold Py.CR.
      rewrite !contains_char_app. fold Py.CR. rewrite (repr_without_cr word).
      reflexivity.
  - intros H1 H2 H3.
    apply String.eqb_neq in H1, H2, H3. now rewrite H2, H3, H1.
  - apply repr_plain.
Qed.

Lemma unknown_command_follows_the_policy_witness :
  @Bot._call_command_handlers stored_permissions
    (ChannelMessage.__init__ "!don't stop" "bob" "foo") chatty_bot
  = (Py.Ok (ChannelMessage.__init__ "!don't stop" "bob" "foo"),
     Bot.set_conn
       (enqueued (Bot.conn chatty_bot) "foo"
          ("PRIVMSG #foo :Unknown command "
             ++ String Py.DQUOTE ("!don't" ++ String Py.DQUOTE Py.CRLF))) chatty_bot).
Proof.
  refine (proj1 (proj2 (@unknown_command_follows_the_policy stored_permissions chatty_bot
                   (ChannelMessage.__init__ "!don't stop" "bob" "foo") ["no_permission"]
                   "!don't" "stop" _ eq_refl eq_refl eq_refl eq_refl eq_refl)) eq_refl eq_refl _).
  - vm_compute. reflexivity.
  - left. discriminate.
Defined.

(* ===================================================================== *)
(** ** Replay, shutdown and the tick *)
(* ===================================================================== *)

Example zero_padded_id : Py.rjust 12 "0" (Py.str_of_nat 7) = "000000000007".
Proof. reflexivity. Qed.




Section Replay.
Context `{PermissionList}.







End Replay.



Lemma connection_disconnect_run (c : Connection.t) :
  Connection.disconnect c
  = match Connection.socket c with
    | None => (Py.Raise Py.AttributeError, c)
    | Some _ =>
        (Py.Ok tt,
         Connection.set_socket None
           (Connection.set_wire (Connection.wire c ++ ["quit" ++ Py.CRLF]) c))
    end.
Proof.
  unfold Connection.disconnect, Py.bind, Py.gets.
  destruct (Connection.socket c); reflexivity.
Qed.

Lemma bot_disconnect_run (b : Bot.t) (pre post : list Callable) :
  Bot.handlers b !! "pre_disconnect" = Some pre ->
  Bot.handlers b !! "post_disconnect" = Some post ->
  Bot.disconnect b
  = match Connection.socket (Bot.conn b) with
    | None => (Py.Raise Py.AttributeError,
               Bot.set_calls (Bot.calls b ++ notified "pre_disconnect" pre) b)
    | Some _ =>
        (Py.Ok tt,
         Bot.set_conn
           (Connection.set_socket None
              (Connection.set_wire (Connection.wire (Bot.conn b) ++ ["quit" ++ Py.CRLF])
                 (Bot.conn b)))
           (Bot.set_calls
              (Bot.calls b ++ notified "pre_disconnect" pre ++ notified "post_disconnect" post)
              b))
    end.
Proof.
  intros Hpre Hpost. unfold Bot.disconnect.
  rewrite (bind_eq _ _ _ _ _ (call_handlers_run "pre_disconnect" NoArgs pre b Hpre)).
  fold (notified "pre_disconnect" pre).
  set (b1 := Bot.set_calls _ b).
  assert (Hc1 : Bot.conn b1 = Bot.conn b) by (now destruct b).
  unfold Py.bind at 1. unfold Bot.super at 1, Py.lift.
  rewrite connection_disconnect_run, Hc1.
  destruct (Connection.socket (Bot.conn b)) as [sock|] eqn:Hs; [|reflexivity].
  set (b2 := Bot.set_conn _ b1).
  assert (Hpost2 : Bot.handlers b2 !! "post_disconnect" = Some post) by (now destruct b).
  rewrite (call_handlers_run "post_disconnect" NoArgs post b2 Hpost2).
  fold (notified "post_disconnect" post).
  subst b2 b1. destruct b; cbn. now rewrite <- List.app_assoc.
Qed.

(** X26.  [Bot.disconnect] with a socket: the [pre_disconnect] handlers are
    called, the quit line is handed to the socket and the socket is
    dropped, then the [post_disconnect] handlers are called.  Without a
    socket the [pre_disconnect] handlers are called all the same, then
    [AttributeError] is raised and the [post_disconnect] handlers are not
    called. *)
Theorem bot_disconnect_notifies_around (b : Bot.t) (pre post : list Callable) :
  Bot.handlers b !! "pre_disconnect" = Some pre ->
  Bot.handlers b !! "post_disconnect" = Some post ->
  exists o b',
    Bot.disconnect b = (o, b') /\
    match Connection.socket (Bot.conn b) with
    | Some _ =>
        o = Py.Ok tt /\
        Bot.calls b'
        = (Bot.calls b ++ notified "pre_disconnect" pre
             ++ notified "post_disconnect" post)%list /\
        Connection.wire (Bot.conn b')
        = (Connection.wire (Bot.conn b) ++ [("quit" ++ Py.CRLF)%string])%list /\
        Connection.socket (Bot.conn b') = None
    | None =>
        o = Py.Raise Py.AttributeError /\
        Bot.calls b' = (Bot.calls b ++ notified "pre_disconnect" pre)%list /\
        Bot.conn b' = Bot.conn b
    end.
Proof.
  intros Hpre Hpost. rewrite (bot_disconnect_run b pre post Hpre Hpost).
  destruct (Connection.socket (Bot.conn b)) as [sock|] eqn:Hs.
  - eexists _, _. split; [reflexivity|].
    destruct b as [c ? ? ? ? ? ? ? ? ?]; destruct c; cbn. repeat split; reflexivity.
  - eexists _, _. split; [reflexivity|].
    destruct b; cbn. repeat split; reflexivity.
Qed.

Lemma bot_disconnect_notifies_around_witness :
  exists b',
    Bot.disconnect watched_bot = (Py.Ok tt, b') /\
    Bot.calls b'
    = (Bot.calls watched_bot
       ++ [HandlerCall "say_bye" "pre_disconnect" NoArgs;
           HandlerCall "clean_up" "post_disconnect" NoArgs])%list /\
    Connection.wire (Bot.conn b')
    = (Connection.wire (Bot.conn watched_bot) ++ [("quit" ++ Py.CRLF)%string])%list /\
    Connection.socket (Bot.conn b') = None.
Proof.
  assert (Hpre : Bot.handlers watched_bot !! "pre_disconnect" = Some ["say_bye"])
    by (vm_compute; reflexivity).
  assert (Hpost : Bot.handlers watched_bot !! "post_disconnect" = Some ["clean_up"])
    by (vm_compute; reflexivity).
  destruct (bot_disconnect_notifies_around watched_bot ["say_bye"] ["clean_up"] Hpre Hpost)
    as (o & b' & Hrun & Hm).
  assert (Hs : Connection.socket (Bot.conn watched_bot)
               = Some (TcpSocket "irc.chat.twitch.tv" 6667)) by reflexivity.
  rewrite Hs in Hm. destruct Hm as (-> & Hc & Hw & Hsock).
  exists b'. repeat split; assumption.
Defined.

(** X27.  [stop] does nothing on a bot without a socket.  With a socket and
    without a storage, as the constructor leaves the bot by default, it
    calls the [pre_save] handlers and raises [AttributeError]: the bot is
    not disconnected and the [post_save] handlers are not called.  With a
    storage it calls the [pre_save] handlers, [save], the [post_save]
    handlers and [Bot.disconnect], in that order. *)
Theorem stop_needs_a_storage (b : Bot.t) (pre_save : list Callable) :
  Bot.handlers b !! "pre_save" = Some pre_save ->
  (Connection.socket (Bot.conn b) = None ->
   forall storage, Bot.stop storage b = (Py.Ok tt, b)) /\
  (Connection.socket (Bot.conn b) <> None ->
   Bot.stop None b
   = (Py.Raise Py.AttributeError,
      Bot.set_calls (Bot.calls b ++ notified "pre_save" pre_save) b) /\
   forall save,
     Bot.stop (Some save) b
     = (save ;;; Bot.call_handlers "post_save" NoArgs ;;; Bot.disconnect)
         (Bot.set_calls (Bot.calls b ++ notified "pre_save" pre_save) b)).
Proof.
  intros Hh. unfold Bot.stop. split.
  - intros Hs storage. unfold Py.bind at 1. cbn [Py.gets]. now rewrite Hs.
  - intros Hs. destruct (Connection.socket (Bot.conn b)) as [sock|] eqn:E; [|contradiction].
    split.
    + rewrite (bind_eq _ _ b (Some sock) b) by (unfold Py.gets; now rewrite E).
      rewrite (bind_eq _ _ _ _ _ (call_handlers_run "pre_save" NoArgs pre_save b Hh)).
      reflexivity.
    + intros save.
      rewrite (bind_eq _ _ b (Some sock) b) by (unfold Py.gets; now rewrite E).
      rewrite (bind_eq _ _ _ _ _ (call_handlers_run "pre_save" NoArgs pre_save b Hh)).
      reflexivity.
Qed.

Lemma stop_needs_a_storage_witness :
  Bot.stop None running_bot
  = (Py.Raise Py.AttributeError,
     Bot.set_calls (Bot.calls running_bot ++ notified "pre_save" []) running_bot).
Proof.
  refine (proj1 (proj2 (stop_needs_a_storage running_bot [] _) _)).
  - vm_compute. reflexivity.
  - vm_compute. discriminate.
Defined.

Lemma joined_super {A} (m : Py.M Connection.t A) b :
  runs (same Connection.channels_connected) m (Bot.conn b) ->
  runs (same joined) (Bot.super m) b.
Proof.
  intros Hm o b'. unfold Bot.super, Py.lift.
  destruct (m (Bot.conn b)) as [o1 c1] eqn:E. intros [= <- <-].
  unfold same, joined. destruct b; cbn in *. exact (Hm _ _ E).
Qed.

Ltac joined_step :=
  lazymatch goal with
  | |- runs _ (Py.bind _ _) _ => apply (runs_bind (same joined) (same_trans joined)); [|intros ? ? _]
  | |- runs _ (Py.ret _) _ => apply runs_ret, same_refl
  | |- runs _ (Py.raise _) _ => apply runs_raise, same_refl
  | |- runs _ (Py.gets _) _ => apply runs_gets, same_refl
  | |- runs _ (Bot.record _) ?b => apply runs_modify; destruct b; reflexivity
  | |- runs _ (Bot.super (Py.modify _)) ?b =>
      apply joined_super, runs_modify; destruct (Bot.conn b); reflexivity
  | |- runs _ (Py.for_each _ _) _ =>
      apply (runs_for_each (same joined) (same_refl joined) (same_trans joined)); intros ? ? _
  | |- runs _ (Py.for_fold _ _ _) _ =>
      apply (runs_for_fold (same joined) (same_refl joined) (same_trans joined)); intros ? ? ? _
  | |- runs _ (match ?x with _ => _ end) _ => destruct x
  end.

Section Joined.
Context `{DefaultNow} `{Regex} `{PermissionList}.

Lemma joined_call_handlers event args b : runs (same joined) (Bot.call_handlers event args) b.
Proof. unfold Bot.call_handlers. repeat joined_step. Qed.

Lemma joined_check message command b :
  runs (same joined) (Bot.check_permissions_from_command message command) b.
Proof.
  unfold Bot.check_permissions_from_command. cbv zeta.
  repeat first [apply joined_call_handlers | joined_step].
Qed.

Lemma joined_command_call message self b :
  runs (same joined) (Bot.Command__call__ self message) b.
Proof.
  unfold Bot.Command__call__. cbv zeta.
  repeat first [apply joined_check | joined_step].
Qed.

Lemma joined_send message queue b : runs (same joined) (Bot.send message queue) b.
Proof.
  unfold Bot.send.
  repeat first [apply joined_super, listed_send | joined_step].
Qed.

Lemma joined_do_unknown_command message b :
  runs (same joined) (Bot._do_unknown_command message) b.
Proof.
  unfold Bot._do_unknown_command.
  repeat first [apply joined_send
               | apply runs_stateless; [apply same_refl | apply stateless_index]
               | joined_step].
Qed.

Lemma joined_call_command_handlers message b :
  runs (same joined) (Bot._call_command_handlers message) b.
Proof.
  unfold Bot._call_command_handlers, Bot._call_forced_prefix_commands.
  repeat first [apply joined_command_call | apply joined_do_unknown_command | joined_step].
Qed.

Lemma joined_discard i b : runs (same joined) (Bot.discard i) b.
Proof.
  unfold Bot.discard. apply joined_super, runs_modify.
  destruct (Py.list_remove message_eq i _); [|reflexivity].
  destruct (Bot.conn b); reflexivity.
Qed.

Lemma joined_handle_received i b : runs (same joined) (Bot.handle_received i) b.
Proof.
  unfold Bot.handle_received.
  repeat first [ apply joined_call_handlers | apply joined_discard
               | apply joined_call_command_handlers
               | apply joined_super, listed_force_send
               | joined_step ].
Qed.

Lemma joined_disconnect b : runs (same joined) Bot.disconnect b.
Proof.
  unfold Bot.disconnect.
  repeat first [ apply joined_call_handlers | apply joined_super, listed_disconnect
               | joined_step ].
Qed.

Lemma joined_receive data b : runs (same joined) (Bot.receive data) b.
Proof.
  unfold Bot.receive. cbv zeta.
  repeat first [ apply joined_disconnect | joined_step ].
Qed.

End Joined.

(** X28.  [_run_once] returns [False], to stop the main loop, without doing
    anything when the bot has no socket, and [True] without doing
    anything when the socket has nothing to read.  A tick that reads and
    returns, returns [False] exactly when [channels_connected] is empty
    when the tick ends, whatever the handlers and commands of the tick
    did to the list.  A read that returns nothing ends in [SystemExit],
    in the state [Bot.disconnect] leaves when it returns. *)
Theorem run_once_tells_whether_to_go_on `{DefaultNow} `{Regex} `{PermissionList}
        (data : string) (b : Bot.t) :
  (Connection.socket (Bot.conn b) = None ->
   forall readable, Bot._run_once readable data b = (Py.Ok false, b)) /\
  (Connection.socket (Bot.conn b) <> None ->
   Bot._run_once false data b = (Py.Ok true, b) /\
   (forall r b', Bot._run_once true data b = (Py.Ok r, b') ->
                 r = match joined b' with [] => false | _ :: _ => true end) /\
   (forall b1, Bot.disconnect b = (Py.Ok tt, b1) ->
               Bot._run_once true "" b = (Py.Raise Py.SystemExit, b1))).
Proof.
  unfold Bot._run_once. split.
  - intros Hs readable. unfold Py.bind at 1. cbn [Py.gets]. now rewrite Hs.
  - intros Hs. destruct (Connection.socket (Bot.conn b)) as [sock|] eqn:E; [|contradiction].
    rewrite !(bind_eq _ _ b (Some sock) b) by (unfold Py.gets; now rewrite E).
    cbn [negb]. split; [reflexivity|]. split.
    + intros r b'. unfold Py.bind at 1.
      destruct (Bot.receive data b) as [[[]|e] b1]; [|discriminate].
      unfold Py.bind at 1.
      destruct (Bot.super (Connection.process_messages 100 2) b1) as [[msgs|e] b2];
        [|discriminate].
      unfold Py.bind at 1. cbn [Py.gets]. unfold Py.bind at 1.
      destruct (Py.for_each _ Bot.handle_received b2) as [[[]|e] b3]; [|discriminate].
      unfold Py.bind at 1. cbn [Py.gets]. fold (joined b3).
      destruct (joined b3) as [|ch chs] eqn:Hj.
      * intros [= <- <-]. now rewrite Hj.
      * unfold Py.bind.
        destruct (Bot.super (Connection.flush_queue 100) b3) as [[n|e] b4] eqn:Hfl;
          [|discriminate].
        apply (joined_super _ b3 (listed_flush_queue 100 (Bot.conn b3))) in Hfl.
        intros [= <- <-]. unfold same in Hfl. now rewrite Hfl, Hj.
    + intros b1 Hd. unfold Py.bind at 1. unfold Bot.receive.
      rewrite (bind_eq _ _ b (Some sock) b) by (unfold Py.gets; now rewrite E).
      change (Py.replace Py.CRLF Py.LF None "") with "". cbn [String.eqb].
      unfold Py.bind. now rewrite Hd.
Qed.

Lemma run_once_tells_whether_to_go_on_witness :
  (exists b',
     @Bot._run_once loaded_at_zero (ping_captures "tmi.twitch.tv") stored_permissions true
       ("PING :tmi.twitch.tv" ++ Py.CRLF) running_bot = (Py.Ok true, b') /\
     joined b' <> []) /\
  (exists b',
     @Bot._run_once loaded_at_zero no_tagged_lines stored_permissions true
       (":tmi.twitch.tv 001 bot :Welcome, GLHF!" ++ Py.CRLF) connected_bot
     = (Py.Ok false, b') /\
     joined b' = []).
Proof.
  split.
  - destruct (@Bot._run_once loaded_at_zero (ping_captures "tmi.twitch.tv") stored_permissions
                true ("PING :tmi.twitch.tv" ++ Py.CRLF) running_bot) as [o b'] eqn:E.
    assert (Ho : o = Py.Ok true)
      by (apply (f_equal fst) in E; vm_compute in E; now symmetry).
    subst o. exists b'. split; [reflexivity|].
    assert (Hsock : Connection.socket (Bot.conn running_bot) <> None) by discriminate.
    destruct (proj2 (@run_once_tells_whether_to_go_on loaded_at_zero
                       (ping_captures "tmi.twitch.tv") stored_permissions
                       ("PING :tmi.twitch.tv" ++ Py.CRLF) running_bot) Hsock)
      as (_ & Hread & _).
    pose proof (Hread true b' E) as Hr.
    destruct (joined b'); [discriminate Hr|discriminate].
  - destruct (@Bot._run_once loaded_at_zero no_tagged_lines stored_permissions
                true (":tmi.twitch.tv 001 bot :Welcome, GLHF!" ++ Py.CRLF) connected_bot)
      as [o b'] eqn:E.
    assert (Ho : o = Py.Ok false)
      by (apply (f_equal fst) in E; vm_compute in E; now symmetry).
    subst o. exists b'. split; [reflexivity|].
    assert (Hsock : Connection.socket (Bot.conn connected_bot) <> None) by discriminate.
    destruct (proj2 (@run_once_tells_whether_to_go_on loaded_at_zero
                       no_tagged_lines stored_permissions
                       (":tmi.twitch.tv 001 bot :Welcome, GLHF!" ++ Py.CRLF) connected_bot)
                Hsock) as (_ & Hread & _).
    pose proof (Hread false b' E) as Hr.
    destruct (joined b'); [reflexivity|discriminate Hr].
Defined.

(* ===================================================================== *)
(** ** Stock commands *)
(* ===================================================================== *)

Lemma bot_send_reply (msg : ChannelMessage.t) (text queue : string) (b : Bot.t) :
  Bot._in_rc_mode b = false ->
  Connection.socket (Bot.conn b) <> None \/ Connection.hold_send (Bot.conn b) = true ->
  Bot.send (Msg (Channel (ChannelMessage.reply msg text))) queue b
  = (Py.Ok tt,
     Bot.set_conn
       (enqueued (Bot.conn b) (ChannelMessage.channel msg)
          (reply_line msg (Py.replace Py.CRLF "" None text))) b).
Proof.
  intros Hrc Hconn. unfold Bot.send.
  rewrite (bind_eq _ _ b false b) by (unfold Py.gets; now rewrite Hrc).
  unfold Bot.super, Py.lift.
  assert (Hr : routed (Msg (Channel (ChannelMessage.reply msg text))) queue
               = Some (ChannelMessage.channel msg)) by reflexivity.
  rewrite (send_run _ queue (ChannelMessage.channel msg) (Bot.conn b) Hr).
  - reflexivity.
  - destruct Hconn as [Hs|Hh]; [|rewrite Hh; apply orb_true_r].
    now rewrite bool_decide_eq_true_2.
Qed.

(** X29.  The stock handler of [permission_error] does nothing when the
    check was made without a command, as [check_permissions] makes it.
    For a command it queues, on the queue of the channel of the message,
    a reply that names the user, the missing permissions separated by a
    comma and a space, and the command. *)
Theorem stock_permission_handler_answers_for_commands (event : string)
        (msg : ChannelMessage.t) (command : Command.t) (missing : list string)
        (b : Bot.t) :
  StockCommands.permission_error_handler event msg None missing b = (Py.Ok tt, b) /\
  (Bot._in_rc_mode b = false ->
   Connection.socket (Bot.conn b) <> None \/ Connection.hold_send (Bot.conn b) = true ->
   StockCommands.permission_error_handler event msg (Some command) missing b
   = (Py.Ok tt,
      Bot.set_conn
        (enqueued (Bot.conn b) (ChannelMessage.channel msg)
           (reply_line msg
              (Py.replace Py.CRLF "" None
                 ("@" ++ ChannelMessage.user msg ++ " You are missing permissions ("
                    ++ Py.join ", " missing ++ ") to use command "
                    ++ Command.chat_command command ++ ".")))) b)).
Proof.
  split; [reflexivity|]. intros Hrc Hconn.
  unfold StockCommands.permission_error_handler. now apply bot_send_reply.
Qed.

Lemma stock_permission_handler_answers_for_commands_witness :
  StockCommands.permission_error_handler "permission_error"
    (ChannelMessage.__init__ "!quit" "bob" "foo") (Some quit_command)
    [PERMISSION_COMMAND_QUIT] running_bot
  = (Py.Ok tt,
     Bot.set_conn
       (enqueued (Bot.conn running_bot) "foo"
          ("PRIVMSG #foo :@bob You are missing permissions (twitchirc.quit) to use command quit."
             ++ Py.CRLF))
       running_bot).
Proof.
  refine (proj2 (stock_permission_handler_answers_for_commands "permission_error"
                   (ChannelMessage.__init__ "!quit" "bob" "foo") quit_command
                   [PERMISSION_COMMAND_QUIT] running_bot) _ _).
  - vm_compute. reflexivity.
  - left. vm_compute. discriminate.
Defined.

Lemma join_run `{DefaultNow} (channel : string) (c : Connection.t)
      (misc : list string) (wait : Z) :
  Connection.queue c !! "misc" = Some misc ->
  Connection.message_wait c !! "misc" = Some wait ->
  Connection.hold_send c = false ->
  Connection.join channel c
  = (Py.Ok tt,
     Connection.set_channels_connected (Connection.channels_connected c ++ [channel])
       (Connection.set_message_wait
          (<[channel := Connection.clock c]>
             (<["misc" := definition_time + Connection.message_cooldown c]>
                (Connection.message_wait c)))
          (Connection.set_queue (<[channel := []]> (Connection.queue c))
             (Connection.set_wire (transmitted c ["join #" ++ channel ++ Py.CRLF]) c)))).
Proof.
  intros Hq Hw Hh. unfold Connection.join.
  unfold Py.bind at 1. rewrite (force_send_run _ c misc wait Hq Hw), Hh.
  destruct c; reflexivity.
Qed.

Lemma second_word (word arg rest : string) :
  Py.contains " " word = false -> Py.contains " " arg = false ->
  rest = "" \/ Py.startswith rest " " = true ->
  nth_error (Py.split " " None (word ++ " " ++ arg ++ rest)) 1 = Some arg.
Proof.
  intros Hw Ha Hrest.
  change (word ++ " " ++ arg ++ rest) with (word ++ String " " (arg ++ rest)).
  rewrite (split_word_all " " word _ Hw). cbn [nth_error].
  destruct Hrest as [->|Hsp].
  - rewrite append_nil_r, (split_without_sep " " None arg Ha). reflexivity.
  - destruct rest as [|c rest]; [discriminate|].
    unfold Py.startswith in Hsp. rewrite prefix_cons, prefix_nil, andb_true_r in Hsp.
    apply Ascii.eqb_eq in Hsp as <-.
    rewrite (split_word_all " " arg rest Ha). reflexivity.
Qed.

(** X30.  The stock command [join] takes the second word of the text, in
    lower case, as the channel.  For [all], and for a channel the bot is
    listed in, it only queues a reply on the queue of the channel of the
    message.  Otherwise it queues the reply and joins the channel: the
    join line is handed to the socket at once and the channel is added to
    [channels_connected] with an empty queue.  The second word may be
    empty, as it is for the text [!join] once the dispatcher has added a
    space to it: the channel is then the lower case of the empty
    string. *)
Theorem stock_join_command `{DefaultNow} `{CaseMapping} (msg : ChannelMessage.t)
        (word arg rest : string) (b : Bot.t) (misc : list string) (wait : Z) :
  ChannelMessage.text msg = word ++ " " ++ arg ++ rest ->
  Py.contains " " word = false -> Py.contains " " arg = false ->
  rest = "" \/ Py.startswith rest " " = true ->
  Bot._in_rc_mode b = false ->
  Connection.socket (Bot.conn b) <> None ->
  Connection.hold_send (Bot.conn b) = false ->
  Connection.queue (Bot.conn b) !! "misc" = Some misc ->
  Connection.message_wait (Bot.conn b) !! "misc" = Some wait ->
  let chan := lower arg in
  let replied text :=
    Bot.set_conn
      (enqueued (Bot.conn b) (ChannelMessage.channel msg)
         (reply_line msg (Py.replace Py.CRLF "" None text))) b in
  (chan = "all" ->
   StockCommands.command_join msg b = (Py.Ok tt, replied ("Cannot join #" ++ chan ++ "."))) /\
  (chan <> "all" -> In chan (joined b) ->
   StockCommands.command_join msg b
   = (Py.Ok tt, replied ("This bot is already in channel #" ++ chan ++ "."))) /\
  (chan <> "all" -> ~ In chan (joined b) ->
   exists b',
     StockCommands.command_join msg b = (Py.Ok tt, b') /\
     joined b' = (joined b ++ [chan])%list /\
     Connection.wire (Bot.conn b')
     = (Connection.wire (Bot.conn b) ++ [("join #" ++ chan ++ Py.CRLF)%string])%list /\
     Connection.queue (Bot.conn b')
     = <[chan := []]>
         (Connection.queue
            (Bot.conn (replied ("Joining channel #" ++ chan ++ "."))))).
Proof.
  intros Htext Hword Harg Hrest Hrc Hsock Hhold Hq Hw chan replied.
  assert (Hconn : Connection.socket (Bot.conn b) <> None \/
                  Connection.hold_send (Bot.conn b) = true) by now left.
  assert (Hstart : forall k : string -> Py.M Bot.t unit,
             (let* word := Py.index (Py.split " " None (ChannelMessage.text msg)) 1 in k word) b
             = k arg b).
  { intros k. unfold Py.bind, Py.index.
    now rewrite Htext, (second_word word arg rest Hword Harg Hrest). }
  unfold StockCommands.command_join. rewrite Hstart. cbv zeta. fold chan.
  unfold Py.list_in. cbn [existsb]. rewrite orb_false_r.
  repeat split.
  - intros E. rewrite E. cbn [String.eqb Ascii.eqb Bool.eqb].
    subst replied. cbv beta. rewrite <- E. now apply bot_send_reply.
  - intros Hne Hin. apply String.eqb_neq in Hne. rewrite Hne.
    rewrite (bind_eq _ _ b (joined b) b) by reflexivity.
    assert (Hex : existsb (String.eqb chan) (joined b) = true).
    { apply existsb_exists. exists chan. split; [exact Hin|apply String.eqb_refl]. }
    rewrite Hex. now apply bot_send_reply.
  - intros Hne Hnin. apply String.eqb_neq in Hne. rewrite Hne.
    rewrite (bind_eq _ _ b (joined b) b) by reflexivity.
    assert (Hex : existsb (String.eqb chan) (joined b) = false).
    { destruct (existsb (String.eqb chan) (joined b)) eqn:E; [|reflexivity].
      apply existsb_exists in E as (x & Hx & Ex). apply String.eqb_eq in Ex as <-.
      contradiction. }
    rewrite Hex.
    rewrite (bind_eq _ _ _ _ _ (bot_send_reply msg _ "misc" b Hrc Hconn)).
    fold (replied ("Joining channel #" ++ chan ++ ".")).
    set (b1 := replied _).
    assert (Hq1 : exists misc1, Connection.queue (Bot.conn b1) !! "misc" = Some misc1).
    { subst b1 replied. cbv beta. unfold enqueued, with_queue.
      destruct (Connection.queue (Bot.conn b) !! ChannelMessage.channel msg) eqn:Hc;
        destruct b as [c ? ? ? ? ? ? ? ? ?]; destruct c; cbn in *;
        (destruct (decide (ChannelMessage.channel msg = "misc")) as [->|Hn];
         [rewrite ?lookup_insert_eq; eauto
         |rewrite ?lookup_insert_ne by congruence; eauto]). }
    assert (Hw1 : exists wait1, Connection.message_wait (Bot.conn b1) !! "misc" = Some wait1).
    { subst b1 replied. cbv beta. unfold enqueued, with_queue.
      destruct (Connection.queue (Bot.conn b) !! ChannelMessage.channel msg) eqn:Hc;
        destruct b as [c ? ? ? ? ? ? ? ? ?]; destruct c; cbn in *; eauto.
      destruct (decide (ChannelMessage.channel msg = "misc")) as [E|Hn];
        [rewrite E in Hc; congruence|rewrite lookup_insert_ne by congruence; eauto]. }
    destruct Hq1 as [misc1 Hq1]. destruct Hw1 as [wait1 Hw1].
    assert (Hh1 : Connection.hold_send (Bot.conn b1) = false).
    { subst b1 replied. cbv beta. unfold enqueued, with_queue.
      destruct (Connection.queue (Bot.conn b) !! ChannelMessage.channel msg);
        destruct b as [c ? ? ? ? ? ? ? ? ?]; destruct c; cbn in *; exact Hhold. }
    assert (Hs1 : Connection.socket (Bot.conn b1) = Connection.socket (Bot.conn b)).
    { subst b1 replied. cbv beta. unfold enqueued, with_queue.
      destruct (Connection.queue (Bot.conn b) !! ChannelMessage.channel msg);
        destruct b as [c ? ? ? ? ? ? ? ? ?]; destruct c; reflexivity. }
    assert (Hwire1 : Connection.wire (Bot.conn b1) = Connection.wire (Bot.conn b)).
    { subst b1 replied. cbv beta. unfold enqueued, with_queue.
      destruct (Connection.queue (Bot.conn b) !! ChannelMessage.channel msg);
        destruct b as [c ? ? ? ? ? ? ? ? ?]; destruct c; reflexivity. }
    assert (Hj1 : joined b1 = joined b).
    { subst b1 replied. cbv beta. unfold joined, enqueued, with_queue.
      destruct (Connection.queue (Bot.conn b) !! ChannelMessage.channel msg);
        destruct b as [c ? ? ? ? ? ? ? ? ?]; destruct c; reflexivity. }
    unfold Bot.super, Py.lift.
    rewrite (join_run chan (Bot.conn b1) misc1 wait1 Hq1 Hw1 Hh1).
    eexists. split; [reflexivity|].
    unfold transmitted.
    destruct (Connection.socket (Bot.conn b)) as [sock|] eqn:Es; [|contradiction].
    clearbody b1. destruct b1 as [c1 ? ? ? ? ? ? ? ? ?]; destruct c1; cbn in *.
    subst. repeat split; reflexivity.
Qed.

Lemma stock_join_command_witness :
  exists b',
    @StockCommands.command_join loaded_at_zero ascii_lower
      (ChannelMessage.__init__ "!join Bar" "bob" "foo") running_bot = (Py.Ok tt, b') /\
    joined b' = ["foo"; "bar"] /\
    Connection.wire (Bot.conn b')
    = (Connection.wire (Bot.conn running_bot) ++ [("join #bar" ++ Py.CRLF)%string])%list.
Proof.
  destruct (@stock_join_command loaded_at_zero ascii_lower
              (ChannelMessage.__init__ "!join Bar" "bob" "foo") "!join" "Bar" ""
              running_bot [] 3 eq_refl eq_refl eq_refl (or_introl eq_refl) eq_refl
              ltac:(vm_compute; discriminate) eq_refl
              ltac:(vm_compute; reflexivity) ltac:(vm_compute; reflexivity))
    as (_ & _ & Hjoin).
  destruct Hjoin as (b' & E & J & W & _).
  - vm_compute. discriminate.
  - vm_compute. intros [E|[]]. discriminate E.
  - exists b'. split; [exact E|]. split; [exact J|exact W].
Defined.
